(** * The two-stage workflow of the project-brief frontend

    A shallow embedding of [streamlit_app.py]: one run of a Streamlit
    script is a function of the widget values and of the replies of the
    backend; it reads and writes [st.session_state], shows messages and
    issues HTTP requests.  The session is a finite map from keys to decoded
    JSON values, a run is a computation in a small state/writer/exception
    monad, and what a run shows and sends is recorded as a list of events
    in program order. *)

From Stdlib Require Import ZArith DecimalString Ascii.
From stdpp Require Import base gmap strings list.

Open Scope Z_scope.
Set Warnings "-register-all".

(** ** Decoded JSON values, as Python sees them *)

(** [response.json()] yields [None], [bool], [int], [float], [str], [list]
    and [dict] values.  A finite float is [m * 2 ^ e]; the non-standard
    tokens [NaN] and [Infinity] are outside the model.  A [dict] keeps its
    items in insertion order, a key is looked up at its first item. *)
Inductive json : Type :=
  | JNull
  | JBool (b : bool)
  | JInt (n : Z)
  | JFloat (m e : Z)
  | JStr (s : string)
  | JList (items : list json)
  | JObj (fields : list (string * json)).

(** The name of the Python type of a value, as exception messages show it. *)
Definition type_name (v : json) : string :=
  match v with
  | JNull => "NoneType"
  | JBool _ => "bool"
  | JInt _ => "int"
  | JFloat _ _ => "float"
  | JStr _ => "str"
  | JList _ => "list"
  | JObj _ => "dict"
  end.

(** Python truthiness: [if v:] *)
Definition truthy (v : json) : bool :=
  match v with
  | JNull => false
  | JBool b => b
  | JInt n => negb (n =? 0)
  | JFloat m _ => negb (m =? 0)
  | JStr s => negb (String.eqb s "")
  | JList items => match items with [] => false | _ => true end
  | JObj fields => match fields with [] => false | _ => true end
  end.

(** Item lookup in a dict. *)
Fixpoint assoc (k : string) (fields : list (string * json)) : option json :=
  match fields with
  | [] => None
  | (k', v) :: rest => if String.eqb k k' then Some v else assoc k rest
  end.

(** [d[k] = v] on a dict: an existing key keeps its place, a new key goes
    last. *)
Fixpoint assoc_set (k : string) (v : json) (fields : list (string * json))
  : list (string * json) :=
  match fields with
  | [] => [(k, v)]
  | (k', v') :: rest =>
      if String.eqb k k' then (k, v) :: rest else (k', v') :: assoc_set k v rest
  end.

(** The numeric value [m * 2 ^ e] of a [bool], [int] or [float]. *)
Definition num_of (v : json) : option (Z * Z) :=
  match v with
  | JBool b => Some (if b then 1 else 0, 0)
  | JInt n => Some (n, 0)
  | JFloat m e => Some (m, e)
  | _ => None
  end.

Definition dyadic_eqb (x y : Z * Z) : bool :=
  let '(m1, e1) := x in
  let '(m2, e2) := y in
  if e1 <=? e2 then m1 =? m2 * 2 ^ (e2 - e1) else m1 * 2 ^ (e1 - e2) =? m2.

(** Python [a == b] on decoded JSON: numbers by value ([True == 1],
    [1 == 1.0]), lists item by item, dicts regardless of item order. *)
Fixpoint py_eqb (a b : json) {struct a} : bool :=
  match a, b with
  | JNull, JNull => true
  | JStr s, JStr t => String.eqb s t
  | JList l, JList l' =>
      (fix all2 (l l' : list json) {struct l} : bool :=
         match l, l' with
         | [], [] => true
         | x :: r, y :: r' => py_eqb x y && all2 r r'
         | _, _ => false
         end) l l'
  | JObj f, JObj g =>
      Nat.eqb (length f) (length g) &&
      (fix sub (f : list (string * json)) {struct f} : bool :=
         match f with
         | [] => true
         | (k, v) :: r =>
             match assoc k g with
             | Some w => py_eqb v w
             | None => false
             end && sub r
         end) f
  | _, _ =>
      match num_of a, num_of b with
      | Some x, Some y => dyadic_eqb x y
      | _, _ => false
      end
  end.

(** [v == "literal"] *)
Definition eq_str (v : json) (s : string) : bool := py_eqb v (JStr s).

(** ** Python strings *)

(** A [str] is kept as its UTF-8 bytes. *)
Definition string_of_Z (z : Z) : string := NilZero.string_of_int (Z.to_int z).

Definition bytes (l : list nat) : string :=
  String.string_of_list_ascii (map ascii_of_nat l).

(** The characters [str.strip()] removes: the code points for which
    [str.isspace()] holds, each as its UTF-8 encoding. *)
Definition whitespace : list string :=
  map bytes
    [ [9]; [10]; [11]; [12]; [13]; [28]; [29]; [30]; [31]; [32];
      [194; 133]; [194; 160]; [225; 154; 128];
      [226; 128; 128]; [226; 128; 129]; [226; 128; 130]; [226; 128; 131];
      [226; 128; 132]; [226; 128; 133]; [226; 128; 134]; [226; 128; 135];
      [226; 128; 136]; [226; 128; 137]; [226; 128; 138];
      [226; 128; 168]; [226; 128; 169]; [226; 128; 175]; [226; 129; 159];
      [227; 128; 128] ]%nat.

Fixpoint drop_prefix (p s : string) : option string :=
  match p, s with
  | EmptyString, _ => Some s
  | String a p', String b s' => if Ascii.eqb a b then drop_prefix p' s' else None
  | String _ _, EmptyString => None
  end.

Fixpoint drop_any (ps : list string) (s : string) : option string :=
  match ps with
  | [] => None
  | p :: rest =>
      match drop_prefix p s with
      | Some s' => Some s'
      | None => drop_any rest s
      end
  end.

Fixpoint lstrip_with (ws : list string) (fuel : nat) (s : string) : string :=
  match fuel with
  | O => s
  | S fuel' =>
      match drop_any ws s with
      | Some s' => lstrip_with ws fuel' s'
      | None => s
      end
  end.

Definition string_rev (s : string) : string :=
  String.string_of_list_ascii (rev (String.list_ascii_of_string s)).

(** [s.strip()] *)
Definition strip (s : string) : string :=
  let l := lstrip_with whitespace (String.length s) s in
  string_rev
    (lstrip_with (map string_rev whitespace) (String.length l) (string_rev l)).

(** [s.split(sep)[0]]: the part of [s] before the first [sep], all of [s]
    when [sep] does not occur. *)
Fixpoint split_head (sep s : string) : string :=
  match drop_prefix sep s with
  | Some _ => ""
  | None =>
      match s with
      | EmptyString => ""
      | String c s' => String c (split_head sep s')
      end
  end.

(** ** Exceptions *)

Inductive exn_class : Type :=
  | AttributeError
  | KeyError
  | TypeError
  | ValueError
  | OverflowError
  | JSONDecodeError
  | Timeout            (* requests.exceptions.Timeout and its subclasses *)
  | ConnectionError    (* requests.exceptions.ConnectionError, not a Timeout *)
  | OtherException.

(** An exception is its class and the text [str(e)] gives. *)
Record exn : Type := Exn { exn_class_of : exn_class; exn_msg : string }.

(** ** The backend and the browser *)

(** An uploaded file, as [st.file_uploader] returns it. *)
Record upload : Type := Upload { file_name : string; file_data : string }.

(** An HTTP response: [json_body] is what [response.json()] returns, or the
    exception it raises when the body is not JSON. *)
Record response : Type := Response {
  status_code : Z;
  text : string;
  json_body : exn + json
}.

(** What a call of [requests.get] or [requests.post] comes back with. *)
Inductive reply : Type :=
  | Replied (r : response)
  | Failed (e : exn).

Inductive level : Type := Success | Info | Warning | Error.

(** What a run shows and sends.  Layout and static banners ([st.columns],
    [st.markdown], [st.spinner], [st.form], [st.expander]) show no data
    of the session and are not recorded. *)
Inductive event : Type :=
  | Alert (lv : level) (msg : string)     (* st.success/info/warning/error *)
  | Header (title : string)
  | Subheader (title : string)
  | Write (v : json)
  | Metric (label : string) (value : json)
  | Get (url : string) (timeout : Z)
  | Post (url : string) (files : list (string * upload))
         (data : list (string * json)) (timeout : Z).

(** The buttons of the script. *)
Inductive button : Type :=
  | BrandManagerButton      (* "Continue as Brand Manager" *)
  | ContentWriterButton     (* "Continue as Content Writer" *)
  | ChangeRoleButton        (* "Change Role" *)
  | AnalyzeButton           (* "Analyze Document (Stage 1)" *)
  | InlineSubmitButton      (* submit of the form "content_submission" *)
  | SubmitContentButton     (* submit of the form "content_writer_submission" *)
  | ExportJsonButton        (* "Export as JSON" *)
  | ExportCsvButton.        (* "Export Summary as CSV" *)

Definition button_index (b : button) : nat :=
  match b with
  | BrandManagerButton => 0
  | ContentWriterButton => 1
  | ChangeRoleButton => 2
  | AnalyzeButton => 3
  | InlineSubmitButton => 4
  | SubmitContentButton => 5
  | ExportJsonButton => 6
  | ExportCsvButton => 7
  end%nat.

(** The widget values of one run and the replies of the backend to the
    requests of that run.  A run is started by one interaction with the
    page, so at most one button, [pressed], reads [True] in it: every
    other [st.button] and [st.form_submit_button] of the run gives
    [False].  A select box or radio gives the index of the chosen
    option. *)
Record env : Type := Env {
  pressed : option button;
  bm_tab : nat;                    (* radio of the brand manager *)
  cw_tab : nat;                    (* radio of the content writer *)
  analysis_type_choice : nat;
  include_suggestions : bool;
  project_choice : nat;
  custom_name : string;
  content_writer_choice : nat;
  uploaded_file : option upload;
  inline_content_text : string;    (* form "content_submission" *)
  content_file : option upload;    (* form "content_writer_submission" *)
  content_text : string;
  designer_choice : nat;
  projects_reply : reply;          (* GET /projects *)
  users_reply : reply;             (* GET /users, one per run *)
  upload_reply : reply;            (* POST /upload *)
  submit_reply : reply;            (* POST /submit-content *)
  now_text : string                (* datetime.now().strftime(...) *)
}.

(** What [st.button] or [st.form_submit_button] returns for the button
    [b] in the run [e]. *)
Definition clicked (b : button) (e : env) : bool :=
  match pressed e with
  | Some b' => Nat.eqb (button_index b) (button_index b')
  | None => false
  end.

Definition click_brand_manager : env -> bool := clicked BrandManagerButton.
Definition click_content_writer : env -> bool := clicked ContentWriterButton.
Definition click_change_role : env -> bool := clicked ChangeRoleButton.
Definition click_analyze : env -> bool := clicked AnalyzeButton.
Definition click_inline_submit : env -> bool := clicked InlineSubmitButton.
Definition click_submit_content : env -> bool := clicked SubmitContentButton.

(** What the script takes from outside [streamlit_app.py]: the constants
    of [config.py], the text renderings of the Python runtime that
    depend on floating point or on [repr], and the exception with which
    the installed Streamlit rejects a value (its class and text differ
    between versions, and the repository pins none). *)
Record host : Type := Host {
  API_BASE_URL : string;
  API_TIMEOUT : Z;
  str_other : json -> string;   (* str(v) for a float, list or dict *)
  fixed2 : json -> string;      (* format(v, ".2f") for a bool, int or float *)
  metric_error : json -> exn    (* what st.metric raises for a list or dict *)
}.

(** ** The monad of a script run *)

(** [st.session_state] *)
Abbreviation session := (gmap string json).

Inductive outcome (A : Type) : Type :=
  | Ok (a : A)        (* ran to the end *)
  | Returned          (* a [return] statement was reached *)
  | Raised (e : exn)  (* an exception is propagating *)
  | Rerun.            (* [st.rerun()] stopped the script *)
Arguments Ok {A} a.
Arguments Returned {A}.
Arguments Raised {A} e.
Arguments Rerun {A}.

Definition M (A : Type) : Type := session -> outcome A * session * list event.

Definition ret {A} (a : A) : M A := fun s => (Ok a, s, []).

Definition bind {A B} (m : M A) (k : A -> M B) : M B := fun s =>
  match m s with
  | (Ok a, s1, l1) => let '(o, s2, l2) := k a s1 in (o, s2, l1 ++ l2)
  | (Returned, s1, l1) => (Returned, s1, l1)
  | (Raised e, s1, l1) => (Raised e, s1, l1)
  | (Rerun, s1, l1) => (Rerun, s1, l1)
  end.

Declare Scope py_scope.
Delimit Scope py_scope with py.
Notation "x <- m ;; k" := (bind m (fun x => k))
  (at level 100, m at next level, k at level 200, right associativity)
  : py_scope.
Notation "m ;; k" := (bind m (fun _ => k))
  (at level 100, k at level 200, right associativity) : py_scope.
Open Scope py_scope.

Definition raise {A} (c : exn_class) (msg : string) : M A :=
  fun s => (Raised (Exn c msg), s, []).
Definition throw {A} (e : exn) : M A := fun s => (Raised e, s, []).
Definition py_return {A} : M A := fun s => (Returned, s, []).
Definition st_rerun {A} : M A := fun s => (Rerun, s, []).
Definition emit (ev : event) : M unit := fun s => (Ok tt, s, [ev]).

(** [try: body except Exception as e: handler e] *)
Definition try_except {A} (body : M A) (handler : exn -> M A) : M A := fun s =>
  match body s with
  | (Raised e, s1, l1) => let '(o, s2, l2) := handler e s1 in (o, s2, l1 ++ l2)
  | r => r
  end.

(** The call of a function: a [return] inside ends the call. *)
Definition call (body : M unit) : M unit := fun s =>
  match body s with
  | (Returned, s1, l1) => (Ok tt, s1, l1)
  | r => r
  end.

(** Session state accesses. *)
Definition has_key (k : string) : M bool :=
  fun s => (Ok (bool_decide (is_Some (s !! k))), s, []).
Definition state_get (k : string) (d : json) : M json :=       (* .get(k, d) *)
  fun s => (Ok (default d (s !! k)), s, []).
Definition state_attr (k : string) : M json := fun s =>        (* .k *)
  match s !! k with
  | Some v => (Ok v, s, [])
  | None =>
      (Raised (Exn AttributeError
         ("st.session_state has no attribute " +:+ k)), s, [])
  end.
Definition state_set (k : string) (v : json) : M unit :=
  fun s => (Ok tt, <[k := v]> s, []).

Definition st_alert (lv : level) (msg : string) : M unit := emit (Alert lv msg).
Abbreviation st_success := (st_alert Success).
Abbreviation st_info := (st_alert Info).
Abbreviation st_warning := (st_alert Warning).
Abbreviation st_error := (st_alert Error).
Definition st_header (t : string) : M unit := emit (Header t).
Definition st_subheader (t : string) : M unit := emit (Subheader t).
Definition st_write (v : json) : M unit := emit (Write v).

(** [when b m]: [if b: m] *)
Definition when (b : bool) (m : M unit) : M unit := if b then m else ret tt.

(** ** Python operations on decoded JSON that can raise *)

(** [v.get(k, d)] *)
Definition py_get (v : json) (k : string) (d : json) : M json :=
  match v with
  | JObj fields => ret (default d (assoc k fields))
  | _ =>
      raise AttributeError
        ("'" +:+ type_name v +:+ "' object has no attribute 'get'")
  end.

(** [v[k]] for a string key [k] *)
Definition py_item (v : json) (k : string) : M json :=
  match v with
  | JObj fields =>
      match assoc k fields with
      | Some x => ret x
      | None => raise KeyError ("'" +:+ k +:+ "'")
      end
  | JList _ => raise TypeError "list indices must be integers or slices, not str"
  | JStr _ => raise TypeError "string indices must be integers, not 'str'"
  | _ => raise TypeError ("'" +:+ type_name v +:+ "' object is not subscriptable")
  end.

(** [for x in v]: the items of a list, the keys of a dict, the characters
    of a str (here byte by byte: every one is a [str], which is all the
    script can tell of them). *)
Definition py_iter (v : json) : M (list json) :=
  match v with
  | JList items => ret items
  | JObj fields => ret (map (fun kv => JStr (fst kv)) fields)
  | JStr s => ret (map (fun c => JStr (String c "")) (String.list_ascii_of_string s))
  | _ =>
      raise TypeError ("'" +:+ type_name v +:+ "' object is not iterable")
  end.

(** [[f x for x in l if keep x]] *)
Fixpoint py_listcomp {B} (keep : json -> M bool) (f : json -> M B)
    (l : list json) : M (list B) :=
  match l with
  | [] => ret []
  | x :: rest =>
      b <- keep x;;
      if b then y <- f x;; r <- py_listcomp keep f rest;; ret (y :: r)
      else py_listcomp keep f rest
  end.

(** [next((x for x in l if test x), None)]: the generator stops at the
    first hit. *)
Fixpoint py_next (test : json -> M bool) (l : list json) : M json :=
  match l with
  | [] => ret JNull
  | x :: rest => b <- test x;; if b then ret x else py_next test rest
  end.

(** [st.selectbox(options)] and [st.radio(options)] for options that
    start with [first]: the option at the chosen index; the first option
    is the default. *)
Definition st_selectbox {A} (first : A) (others : list A) (choice : nat) : A :=
  default first ((first :: others) !! choice).

(** [response.json()] *)
Definition response_json (r : response) : M json :=
  match json_body r with
  | inr v => ret v
  | inl e => throw e
  end.

Definition answer (r : reply) : M response :=
  match r with
  | Replied x => ret x
  | Failed e => throw e
  end.

(** [requests.get(url, timeout=t)] *)
Definition requests_get (url : string) (t : Z) (r : reply) : M response :=
  emit (Get url t);; answer r.

(** [requests.post(url, files=files, data=data, timeout=t)] *)
Definition requests_post (url : string) (files : list (string * upload))
    (data : list (string * json)) (t : Z) (r : reply) : M response :=
  emit (Post url files data t);; answer r.

(** [if s:] for a str *)
Definition nonempty (s : string) : bool := negb (String.eqb s "").

(** [float(n)] for an int rounds to the nearest float, ties to even, and
    raises [OverflowError] when that is beyond the largest float,
    [2 ^ 1024 - 2 ^ 971]: [n] fits exactly when its absolute value is
    below the midpoint [2 ^ 1024 - 2 ^ 970]. *)
Definition float_limit : Z := Eval vm_compute in 2 ^ 1024 - 2 ^ 970.

Definition fits_float (n : Z) : bool := Z.abs n <? float_limit.

Arguments fits_float : simpl never.

(** ** The script *)

Section Script.

Context (h : host).

Definition url (path : string) : string := API_BASE_URL h +:+ path.

(** [str(v)], as an f-string interpolates a value. *)
Definition py_str (v : json) : string :=
  match v with
  | JNull => "None"
  | JBool true => "True"
  | JBool false => "False"
  | JInt n => string_of_Z n
  | JStr s => s
  | _ => str_other h v
  end.

(** [f"{v:.2f}"]: an int is converted to a float first, which fails
    beyond the range of a float. *)
Definition format_2f (v : json) : M string :=
  match v with
  | JBool _ | JFloat _ _ => ret (fixed2 h v)
  | JInt n =>
      if fits_float n then ret (fixed2 h v)
      else raise OverflowError "int too large to convert to float"
  | JStr _ => raise ValueError "Unknown format code 'f' for object of type 'str'"
  | _ =>
      raise TypeError
        ("unsupported format string passed to " +:+ type_name v +:+ ".__format__")
  end.

(** [st.metric(label, value)] accepts an int, float, str or [None], and
    rejects anything else with an exception of its own. *)
Definition st_metric (label : string) (value : json) : M unit :=
  match value with
  | JList _ | JObj _ => throw (metric_error h value)
  | _ => emit (Metric label value)
  end.

(** [show_analysis_summary], lines 579-596 *)
Definition show_analysis_summary (results : json) : M unit :=
  call (
    st_subheader "📊 Quick Summary";;
    pt <- py_get results "processing_time" (JInt 0);;
    t <- format_2f pt;;
    st_metric "Processing Time" (JStr (t +:+ "s"));;
    ty <- py_get results "analysis_type" (JStr "Unknown");;
    st_metric "Analysis Type" ty;;
    ok <- py_get results "success" JNull;;
    st_metric "Status" (JStr (if truthy ok then "✅ Complete" else "❌ Failed"));;
    rd <- py_get results "report_data" (JObj []);;
    pb <- py_get rd "project_brief_id" JNull;;
    when (truthy pb) (
      rd' <- py_item results "report_data";;
      pb' <- py_item rd' "project_brief_id";;
      st_info ("**Project ID:** " +:+ py_str pb'))).

Section Run.

Context (e : env).

(** The recipient a select box of [name (email)] labels stands for, lines
    338-344 and 704-710: the part of the chosen label before [" ("] is
    looked up among the names of the eligible users. *)
Definition resolve_recipient (eligible : list json) (choice : nat)
    (announce : json -> M unit) : M json :=
  labels <- py_listcomp (fun _ => ret true)
              (fun user =>
                 n <- py_item user "name";;
                 m <- py_item user "email";;
                 ret (py_str n +:+ " (" +:+ py_str m +:+ ")"))
              eligible;;
  let selected := st_selectbox "None" labels choice in
  if negb (String.eqb selected "None") then
    let selected_name := split_head " (" selected in
    selected_user <- py_next
                       (fun user =>
                          n <- py_item user "name";;
                          ret (eq_str n selected_name))
                       eligible;;
    if truthy selected_user then
      id <- py_item selected_user "basecamp_user_id";;
      announce selected_user;;
      ret id
    else ret JNull
  else ret JNull.

(** [pdata.get("success") and pdata.get(key)] *)
Definition success_and (data : json) (key : string) : M json :=
  ok <- py_get data "success" JNull;;
  if truthy ok then py_get data key JNull else ret ok.

(** The users with an external identifier, lines 325-328 and 693-694. *)
Definition eligible_users (users_data : json) : M (list json) :=
  available_users <- py_item users_data "users";;
  us <- py_iter available_users;;
  py_listcomp
    (fun user => i <- py_get user "basecamp_user_id" JNull;; ret (truthy i))
    ret us.

Definition clear_project : M unit :=
  state_set "selected_project_id" JNull;;
  state_set "selected_project_name" JNull.

(** Project selection, lines 272-313. *)
Definition select_project : M unit :=
  st_subheader "📋 Select Project";;
  st_info "Choose which project this ad campaign belongs to. The system will automatically retrieve the project's Basecamp message board and document vault.";;
  try_except (
    resp <- requests_get (url "/projects") (API_TIMEOUT h) (projects_reply e);;
    if status_code resp =? 200 then
      pdata <- response_json resp;;
      found <- success_and pdata "projects";;
      if truthy found then
        projects <- py_item pdata "projects";;
        ps <- py_iter projects;;
        names <- py_listcomp
                   (fun p => st <- py_get p "status" JNull;; ret (eq_str st "active"))
                   (fun p => py_get p "name" (JStr "Unnamed Project"))
                   ps;;
        let selected_project :=
          st_selectbox (JStr "Select a project...")
            (names ++ [JStr "Other - Custom Project"]) (project_choice e) in
        (if eq_str selected_project "Select a project..." then
           st_warning "⚠️ Please select a project";; py_return
         else ret tt);;
        if eq_str selected_project "Other - Custom Project" then
          (if negb (nonempty (strip (custom_name e))) then
             st_warning "⚠️ Please provide a custom project name";; py_return
           else ret tt);;
          state_set "selected_project_id" JNull;;
          state_set "selected_project_name" (JStr (custom_name e))
        else
          sel <- py_next
                   (fun p => n <- py_get p "name" JNull;;
                             ret (py_eqb n selected_project))
                   ps;;
          when (truthy sel) (
            i <- py_get sel "id" JNull;;
            state_set "selected_project_id" i;;
            n <- py_get sel "name" JNull;;
            state_set "selected_project_name" n;;
            d <- py_get sel "description" (JStr "No description available");;
            st_info ("📋 **Project Details:** " +:+ py_str d))
      else
        st_info "📤 No projects found. Using fallback options.";;
        clear_project
    else
      st_error ("❌ Failed to fetch projects from backend: "
                +:+ string_of_Z (status_code resp));;
      clear_project)
    (fun ex =>
       st_error ("❌ Error fetching projects: " +:+ exn_msg ex);;
       clear_project).

(** Content-writer selection, lines 315-370; the result is the value of
    [content_writer_id] after the block. *)
Definition select_content_writer : M json :=
  st_subheader "👥 Select Content Writer";;
  st_info "Select the content writer who will receive the Stage 1 report and notification.";;
  try_except (
    response <- requests_get (url "/users") (API_TIMEOUT h) (users_reply e);;
    if status_code response =? 200 then
      users_data <- response_json response;;
      found <- success_and users_data "users";;
      if truthy found then
        content_writers <- eligible_users users_data;;
        content_writer_id <-
          match content_writers with
          | _ :: _ =>
              resolve_recipient content_writers (content_writer_choice e)
                (fun selected_user =>
                   n <- py_item selected_user "name";;
                   i <- py_item selected_user "basecamp_user_id";;
                   st_success ("✅ Selected: " +:+ py_str n +:+ " (Basecamp ID: "
                               +:+ py_str i +:+ ")"))
          | [] =>
              st_warning "⚠️ No content writers available with Basecamp access";;
              ret JNull
          end;;
        (if truthy content_writer_id then
           st_subheader "📋 Selected Team Member";;
           selected_cw <- py_next
                            (fun user =>
                               i <- py_item user "basecamp_user_id";;
                               ret (py_eqb i content_writer_id))
                            content_writers;;
           when (truthy selected_cw) (
             n <- py_item selected_cw "name";;
             m <- py_item selected_cw "email";;
             st_info ("**Content Writer:** " +:+ py_str n +:+ " (" +:+ py_str m
                      +:+ ")"))
         else
           st_warning "⚠️ Please select a content writer to receive the Stage 1 report");;
        ret content_writer_id
      else
        st_error "❌ Failed to fetch users from backend";;
        ret JNull
    else
      st_error ("❌ Backend error: " +:+ string_of_Z (status_code response));;
      ret JNull)
    (fun ex =>
       st_error ("❌ Error connecting to backend: " +:+ exn_msg ex);;
       st_info "💡 Make sure the backend server is running";;
       ret JNull).

(** The form [content_submission] the brand manager sees after a
    Stage 1 analysis, lines 447-462. *)
Definition content_submission_form : M unit :=
  when (click_inline_submit e && nonempty (strip (inline_content_text e))) (
    st_info "💡 **Note:** Designer selection will be handled by the content writer in their dashboard.";;
    st_success "✅ Content submitted successfully! The content writer will now handle designer selection and report generation.";;
    state_set "submitted_content" (JStr (inline_content_text e))).

(** The integration status shown after Stage 1, lines 421-432. *)
Definition show_stage1_integration (result : json) : M unit :=
  bi <- py_get result "basecamp_integration" JNull;;
  when (truthy bi) (
    basecamp_status <- py_item result "basecamp_integration";;
    st_subheader "📤 Basecamp Integration Status";;
    up <- py_get basecamp_status "content_writer_uploaded" JNull;;
    when (truthy up) (st_success "✅ Content Writer Report uploaded to Basecamp");;
    nt <- py_get basecamp_status "content_writer_notified" JNull;;
    when (truthy nt) (st_success "✅ Content Writer notification sent");;
    er <- py_get basecamp_status "errors" JNull;;
    when (truthy er) (
      er' <- py_item basecamp_status "errors";;
      st_error ("⚠️ Some errors occurred: " +:+ py_str er'))).

(** The text of the three [except] clauses of the upload, lines 470-475. *)
Definition upload_error_text (ex : exn) : string :=
  match exn_class_of ex with
  | Timeout => "⏰ Analysis timed out. Please try again with a shorter document."
  | ConnectionError =>
      "🔌 Connection error. Please check if the backend server is running."
  | _ => "❌ Unexpected error: " +:+ exn_msg ex
  end.

(** The form data of the upload, lines 396-402. *)
Definition upload_data (analysis_type : string) (suggestions : bool)
    (content_writer_id project_id project_name : json) : list (string * json) :=
  [ ("content_writer_id", content_writer_id);
    ("analysis_type", JStr analysis_type);
    ("include_suggestions", JBool suggestions);
    ("project_id", project_id);
    ("project_name", project_name) ].

(** What the Analyze button does once a content writer is chosen, lines
    392-475. *)
Definition analyze_document (analysis_type : string) (suggestions : bool)
    (file : upload) (content_writer_id : json) : M unit :=
  try_except (
    project_id <- state_get "selected_project_id" JNull;;
    project_name <- state_get "selected_project_name" JNull;;
    let data := upload_data analysis_type suggestions content_writer_id
                  project_id project_name in
    response <- requests_post (url "/upload") [("file", file)] data 300
                  (upload_reply e);;
    if status_code response =? 200 then
      result <- response_json response;;
      state_set "analysis_results" result;;
      state_set "uploaded_file" (JStr (file_name file));;
      st_success "🎉 Stage 1 Analysis completed successfully!";;
      show_stage1_integration result;;
      show_analysis_summary result;;
      rd <- py_get result "report_data" (JObj []);;
      pb <- py_get rd "project_brief_id" JNull;;
      when (truthy pb) (
        rd' <- py_item result "report_data";;
        pb' <- py_item rd' "project_brief_id";;
        state_set "project_brief_id" pb';;
        state_set "content_writer_id" content_writer_id);;
      st_subheader "🚀 Stage 2: Submit Content for Designer";;
      st_info "After the content writer completes their work, submit the content here to generate a designer report.";;
      content_submission_form;;
      st_info "📊 Switch to 'Analysis Results' tab to view detailed reports"
    else
      st_error ("❌ Analysis failed: " +:+ text response))
    (fun ex => st_error (upload_error_text ex)).

(** File upload and the Analyze button, lines 372-390. *)
Definition upload_section (analysis_type : string) (suggestions : bool)
    (content_writer_id : json) : M unit :=
  match uploaded_file e with
  | Some file =>
      st_success ("✅ File uploaded: " +:+ file_name file);;
      st_subheader "🔍 Analysis Options";;
      st_write (JStr ("**Analysis Type:** " +:+ analysis_type));;
      st_write (JStr ("**Include Suggestions:** " +:+ py_str (JBool suggestions)));;
      when (click_analyze e) (
        (if negb (truthy content_writer_id) then
           st_error "❌ Please select a content writer to receive the Stage 1 report";;
           py_return
         else ret tt);;
        analyze_document analysis_type suggestions file content_writer_id)
  | None => ret tt
  end.

(** [upload_and_analyze_tab], lines 265-475 *)
Definition upload_and_analyze_tab (analysis_type : string) (suggestions : bool)
  : M unit :=
  call (
    st_header "📤 Upload & Analyze Project Brief";;
    st_subheader "📁 Upload Document";;
    select_project;;
    content_writer_id <- select_content_writer;;
    upload_section analysis_type suggestions content_writer_id).

(** Designer selection, lines 684-723; the result is the value of
    [designer_id] after the block. *)
Definition select_designer : M json :=
  st_subheader "🎨 Select Designer for Report";;
  st_info "Choose a designer who will receive the report based on your content.";;
  try_except (
    response <- requests_get (url "/users") (API_TIMEOUT h) (users_reply e);;
    if status_code response =? 200 then
      users_data <- response_json response;;
      found <- success_and users_data "users";;
      if truthy found then
        designers <- eligible_users users_data;;
        match designers with
        | _ :: _ =>
            resolve_recipient designers (designer_choice e)
              (fun selected_user =>
                 n <- py_item selected_user "name";;
                 st_success ("✅ Selected: " +:+ py_str n))
        | [] =>
            st_warning "⚠️ No designers available";;
            ret JNull
        end
      else
        st_error "❌ Failed to fetch designers";;
        ret JNull
    else
      st_error ("❌ Backend error: " +:+ string_of_Z (status_code response));;
      ret JNull)
    (fun ex =>
       st_error ("❌ Error connecting to backend: " +:+ exn_msg ex);;
       ret JNull).

(** The form data of a Stage 2 submission, lines 740-754. *)
Definition content_data (project_brief_id designer_id : json)
  : list (string * json) :=
  let d := [ ("project_brief_id", project_brief_id);
             ("designer_id", designer_id);
             ("content_writer_id", JNull) ] in
  let d := if nonempty (strip (content_text e))
           then assoc_set "content_text" (JStr (content_text e)) d else d in
  match content_file e with
  | Some _ => assoc_set "has_file" (JBool true) d
  | None => d
  end.

Definition content_files : list (string * upload) :=
  match content_file e with
  | Some f => [("content_file", f)]
  | None => []
  end.

(** What the submit button of the content writer does once the content
    and the designer are there, lines 737-790. *)
Definition submit_content (project_brief_id designer_id : json) : M unit :=
  try_except (
    content_response <- requests_post (url "/submit-content") content_files
                          (content_data project_brief_id designer_id) 300
                          (submit_reply e);;
    if status_code content_response =? 200 then
      content_result <- response_json content_response;;
      st_success "🎉 Content submitted successfully! Designer report generated and uploaded to Basecamp.";;
      bi <- py_get content_result "basecamp_integration" JNull;;
      when (truthy bi) (
        designer_status <- py_item content_result "basecamp_integration";;
        up <- py_get designer_status "designer_uploaded" JNull;;
        when (truthy up) (st_success "✅ Designer Report uploaded to Basecamp");;
        nt <- py_get designer_status "designer_notified" JNull;;
        when (truthy nt) (st_success "✅ Designer notification sent"));;
      state_set "designer_results" content_result
    else
      st_error ("❌ Content submission failed: " +:+ text content_response))
    (fun ex => st_error ("❌ Error submitting content: " +:+ exn_msg ex)).

(** The form [content_writer_submission], lines 664-790. *)
Definition content_writer_submission (project_brief_id : json) : M unit :=
  st_subheader "✍️ Submit Your Content";;
  st_info "📁 Upload your completed content document (PDF, DOCX, or TXT)";;
  designer_id <- select_designer;;
  when (click_submit_content e) (
    (if negb (bool_decide (is_Some (content_file e)))
        && negb (nonempty (strip (content_text e))) then
       st_error "❌ Please either upload a content document or enter content text";;
       py_return
     else ret tt);;
    (if negb (truthy designer_id) then
       st_error "❌ Please select a designer to receive the report";;
       py_return
     else ret tt);;
    submit_content project_brief_id designer_id).

(** [content_writer_submit_tab], lines 647-790 *)
Definition content_writer_submit_tab : M unit :=
  call (
    st_header "📤 Submit Completed Content";;
    present <- has_key "analysis_results";;
    (if negb present then
       st_info "📤 No projects available. Please wait for a brand manager to assign you a project.";;
       py_return
     else ret tt);;
    results <- state_attr "analysis_results";;
    rd <- py_get results "report_data" (JObj []);;
    project_brief_id <- py_get rd "project_brief_id" JNull;;
    (if negb (truthy project_brief_id) then
       st_error "❌ No project ID found. Please contact the brand manager.";;
       py_return
     else ret tt);;
    st_info ("**Project ID:** " +:+ py_str project_brief_id);;
    content_writer_submission project_brief_id).

(** [content_writer_history_tab], lines 792-832 *)
Definition content_writer_history_tab : M unit :=
  call (
    st_header "📚 Content History";;
    present <- has_key "designer_results";;
    (if negb present then
       st_info "📤 No completed content submissions yet. Submit your content to see history here.";;
       py_return
     else ret tt);;
    results <- state_attr "designer_results";;
    st_subheader "✅ Latest Submission";;
    pid <- py_get results "project_brief_id" (JStr "Unknown");;
    st_info ("**Project ID:** " +:+ py_str pid);;
    pt <- py_get results "processing_time" (JInt 0);;
    t <- format_2f pt;;
    st_info ("**Processing Time:** " +:+ t +:+ " seconds");;
    stg <- py_get results "stage" (JStr "Unknown");;
    st_info ("**Status:** " +:+ py_str stg);;
    st_info ("**Generated:** " +:+ now_text e);;
    rd <- py_get results "report_data" (JObj []);;
    dr <- py_get rd "designer_report" JNull;;
    when (truthy dr) (
      st_subheader "🎨 Designer Report Generated";;
      rd' <- py_item results "report_data";;
      dr' <- py_item rd' "designer_report";;
      st_write dr');;
    bi <- py_get results "basecamp_integration" JNull;;
    when (truthy bi) (
      st_subheader "📤 Basecamp Integration Status";;
      basecamp_status <- py_item results "basecamp_integration";;
      up <- py_get basecamp_status "designer_uploaded" JNull;;
      when (truthy up) (st_success "✅ Designer Report uploaded to Basecamp");;
      nt <- py_get basecamp_status "designer_notified" JNull;;
      when (truthy nt) (st_success "✅ Designer notification sent");;
      er <- py_get basecamp_status "errors" JNull;;
      when (truthy er) (
        er' <- py_item basecamp_status "errors";;
        st_error ("⚠️ Some errors occurred: " +:+ py_str er')));;
    st_info "💡 **Note:** Your content has been successfully processed and the designer report has been generated and uploaded to Basecamp.").

(** [show_role_selection_page], lines 124-180 *)
Definition show_role_selection_page : M unit :=
  call (
    when (click_brand_manager e) (
      state_set "user_role" (JStr "brand_manager");; st_rerun);;
    when (click_content_writer e) (
      state_set "user_role" (JStr "content_writer");; st_rerun)).

Section Pages.

(** The tabs that only display the session (lines 477-520, 538-577,
    598-645 and 834-941) are left open: the pages below dispatch to them,
    whatever they do. *)
Context (analysis_results_tab brand_manager_projects_tab sample_brief_tab
         content_writer_projects_tab : M unit).

(** [show_brand_manager_page], lines 182-229 *)
Definition show_brand_manager_page : M unit :=
  call (
    when (click_change_role e) (state_set "user_role" JNull;; st_rerun);;
    st_header "📋 Navigation";;
    let tab := st_selectbox "Upload & Analyze"
                 ["Analysis Results"; "Projects"; "Sample Brief"] (bm_tab e) in
    st_header "⚙️ Settings";;
    let analysis_type := st_selectbox "comprehensive" ["basic"; "detailed"]
                           (analysis_type_choice e) in
    st_header "🔗 Basecamp Integration";;
    st_info "Configure Basecamp integration in your .env file to enable automatic report uploads and notifications.";;
    if String.eqb tab "Upload & Analyze" then
      upload_and_analyze_tab analysis_type (include_suggestions e)
    else if String.eqb tab "Analysis Results" then analysis_results_tab
    else if String.eqb tab "Projects" then brand_manager_projects_tab
    else if String.eqb tab "Sample Brief" then sample_brief_tab
    else ret tt).

(** [show_content_writer_page], lines 231-263 *)
Definition show_content_writer_page : M unit :=
  call (
    when (click_change_role e) (state_set "user_role" JNull;; st_rerun);;
    st_header "📋 Navigation";;
    let tab := st_selectbox "My Projects" ["Submit Content"; "Content History"]
                 (cw_tab e) in
    st_header "🔗 Basecamp Integration";;
    st_info "Your reports and notifications are automatically sent to Basecamp.";;
    if String.eqb tab "My Projects" then content_writer_projects_tab
    else if String.eqb tab "Submit Content" then content_writer_submit_tab
    else if String.eqb tab "Content History" then content_writer_history_tab
    else ret tt).

(** [main], lines 107-122 *)
Definition main : M unit :=
  call (
    present <- has_key "user_role";;
    when (negb present) (state_set "user_role" JNull);;
    role <- state_attr "user_role";;
    match role with
    | JNull => show_role_selection_page
    | _ =>
        if eq_str role "brand_manager" then show_brand_manager_page
        else if eq_str role "content_writer" then show_content_writer_page
        else ret tt
    end).

End Pages.
End Run.
End Script.

(** ** The tabs that display the session *)

(** The number of code points of a str: the bytes of its UTF-8 encoding
    other than continuation bytes. *)
Definition code_points (s : string) : Z :=
  Z.of_nat
    (length
       (List.filter
          (fun c => negb (Nat.leb 128 (nat_of_ascii c) && Nat.ltb (nat_of_ascii c) 192))
          (String.list_ascii_of_string s))).

(** [len(v)] *)
Definition py_len (v : json) : M Z :=
  match v with
  | JStr s => ret (code_points s)
  | JList items => ret (Z.of_nat (length items))
  | JObj fields => ret (Z.of_nat (length fields))
  | _ => raise TypeError ("object of type '" +:+ type_name v +:+ "' has no len()")
  end.

(** The value of a local variable that some branches assign: reading it
    before any of them ran raises [UnboundLocalError] (the text is the one
    of Python 3.11 and later). *)
Definition local (name : string) (v : option json) : M json :=
  match v with
  | Some x => ret x
  | None =>
      raise OtherException
        ("cannot access local variable '" +:+ name
         +:+ "' where it is not associated with a value")
  end.

(** [a or b] *)
Definition py_or (a : json) (b : M json) : M json :=
  if truthy a then ret a else b.

Section Display.

Context (h : host).

(** [display_content_writer_report], lines 522-528 *)
Definition display_content_writer_report (report : json) : M unit :=
  call (
    fr <- py_get report "full_report" JNull;;
    if truthy fr then
      fr' <- py_item report "full_report";; st_write fr'
    else st_info "No content writer report was generated.").

(** [display_designer_report], lines 530-536 *)
Definition display_designer_report (report : json) : M unit :=
  call (
    fr <- py_get report "full_report" JNull;;
    if truthy fr then
      fr' <- py_item report "full_report";; st_write fr'
    else st_info "No designer report was generated.").

(** [analysis_results_tab], lines 477-520.  The two export buttons of
    lines 512-520 hand the results to [json.dumps], to pandas and to
    [st.download_button] (lines 943-990); what they do with them is
    [export_options]. *)
Definition analysis_results_tab (export_options : json -> M unit) : M unit :=
  call (
    st_header "📊 Analysis Results";;
    present <- has_key "analysis_results";;
    (if negb present then
       st_info "📤 No analysis results available. Please upload and analyze a document first.";;
       py_return
     else ret tt);;
    results <- state_attr "analysis_results";;
    uploaded_file <- state_get "uploaded_file" (JStr "Unknown");;
    st_subheader "📁 Document Information";;
    st_write (JStr ("**File:** " +:+ py_str h uploaded_file));;
    pt <- py_get results "processing_time" (JInt 0);;
    t <- format_2f h pt;;
    st_write (JStr ("**Processing Time:** " +:+ t +:+ " seconds"));;
    tk <- py_get results "tokens_used" JNull;;
    when (truthy tk) (
      tk' <- py_item results "tokens_used";;
      st_write (JStr ("**Tokens Used:** " +:+ py_str h tk')));;
    pb <- py_get results "project_brief" JNull;;
    summary <- (if truthy pb then
                  pb' <- py_item results "project_brief";;
                  py_get pb' "analysis_summary" JNull
                else ret pb);;
    when (truthy summary) (
      st_subheader "📋 Project Brief Analysis";;
      pb' <- py_item results "project_brief";;
      a <- py_item pb' "analysis_summary";;
      st_write a);;
    cw <- py_get results "content_writer_report" JNull;;
    when (truthy cw) (
      st_subheader "✍️ Content Writer Report";;
      r <- py_item results "content_writer_report";;
      display_content_writer_report r);;
    dr <- py_get results "designer_report" JNull;;
    when (truthy dr) (
      st_subheader "🎨 Designer Report";;
      r <- py_item results "designer_report";;
      display_designer_report r);;
    st_subheader "📤 Export Options";;
    export_options results).

(** [sample_brief_tab], lines 538-577: a header and a fixed text. *)
Definition sample_brief_tab : M unit :=
  call (st_header "📝 Sample Project Brief").

(** [results.get("report_data", {}).get(key)] *)
Definition report_field (results : json) (key : string) : M json :=
  rd <- py_get results "report_data" (JObj []);;
  py_get rd key JNull.

(** [content_writer_projects_tab], lines 598-645 *)
Definition content_writer_projects_tab : M unit :=
  call (
    st_header "📋 My Assigned Projects";;
    present <- has_key "analysis_results";;
    (if negb present then
       st_info "📤 No projects assigned yet. Brand managers will upload project briefs and assign them to you.";;
       py_return
     else ret tt);;
    results <- state_attr "analysis_results";;
    st_subheader "📁 Current Project";;
    uploaded_file <- state_get "uploaded_file" (JStr "Unknown");;
    st_info ("**Project File:** " +:+ py_str h uploaded_file);;
    pb <- report_field results "project_brief_id";;
    when (truthy pb) (
      rd' <- py_item results "report_data";;
      pb' <- py_item rd' "project_brief_id";;
      st_info ("**Project ID:** " +:+ py_str h pb'));;
    pt <- py_get results "processing_time" (JInt 0);;
    t <- format_2f h pt;;
    st_info ("**Processing Time:** " +:+ t +:+ " seconds");;
    ty <- py_get results "analysis_type" (JStr "Unknown");;
    st_info ("**Analysis Type:** " +:+ py_str h ty);;
    ps <- report_field results "project_summary";;
    when (truthy ps) (
      st_subheader "📋 Project Brief Analysis";;
      rd' <- py_item results "report_data";;
      ps' <- py_item rd' "project_summary";;
      st_write ps');;
    cr <- report_field results "content_writer_report";;
    when (truthy cr) (
      st_subheader "✍️ Your Content Writing Report";;
      rd' <- py_item results "report_data";;
      cr' <- py_item rd' "content_writer_report";;
      st_write cr');;
    st_subheader "🚀 Next Steps";;
    st_info "💡 **Tip:** Use the sidebar to navigate between tabs and submit your content when ready.").

(** [results.get("basecamp_integration", {}).get(key, False)] *)
Definition integration_flag (results : json) (key : string) : M json :=
  bi <- py_get results "basecamp_integration" (JObj []);;
  py_get bi key (JBool false).

(** [results.get("project_brief", {}).get(key, "Unknown")] *)
Definition brief_field (results : json) (key : string) : M json :=
  pb <- py_get results "project_brief" (JObj []);;
  py_get pb key (JStr "Unknown").

(** The status of the current project, lines 865-892; the result is the
    value of the local variable [results] after the block. *)
Definition current_project_status : M json :=
  st_subheader "🚀 Current Project Status";;
  results <- state_attr "analysis_results";;
  rd <- py_get results "report_data" (JObj []);;
  project_brief_id <- py_get rd "project_brief_id" (JStr "Unknown");;
  uploaded_file <- state_get "uploaded_file" (JStr "Unknown");;
  st_info ("**Project ID:** " +:+ py_str h project_brief_id);;
  st_info ("**File:** " +:+ py_str h uploaded_file);;
  st_info "**Stage:** Stage 1 - Content Writer Report Generated";;
  cw <- py_get results "content_writer_id" (JStr "Not assigned");;
  st_info ("**Content Writer:** " +:+ py_str h cw);;
  ty <- py_get results "analysis_type" (JStr "Unknown");;
  st_info ("**Analysis Type:** " +:+ py_str h ty);;
  st_info "**Status:** ✅ Complete";;
  st_success "✅ **Stage 1 Complete:** Project brief analyzed and content writer report generated";;
  submitted <- has_key "submitted_content";;
  (if submitted then
     st_success "✅ **Stage 2 Complete:** Content submitted for designer report";;
     content <- state_attr "submitted_content";;
     n <- py_len content;;
     st_info ("**Content Length:** " +:+ string_of_Z n +:+ " characters")
   else
     st_warning "⏳ **Stage 2 Pending:** Waiting for content writer to submit content";;
     st_info "💡 **Next Step:** Content writer needs to submit their completed content");;
  ret results.

(** The completed project, lines 896-919; the result is the value of
    [results] after the block. *)
Definition completed_projects : M json :=
  st_subheader "🎉 Completed Projects";;
  results <- state_attr "designer_results";;
  project_brief_id <- py_get results "project_brief_id" (JStr "Unknown");;
  st_info ("**Project ID:** " +:+ py_str h project_brief_id);;
  stg <- py_get results "stage" (JStr "Unknown");;
  st_info ("**Final Stage:** " +:+ py_str h stg);;
  pt <- py_get results "processing_time" (JInt 0);;
  t <- format_2f h pt;;
  st_info ("**Processing Time:** " +:+ t +:+ " seconds");;
  st_info "**Status:** ✅ Complete";;
  st_success "🎉 **Project Successfully Completed!**";;
  st_info "
        **Workflow Summary:**
        1. ✅ Project brief uploaded and analyzed
        2. ✅ Content writer report generated and sent
        3. ✅ Content writer submitted completed content
        4. ✅ Designer report generated and sent
        5. ✅ All reports uploaded to Basecamp
        ";;
  ret results.

(** The metrics at the end of the Projects tab, lines 925-941. *)
Definition project_metrics (results : json) : M unit :=
  project_name <- brief_field results "project_name";;
  brand_name <- brief_field results "brand_name";;
  st_metric h "Project" project_name;;
  st_metric h "Brand" brand_name;;
  project_type <- brief_field results "project_type";;
  processing_time <- py_get results "processing_time" (JInt 0);;
  st_metric h "Type" project_type;;
  t <- format_2f h processing_time;;
  st_metric h "Processing Time" (JStr (t +:+ "s"));;
  cu <- integration_flag results "content_writer_uploaded";;
  basecamp_uploaded <- py_or cu (integration_flag results "designer_uploaded");;
  cn <- integration_flag results "content_writer_notified";;
  notifications_sent <- py_or cn (integration_flag results "designer_notified");;
  st_metric h "Basecamp Upload" (JStr (if truthy basecamp_uploaded then "✅" else "❌"));;
  st_metric h "Notifications" (JStr (if truthy notifications_sent then "✅" else "❌")).

(** [brand_manager_projects_tab], lines 834-941.  [results] is assigned
    by the blocks of lines 864 and 895 only, and read at line 926. *)
Definition brand_manager_projects_tab : M unit :=
  call (
    st_header "📋 Project Management";;
    st_subheader "📊 Project Overview";;
    active <- has_key "analysis_results";;
    st_metric h "Active Projects" (JStr (if active then "1" else "0"));;
    completed <- has_key "designer_results";;
    st_metric h "Completed Projects" (JStr (if completed then "1" else "0"));;
    active <- has_key "analysis_results";;
    completed <- has_key "designer_results";;
    st_metric h "Total Projects"
      (JInt ((if active then 1 else 0) + (if completed then 1 else 0)));;
    active <- has_key "analysis_results";;
    results <- (if active then r <- current_project_status;; ret (Some r)
                else ret None);;
    completed <- has_key "designer_results";;
    results <- (if completed then r <- completed_projects;; ret (Some r)
                else ret results);;
    active <- has_key "analysis_results";;
    completed <- has_key "designer_results";;
    when (negb active && negb completed) (
      st_info "📤 No projects available yet. Start by uploading a project brief in the 'Upload & Analyze' tab.");;
    results <- local "results" results;;
    project_metrics results).

End Display.

(** The script with its tabs: what [main()] runs. *)
Definition script (h : host) (e : env) (export_options : json -> M unit) : M unit :=
  main h e (analysis_results_tab h export_options) (brand_manager_projects_tab h)
    (sample_brief_tab) (content_writer_projects_tab h).

(** ** What the claims are stated with *)

Definition outcome_of {A} (r : outcome A * session * list event) : outcome A :=
  r.1.1.
Definition session_of {A} (r : outcome A * session * list event) : session :=
  r.1.2.
Definition trace_of {A} (r : outcome A * session * list event) : list event :=
  r.2.

(** The session has no stage field: the Projects tab tells the stage of
    the workflow from the results the session holds (lines 844-853, 864
    and 895). *)
Inductive stage : Type := NotStarted | Stage1Complete | Stage2Complete.

Definition stage_of (s : session) : stage :=
  if bool_decide (is_Some (s !! "designer_results")) then Stage2Complete
  else if bool_decide (is_Some (s !! "analysis_results")) then Stage1Complete
  else NotStarted.

(** The project brief identifier a session holds for Stage 2: it is read
    from the stored analysis results (lines 655-656), a falsy value counts
    as none. *)
Definition session_brief_id (s : session) : option json :=
  match s !! "analysis_results" with
  | Some (JObj fields) =>
      match default (JObj []) (assoc "report_data" fields) with
      | JObj rd =>
          match assoc "project_brief_id" rd with
          | Some v => if truthy v then Some v else None
          | None => None
          end
      | _ => None
      end
  | _ => None
  end.

Definition is_request (ev : event) : bool :=
  match ev with
  | Get _ _ | Post _ _ _ _ => true
  | _ => false
  end.

Definition is_post (ev : event) : bool :=
  match ev with
  | Post _ _ _ _ => true
  | _ => false
  end.

(** An error or a warning box. *)
Definition is_complaint (ev : event) : bool :=
  match ev with
  | Alert Error _ | Alert Warning _ => true
  | _ => false
  end.

(** A reply of the backend that lets Stage 1 store its result: status 200
    with a JSON body. *)
Definition upload_succeeded (e : env) : Prop :=
  exists r v, upload_reply e = Replied r /\ status_code r = 200
              /\ json_body r = inr v.

(** One visit of the Upload & Analyze tab: the widget values and replies
    of the run and the two settings of the sidebar. *)
Record attempt : Type := Attempt {
  attempt_env : env;
  attempt_type : string;
  attempt_suggestions : bool
}.

(** The session after a sequence of visits of the tab. *)
Fixpoint after_attempts (h : host) (l : list attempt) (s : session) : session :=
  match l with
  | [] => s
  | a :: rest =>
      after_attempts h rest
        (session_of (upload_and_analyze_tab h (attempt_env a) (attempt_type a)
                       (attempt_suggestions a) s))
  end.

(** [user.get("basecamp_user_id")] is truthy: the user can be a recipient. *)
Definition eligible (user : json) : bool :=
  match user with
  | JObj fields => truthy (default JNull (assoc "basecamp_user_id" fields))
  | _ => false
  end.

(** [user["name"] == target] *)
Definition named (target : string) (user : json) : bool :=
  match user with
  | JObj fields =>
      match assoc "name" fields with
      | Some n => eq_str n target
      | None => false
      end
  | _ => false
  end.

(** A user record with a name and an email. *)
Definition is_user (user : json) : Prop :=
  exists fields n m,
    user = JObj fields /\ assoc "name" fields = Some n
    /\ assoc "email" fields = Some m.

Definition field (k : string) (v : json) : json :=
  match v with
  | JObj fields => default JNull (assoc k fields)
  | _ => JNull
  end.

(** The recipient the select box of a run resolves to; neither block
    looks at the session. *)
Definition chosen_content_writer (h : host) (e : env) : outcome json :=
  outcome_of (select_content_writer h e ∅).
Definition chosen_designer (h : host) (e : env) : outcome json :=
  outcome_of (select_designer h e ∅).

(** What a run shows before [r] goes on. *)
Definition prepend {A} (l : list event) (r : outcome A * session * list event)
  : outcome A * session * list event :=
  (outcome_of r, session_of r, l ++ trace_of r).

(** The end of a function call: a [return] is a normal end. *)
Definition finish (r : outcome unit * session * list event)
  : outcome unit * session * list event :=
  match outcome_of r with
  | Returned => (Ok tt, session_of r, trace_of r)
  | _ => r
  end.

(** The two flags the submit tab shows of the integration status of a
    Stage 2 result, lines 776-781. *)
Definition stage2_flags (bi : list (string * json)) : list event :=
  (if truthy (default JNull (assoc "designer_uploaded" bi))
   then [Alert Success "✅ Designer Report uploaded to Basecamp"] else [])
  ++ (if truthy (default JNull (assoc "designer_notified" bi))
      then [Alert Success "✅ Designer notification sent"] else []).

(** What the tab shows of an uploaded file above the Analyze button,
    lines 379-384. *)
Definition upload_widgets (ty : string) (sg : bool) (f : upload) : list event :=
  [ Alert Success ("✅ File uploaded: " +:+ file_name f);
    Subheader "🔍 Analysis Options";
    Write (JStr ("**Analysis Type:** " +:+ ty));
    Write (JStr ("**Include Suggestions:** " +:+ (if sg then "True" else "False"))) ].

(** The message with which Stage 1 refuses to start. *)
Definition no_writer_message : string :=
  "❌ Please select a content writer to receive the Stage 1 report".

(** [sub in s] *)
Fixpoint occurs (sub s : string) : bool :=
  match drop_prefix sub s with
  | Some _ => true
  | None =>
      match s with
      | EmptyString => false
      | String _ s' => occurs sub s'
      end
  end.

(** The label of a user in the select box: [f"{user['name']} ({user['email']})"] *)
Definition label_of (h : host) (user : json) : string :=
  py_str h (field "name" user) +:+ " (" +:+ py_str h (field "email" user) +:+ ")".

(** What every request of the submit tab looks like: a listing of the
    users, or a submission without a content writer. *)
Definition stage2_request (h : host) (ev : event) : Prop :=
  match ev with
  | Post u _ data _ =>
      u = url h "/submit-content" /\ assoc "content_writer_id" data = Some JNull
  | Get u _ => u = url h "/users"
  | _ => True
  end.

(** The messages with which Stage 2 refuses a submission. *)
Definition no_content_message : string :=
  "❌ Please either upload a content document or enter content text".
Definition no_designer_message : string :=
  "❌ Please select a designer to receive the report".

Definition is_refusal (ev : event) : bool :=
  match ev with
  | Alert Error msg =>
      String.eqb msg no_content_message || String.eqb msg no_designer_message
  | _ => false
  end.

(** ** What the further properties are stated with *)

(** The stages in the order of the workflow. *)
Definition stage_rank (st : stage) : nat :=
  match st with
  | NotStarted => 0
  | Stage1Complete => 1
  | Stage2Complete => 2
  end.

(** What every request of the pages of the brand manager looks like: a
    listing of the projects or of the users, or the upload of the file of
    the run for a content writer. *)
Definition stage1_request (h : host) (e : env) (ev : event) : Prop :=
  match ev with
  | Post u files data t =>
      u = url h "/upload" /\ t = 300
      /\ (exists f, uploaded_file e = Some f /\ files = [("file", f)])
      /\ truthy (default JNull (assoc "content_writer_id" data)) = true
  | Get u t =>
      (u = url h "/projects" \/ u = url h "/users") /\ t = API_TIMEOUT h
  | _ => True
  end.

(** The keys the pages of the brand manager write. *)
Definition brand_manager_keys : list string :=
  [ "user_role"; "selected_project_id"; "selected_project_name";
    "analysis_results"; "uploaded_file"; "project_brief_id";
    "content_writer_id"; "submitted_content" ].

(** A dict. *)
Definition is_obj (v : json) : bool :=
  match v with
  | JObj _ => true
  | _ => false
  end.

(** [v.get(k, d)] on a dict. *)
Definition field_or (k : string) (d : json) (v : json) : json :=
  match v with
  | JObj fields => default d (assoc k fields)
  | _ => d
  end.

(** A listing of projects the tab can offer: status 200 and a JSON object
    with a truthy [success] and a list of objects under [projects]. *)
Definition projects_listed (e : env) (ps : list json) : Prop :=
  exists r fields,
    projects_reply e = Replied r /\ status_code r = 200
    /\ json_body r = inr (JObj fields)
    /\ truthy (default JNull (assoc "success" fields)) = true
    /\ assoc "projects" fields = Some (JList ps)
    /\ ps <> [] /\ Forall (fun p => is_obj p = true) ps.

(** The options of the project select box, lines 289-291. *)
Definition project_options (ps : list json) : list json :=
  JStr "Select a project..."
  :: map (field_or "name" (JStr "Unnamed Project"))
       (List.filter (fun p => eq_str (field "status" p) "active") ps)
  ++ [JStr "Other - Custom Project"].

Definition selected_project (e : env) (ps : list json) : json :=
  default (JStr "Select a project...") (project_options ps !! project_choice e).

(** The project the chosen option stands for, line 303: the first listed
    project of that name. *)
Definition project_named (n : json) (ps : list json) : option json :=
  List.find (fun p => py_eqb (field "name" p) n) ps.

(** What the project selection shows before its select box. *)
Definition project_prefix (h : host) : list event :=
  [ Subheader "📋 Select Project";
    Alert Info "Choose which project this ad campaign belongs to. The system will automatically retrieve the project's Basecamp message board and document vault.";
    Get (url h "/projects") (API_TIMEOUT h) ].

(** The session with the given project selected. *)
Definition with_selection (id name : json) (s : session) : session :=
  <["selected_project_name" := name]> (<["selected_project_id" := id]> s).

(** The listing of the projects came with something to choose from:
    status 200 and a JSON object with a truthy [success] and a truthy
    [projects]. *)
Definition projects_found (e : env) : Prop :=
  exists r fields,
    projects_reply e = Replied r /\ status_code r = 200
    /\ json_body r = inr (JObj fields)
    /\ truthy (default JNull (assoc "success" fields)) = true
    /\ truthy (default JNull (assoc "projects" fields)) = true.

(** A value [st.metric] takes: neither a list nor a dict. *)
Definition is_scalar (v : json) : bool :=
  match v with
  | JList _ | JObj _ => false
  | _ => true
  end.

(** A value [format(v, ".2f")] takes: a bool, a float, or an int within
    the range of a float. *)
Definition is_number (v : json) : bool :=
  match v with
  | JBool _ | JFloat _ _ => true
  | JInt n => fits_float n
  | _ => false
  end.

(** The results the quick summary can show: a dict whose
    [processing_time] is a number, whose [analysis_type] is no list or
    dict and whose [report_data] is a dict, each when present. *)
Definition summary_fits (results : json) : bool :=
  match results with
  | JObj fields =>
      is_number (default (JInt 0) (assoc "processing_time" fields))
      && is_scalar (default (JStr "Unknown") (assoc "analysis_type" fields))
      && is_obj (default (JObj []) (assoc "report_data" fields))
  | _ => false
  end.

(** The integration status of a Stage 1 result can be shown: it is
    absent, falsy or a dict. *)
Definition integration_fits (result : json) : bool :=
  match field "basecamp_integration" result with
  | JObj _ => true
  | bi => negb (truthy bi)
  end.


(** The project brief id of a Stage 1 result, as Stage 2 will read it. *)
Definition brief_id_of (result : json) : option json :=
  session_brief_id (<["analysis_results" := result]> ∅).

(** The session with the Stage 1 result of the file [f] stored. *)
Definition stored_result (f : upload) (result : json) (s : session) : session :=
  <["uploaded_file" := JStr (file_name f)]> (<["analysis_results" := result]> s).

(** The session with the two ids of a finished Stage 1 stored. *)
Definition with_ids (pb cw : json) (s : session) : session :=
  <["content_writer_id" := cw]> (<["project_brief_id" := pb]> s).

(** The last thing a successful Stage 1 shows. *)
Definition switch_hint : event :=
  Alert Info "📊 Switch to 'Analysis Results' tab to view detailed reports".

(** The messages of the Projects tab about Stage 2. *)
Definition stage2_complete_note : event :=
  Alert Success "✅ **Stage 2 Complete:** Content submitted for designer report".
Definition stage2_pending_note : event :=
  Alert Warning "⏳ **Stage 2 Pending:** Waiting for content writer to submit content".

(** The exception of reading [results] before it is assigned. *)
Definition unbound_results : exn :=
  Exn OtherException
    "cannot access local variable 'results' where it is not associated with a value".

(** What the Projects tab tells of the session by the events it shows. *)
Definition tells (s : session) (ev : event) : Prop :=
  (ev = stage2_complete_note ->
   is_Some (s !! "analysis_results") /\ is_Some (s !! "submitted_content"))
  /\ (ev = stage2_pending_note ->
      is_Some (s !! "analysis_results") /\ s !! "submitted_content" = None)
  /\ (ev = Metric "Completed Projects" (JStr "1") ->
      is_Some (s !! "designer_results")).

(** The request of an upload from the session [s]. *)
Definition upload_request (h : host) (ty : string) (sg : bool) (f : upload)
    (cw : json) (s : session) : event :=
  Post (url h "/upload") [("file", f)]
    (upload_data ty sg cw (default JNull (s !! "selected_project_id"))
       (default JNull (s !! "selected_project_name"))) 300.

(** The listing of the users came with someone to choose from: status 200
    and a JSON object with a truthy [success] and a truthy [users]. *)
Definition users_found (e : env) : Prop :=
  exists r fields,
    users_reply e = Replied r /\ status_code r = 200
    /\ json_body r = inr (JObj fields)
    /\ truthy (default JNull (assoc "success" fields)) = true
    /\ truthy (default JNull (assoc "users" fields)) = true.

(** What a select box of users can resolve to: nobody, or the external
    identifier of an eligible user of the listing. *)
Definition listed_recipient (users : list json) (v : json) : Prop :=
  v = JNull
  \/ exists u, u ∈ users /\ eligible u = true /\ v = field "basecamp_user_id" u.

(** ** Concrete inputs for the examples *)

(** The fallback configuration of lines 93-105; the renderings are given
    for the values the examples use: small ints and lists of plain ASCII
    strs; for the exception of [st.metric] a [TypeError] is taken. *)
Definition repr_plain (v : json) : string :=
  match v with
  | JList items =>
      "[" +:+ String.concat ", "
                (map (fun x => match x with
                               | JStr t => "'" +:+ t +:+ "'"
                               | _ => "?"
                               end) items) +:+ "]"
  | _ => "?"
  end.

Definition host0 : host := {|
  API_BASE_URL := "http://localhost:8000";
  API_TIMEOUT := 30;
  str_other := repr_plain;
  fixed2 := fun v => match v with
                     | JInt n => string_of_Z n +:+ ".00"
                     | _ => "?"
                     end;
  metric_error := fun v =>
    Exn TypeError
      ("'" +:+ repr_plain v +:+ "' is of type <class '" +:+ type_name v
       +:+ "'>, which is not an accepted type. value only accepts: int, float, str, or None. Please convert the value to an accepted type.")
|}.

(** A display-only tab that shows nothing. *)
Definition blank_tab : M unit := ret tt.

Definition user_record (id : Z) (name email : string) : json :=
  JObj [("basecamp_user_id", JInt id); ("name", JStr name); ("email", JStr email)].

(** Two users share the display name Jane. *)
Definition jane : json := user_record 7 "Jane" "jane@x.com".
Definition jane_twin : json := user_record 8 "Jane" "jane2@x.com".
Definition omar : json := user_record 9 "Omar" "omar@x.com".

Definition ok_json (v : json) : reply := Replied (Response 200 "" (inr v)).

Definition users_listing : reply :=
  ok_json (JObj [("success", JBool true); ("users", JList [jane; jane_twin; omar])]).

Definition projects_listing : reply :=
  ok_json (JObj [("success", JBool true);
                 ("projects",
                  JList [JObj [("id", JInt 1); ("name", JStr "Acme Redesign");
                               ("description", JStr "Site relaunch");
                               ("status", JStr "active")]])]).

Definition stage1_result : json :=
  JObj [("success", JBool true); ("processing_time", JInt 3);
        ("analysis_type", JStr "comprehensive");
        ("report_data", JObj [("project_brief_id", JStr "PB-123")]);
        ("basecamp_integration",
         JObj [("content_writer_uploaded", JBool true);
               ("content_writer_notified", JBool true)])].

Definition stage2_partial_result : json :=
  JObj [("success", JBool true); ("project_brief_id", JStr "PB-123");
        ("stage", JStr "stage2"); ("processing_time", JInt 2);
        ("basecamp_integration",
         JObj [("designer_uploaded", JBool true);
               ("designer_notified", JBool false);
               ("errors", JList [JStr "notify failed"])])].

Definition server_error : reply :=
  Replied (Response 500 "Internal Server Error" (inl (Exn JSONDecodeError "Expecting value"))).

Definition brief_pdf : upload := Upload "brief.pdf" "%PDF".
Definition draft_docx : upload := Upload "draft.docx" "PK".

(** A run of the script: which button was pressed, what was chosen and
    entered, and what the backend answers. *)
Definition a_run (button : option button)
    (writer designer : nat) (brief : option upload)
    (inline_text : string) (file : option upload) (txt : string)
    (upload_r submit_r : reply) : env := {|
  pressed := button;
  bm_tab := 0;
  cw_tab := 1;
  analysis_type_choice := 0;
  include_suggestions := true;
  project_choice := 1;
  custom_name := "";
  content_writer_choice := writer;
  uploaded_file := brief;
  inline_content_text := inline_text;
  content_file := file;
  content_text := txt;
  designer_choice := designer;
  projects_reply := projects_listing;
  users_reply := users_listing;
  upload_reply := upload_r;
  submit_reply := submit_r;
  now_text := "November 03, 2026 at 10:00 AM"
|}.

(** The runs of the examples. *)
Definition nothing_pressed : env :=
  a_run None 0 0 None "" None "" server_error server_error.

Definition change_role_pressed : env :=
  a_run (Some ChangeRoleButton) 0 0 None "" None "" server_error server_error.

(** The brand manager uploads [brief_pdf], picks an option of the
    content-writer select box and presses Analyze. *)
Definition analyze_pressed (writer : nat) (upload_r : reply) : env :=
  a_run (Some AnalyzeButton) writer 0 (Some brief_pdf) "" None "" upload_r
    server_error.

(** The run that follows: the file and the writer are still chosen, the
    inline form is filled in and its submit button is pressed. *)
Definition inline_submit_pressed : env :=
  a_run (Some InlineSubmitButton) 1 0 (Some brief_pdf) "The finished copy"
    None "" (ok_json stage1_result) server_error.

(** The content writer picks an option of the designer select box, gives
    a file or a text and presses the submit button. *)
Definition submit_pressed (designer : nat) (file : option upload)
    (txt : string) (submit_r : reply) : env :=
  a_run (Some SubmitContentButton) 0 designer None "" file txt server_error
    submit_r.

(** Both select boxes are at their third option, the label of the second
    Jane. *)
Definition second_jane_chosen : env :=
  a_run None 2 2 (Some brief_pdf) "" None "draft"
    (ok_json stage1_result) (ok_json stage2_partial_result).

(** The session once Stage 1 succeeded for the brand manager. *)
Definition session_after_stage1 : session :=
  <["user_role" := JStr "brand_manager"]>
    (<["analysis_results" := stage1_result]>
       (<["uploaded_file" := JStr "brief.pdf"]>
          (<["project_brief_id" := JStr "PB-123"]>
             (<["content_writer_id" := JInt 7]> ∅)))).

(** The run [e] with another button pressed, or none. *)
Definition press (b : option button) (e : env) : env := {|
  pressed := b;
  bm_tab := bm_tab e;
  cw_tab := cw_tab e;
  analysis_type_choice := analysis_type_choice e;
  include_suggestions := include_suggestions e;
  project_choice := project_choice e;
  custom_name := custom_name e;
  content_writer_choice := content_writer_choice e;
  uploaded_file := uploaded_file e;
  inline_content_text := inline_content_text e;
  content_file := content_file e;
  content_text := content_text e;
  designer_choice := designer_choice e;
  projects_reply := projects_reply e;
  users_reply := users_reply e;
  upload_reply := upload_reply e;
  submit_reply := submit_reply e;
  now_text := now_text e
|}.

(** The run [e] with the radios of the two sidebars as given. *)
Definition at_tabs (bm cw : nat) (e : env) : env := {|
  pressed := pressed e;
  bm_tab := bm;
  cw_tab := cw;
  analysis_type_choice := analysis_type_choice e;
  include_suggestions := include_suggestions e;
  project_choice := project_choice e;
  custom_name := custom_name e;
  content_writer_choice := content_writer_choice e;
  uploaded_file := uploaded_file e;
  inline_content_text := inline_content_text e;
  content_file := content_file e;
  content_text := content_text e;
  designer_choice := designer_choice e;
  projects_reply := projects_reply e;
  users_reply := users_reply e;
  upload_reply := upload_reply e;
  submit_reply := submit_reply e;
  now_text := now_text e
|}.

(** The run [e] with another project chosen, named or listed. *)
Definition with_project (choice : nat) (name : string) (listing : reply) (e : env) : env := {|
  pressed := pressed e;
  bm_tab := bm_tab e;
  cw_tab := cw_tab e;
  analysis_type_choice := analysis_type_choice e;
  include_suggestions := include_suggestions e;
  project_choice := choice;
  custom_name := name;
  content_writer_choice := content_writer_choice e;
  uploaded_file := uploaded_file e;
  inline_content_text := inline_content_text e;
  content_file := content_file e;
  content_text := content_text e;
  designer_choice := designer_choice e;
  projects_reply := listing;
  users_reply := users_reply e;
  upload_reply := upload_reply e;
  submit_reply := submit_reply e;
  now_text := now_text e
|}.

(** The run [e] with another listing of the users. *)
Definition with_users (listing : reply) (e : env) : env := {|
  pressed := pressed e;
  bm_tab := bm_tab e;
  cw_tab := cw_tab e;
  analysis_type_choice := analysis_type_choice e;
  include_suggestions := include_suggestions e;
  project_choice := project_choice e;
  custom_name := custom_name e;
  content_writer_choice := content_writer_choice e;
  uploaded_file := uploaded_file e;
  inline_content_text := inline_content_text e;
  content_file := content_file e;
  content_text := content_text e;
  designer_choice := designer_choice e;
  projects_reply := projects_reply e;
  users_reply := listing;
  upload_reply := upload_reply e;
  submit_reply := submit_reply e;
  now_text := now_text e
|}.

(** Export buttons that are not pressed. *)
Definition no_export (results : json) : M unit := ret tt.

(** Two projects of one name: the archived one is listed first. *)
Definition twin_projects : reply :=
  ok_json (JObj [("success", JBool true);
                 ("projects",
                  JList [JObj [("id", JInt 1); ("name", JStr "Acme Redesign");
                               ("status", JStr "archived")];
                         JObj [("id", JInt 2); ("name", JStr "Acme Redesign");
                               ("description", JStr "Site relaunch");
                               ("status", JStr "active")]])]).

(** A user whose display name carries a parenthesis. *)
Definition ann : json := user_record 5 "Ann (Design)" "ann@x.com".

Definition ann_listing : reply :=
  ok_json (JObj [("success", JBool true); ("users", JList [ann])]).

(** The session once the content writer's submission went through. *)
Definition session_after_stage2 : session :=
  <["designer_results" := stage2_partial_result]> session_after_stage1.

(** A Stage 1 result with an id and a processing time that is no number. *)
Definition odd_result : json :=
  JObj [("success", JBool true); ("processing_time", JStr "fast");
        ("report_data", JObj [("project_brief_id", JStr "PB-9")])].


(** ** Reasoning about runs *)

(** [confined K E m]: whatever the session, [m] writes no key outside [K]
    and every event of [m] satisfies [E]. *)
Definition confined (K : list string) (E : event -> Prop) {A} (m : M A) : Prop :=
  forall s,
    (forall k, k ∉ K -> session_of (m s) !! k = s !! k)
    /\ Forall E (trace_of (m s)).

(** [stateless m]: [m] neither reads nor writes the session, and it ends
    normally or with an exception. *)
Definition stateless {A} (m : M A) : Prop :=
  exists o l, (forall s, m s = (o, s, l)) /\ o <> Returned /\ o <> Rerun.

(** [returns m]: [m] ends normally, with the same result and the same
    events whatever the session, which it leaves as it is. *)
Definition returns {A} (m : M A) : Prop :=
  exists a l, forall s, m s = (Ok a, s, l).

(** A block that only displays: it leaves the session as it is, whatever
    the session, and sends no request. *)
Definition display_only {A} (m : M A) : Prop :=
  confined [] (fun ev => is_request ev = false) m.

(** [grows m]: [m] removes no key from the session. *)
Definition grows {A} (m : M A) : Prop :=
  forall s k, is_Some (s !! k) -> is_Some (session_of (m s) !! k).

(** [shows s E m]: run on the session [s], [m] leaves it as it is and
    every event of the run satisfies [E]. *)
Definition shows (s : session) (E : event -> Prop) {A} (m : M A) : Prop :=
  session_of (m s) = s /\ Forall E (trace_of (m s)).

(** [stops m]: [m] never runs to its end, it returns, raises or reruns. *)
Definition stops {A} (m : M A) : Prop :=
  forall s a, outcome_of (m s) <> Ok a.

(** [yields P m]: a result of [m] satisfies [P]. *)
Definition yields {A} (P : A -> Prop) (m : M A) : Prop :=
  forall s a, outcome_of (m s) = Ok a -> P a.

Section Confined.

Context (K : list string) (E : event -> Prop).

Lemma confined_ret {A} (a : A) : confined K E (ret a).
Proof. intros s. split; [done | constructor]. Qed.

Lemma confined_raise {A} c msg : confined K E (@raise A c msg).
Proof. intros s. split; [done | constructor]. Qed.

Lemma confined_throw {A} ex : confined K E (@throw A ex).
Proof. intros s. split; [done | constructor]. Qed.

Lemma confined_return {A} : confined K E (@py_return A).
Proof. intros s. split; [done | constructor]. Qed.

Lemma confined_rerun {A} : confined K E (@st_rerun A).
Proof. intros s. split; [done | constructor]. Qed.

Lemma confined_emit ev : E ev -> confined K E (emit ev).
Proof. intros H s. split; [done | by repeat constructor]. Qed.

Lemma confined_bind {A B} (m : M A) (k : A -> M B) :
  confined K E m -> (forall a, confined K E (k a)) -> confined K E (bind m k).
Proof.
  intros Hm Hk s. unfold bind.
  destruct (Hm s) as [Hs Ht]. destruct (m s) as [[o s1] l1].
  destruct o as [a| |ex|]; try (split; assumption).
  destruct (Hk a s1) as [Hs' Ht']. destruct (k a s1) as [[o2 s2] l2].
  unfold session_of, trace_of in *; simpl in *. split.
  - intros k0 Hk0. rewrite Hs' by done. by apply Hs.
  - by apply Forall_app.
Qed.

Lemma confined_try_except {A} (m : M A) (hd : exn -> M A) :
  confined K E m -> (forall ex, confined K E (hd ex)) ->
  confined K E (try_except m hd).
Proof.
  intros Hm Hh s. unfold try_except.
  destruct (Hm s) as [Hs Ht]. destruct (m s) as [[o s1] l1].
  destruct o as [a| |ex|]; try (split; assumption).
  destruct (Hh ex s1) as [Hs' Ht']. destruct (hd ex s1) as [[o2 s2] l2].
  unfold session_of, trace_of in *; simpl in *. split.
  - intros k0 Hk0. rewrite Hs' by done. by apply Hs.
  - by apply Forall_app.
Qed.

Lemma confined_call (m : M unit) : confined K E m -> confined K E (call m).
Proof.
  intros Hm s. unfold call. destruct (Hm s) as [Hs Ht].
  destruct (m s) as [[o s1] l1]. destruct o; split; assumption.
Qed.

Lemma confined_when b (m : M unit) : confined K E m -> confined K E (when b m).
Proof. destruct b; [done | intros _; apply confined_ret]. Qed.

Lemma confined_has_key k : confined K E (has_key k).
Proof. intros s. split; [done | constructor]. Qed.

Lemma confined_state_get k d : confined K E (state_get k d).
Proof. intros s. split; [done | constructor]. Qed.

Lemma confined_state_attr k : confined K E (state_attr k).
Proof.
  intros s. unfold state_attr. destruct (s !! k); split; done || constructor.
Qed.

Lemma confined_state_set k v : k ∈ K -> confined K E (state_set k v).
Proof.
  intros Hk s. split; [|constructor].
  intros k0 Hk0. unfold state_set, session_of; simpl.
  apply lookup_insert_ne. intros ->. done.
Qed.

Lemma confined_py_get v k d : confined K E (py_get v k d).
Proof. destruct v; apply confined_ret || apply confined_raise. Qed.

Lemma confined_py_item v k : confined K E (py_item v k).
Proof.
  destruct v; simpl; try apply confined_raise.
  destruct (assoc k fields); apply confined_ret || apply confined_raise.
Qed.

Lemma confined_py_iter v : confined K E (py_iter v).
Proof. destruct v; apply confined_ret || apply confined_raise. Qed.

Lemma confined_response_json r : confined K E (response_json r).
Proof.
  unfold response_json. destruct (json_body r);
    apply confined_ret || apply confined_throw.
Qed.

Lemma confined_answer r : confined K E (answer r).
Proof. destruct r; apply confined_ret || apply confined_throw. Qed.

Lemma confined_requests_get u t r : E (Get u t) -> confined K E (requests_get u t r).
Proof.
  intros H. apply confined_bind; [by apply confined_emit|].
  intros _. apply confined_answer.
Qed.

Lemma confined_requests_post u f d t r :
  E (Post u f d t) -> confined K E (requests_post u f d t r).
Proof.
  intros H. apply confined_bind; [by apply confined_emit|].
  intros _. apply confined_answer.
Qed.

Lemma confined_py_listcomp {B} keep (f : json -> M B) l :
  (forall x, confined K E (keep x)) -> (forall x, confined K E (f x)) ->
  confined K E (py_listcomp keep f l).
Proof.
  intros Hk Hf. induction l as [|x l IH]; simpl; [apply confined_ret|].
  apply confined_bind; [done|]. intros [|]; [|done].
  apply confined_bind; [done|]. intros y.
  apply confined_bind; [done|]. intros r. apply confined_ret.
Qed.

Lemma confined_py_next test l :
  (forall x, confined K E (test x)) -> confined K E (py_next test l).
Proof.
  intros Ht. induction l as [|x l IH]; simpl; [apply confined_ret|].
  apply confined_bind; [done|]. intros [|]; [apply confined_ret | done].
Qed.

End Confined.

Lemma confined_weaken (K K' : list string) (E E' : event -> Prop) {A} (m : M A) :
  K ⊆ K' -> (forall ev, E ev -> E' ev) -> confined K E m -> confined K' E' m.
Proof.
  intros HK HE Hm s. destruct (Hm s) as [Hs Ht]. split.
  - intros k Hk. apply Hs. intros Hin. apply Hk. by apply HK.
  - eapply Forall_impl; eauto.
Qed.

(** Running a block step by step. *)
Lemma bind_run {A B} (m : M A) (k : A -> M B) s a s1 l1 :
  m s = (Ok a, s1, l1) -> bind m k s = prepend l1 (k a s1).
Proof.
  intros H. unfold bind, prepend. rewrite H. by destruct (k a s1) as [[? ?] ?].
Qed.

Lemma bind_returned {A B} (m : M A) (k : A -> M B) s s1 l1 :
  m s = (Returned, s1, l1) -> bind m k s = (Returned, s1, l1).
Proof. intros H. unfold bind. by rewrite H. Qed.

Lemma bind_raised {A B} (m : M A) (k : A -> M B) s ex s1 l1 :
  m s = (Raised ex, s1, l1) -> bind m k s = (Raised ex, s1, l1).
Proof. intros H. unfold bind. by rewrite H. Qed.

Lemma bind_rerun {A B} (m : M A) (k : A -> M B) s s1 l1 :
  m s = (Rerun, s1, l1) -> bind m k s = (Rerun, s1, l1).
Proof. intros H. unfold bind. by rewrite H. Qed.

Lemma call_run (m : M unit) s : call m s = finish (m s).
Proof. unfold call, finish. by destruct (m s) as [[[] ?] ?]. Qed.

Lemma try_except_raised {A} (m : M A) (hd : exn -> M A) s ex s1 l1 :
  m s = (Raised ex, s1, l1) -> try_except m hd s = prepend l1 (hd ex s1).
Proof.
  intros H. unfold try_except, prepend. rewrite H.
  by destruct (hd ex s1) as [[? ?] ?].
Qed.

Lemma try_except_ok {A} (m : M A) (hd : exn -> M A) s a s1 l1 :
  m s = (Ok a, s1, l1) -> try_except m hd s = (Ok a, s1, l1).
Proof. intros H. unfold try_except. by rewrite H. Qed.

Lemma prepend_prepend {A} l1 l2 (r : outcome A * session * list event) :
  prepend l1 (prepend l2 r) = prepend (l1 ++ l2) r.
Proof. unfold prepend; simpl. by rewrite app_assoc. Qed.

Lemma prepend_nil {A} (r : outcome A * session * list event) : prepend [] r = r.
Proof. by destruct r as [[? ?] ?]. Qed.

Lemma bind_assoc_at {A B C} (m : M A) (f : A -> M B) (g : B -> M C) s :
  bind (bind m f) g s = bind m (fun x => bind (f x) g) s.
Proof.
  unfold bind. destruct (m s) as [[[a| |ex|] s1] l1]; try done.
  destruct (f a s1) as [[[b| |ex|] s2] l2]; try done.
  destruct (g b s2) as [[o s3] l3]. by rewrite app_assoc.
Qed.

Ltac recall :=
  match goal with
  | H : truthy ?x = _ |- context [truthy ?x] => rewrite H
  | H : assoc ?k ?f = _ |- context [assoc ?k ?f] => rewrite H
  end.

Ltac known :=
  unfold state_attr, state_get, has_key, state_set; simpl;
  repeat (once match goal with H : _ = _ |- _ => rewrite H end);
  simpl; reflexivity.

Ltac run :=
  repeat first
    [ rewrite prepend_prepend
    | rewrite prepend_nil
    | rewrite bind_assoc_at
    | recall
    | progress simpl default
    | progress cbn [negb andb orb when]
    | erewrite bind_run by known
    | erewrite bind_returned by known
    | erewrite bind_raised by known ].

Ltac branch :=
  once (match goal with
        | |- context [when (truthy ?x) _] => destruct (truthy x) eqn:?
        end).

Ltac tidy := rewrite ?app_nil_r, <- ?app_assoc; simpl.

Ltac listed :=
  solve [repeat first [apply list_elem_of_here | apply list_elem_of_further]].

Ltac confine :=
  repeat match goal with
  | |- confined _ _ (bind _ _) => apply confined_bind; [|intros ?]
  | |- confined _ _ (ret _) => apply confined_ret
  | |- confined _ _ (raise _ _) => apply confined_raise
  | |- confined _ _ (throw _) => apply confined_throw
  | |- confined _ _ py_return => apply confined_return
  | |- confined _ _ st_rerun => apply confined_rerun
  | |- confined _ _ (emit _) => apply confined_emit
  | |- confined _ _ (st_alert _ _) => apply confined_emit
  | |- confined _ _ (st_header _) => apply confined_emit
  | |- confined _ _ (st_subheader _) => apply confined_emit
  | |- confined _ _ (st_write _) => apply confined_emit
  | |- confined _ _ (try_except _ _) => apply confined_try_except; [|intros ?]
  | |- confined _ _ (call _) => apply confined_call
  | |- confined _ _ (when _ _) => apply confined_when
  | |- confined _ _ (has_key _) => apply confined_has_key
  | |- confined _ _ (state_get _ _) => apply confined_state_get
  | |- confined _ _ (state_attr _) => apply confined_state_attr
  | |- confined _ _ (state_set _ _) => apply confined_state_set
  | |- confined _ _ (py_get _ _ _) => apply confined_py_get
  | |- confined _ _ (py_item _ _) => apply confined_py_item
  | |- confined _ _ (py_iter _) => apply confined_py_iter
  | |- confined _ _ (response_json _) => apply confined_response_json
  | |- confined _ _ (requests_get _ _ _) => apply confined_requests_get
  | |- confined _ _ (requests_post _ _ _ _ _) => apply confined_requests_post
  | |- confined _ _ (py_listcomp _ _ _) => apply confined_py_listcomp; intros ?
  | |- confined _ _ (py_next _ _) => apply confined_py_next; intros ?
  | |- confined _ _ (if ?b then _ else _) => destruct b
  | |- confined _ _ (match ?x with _ => _ end) => destruct x
  | |- confined _ _ (let _ := _ in _) => cbv zeta
  end.

Section Stateless.

Lemma stateless_ret {A} (a : A) : stateless (ret a).
Proof. by exists (Ok a), []. Qed.

Lemma stateless_raise {A} c msg : stateless (@raise A c msg).
Proof. by exists (Raised (Exn c msg)), []. Qed.

Lemma stateless_throw {A} ex : stateless (@throw A ex).
Proof. by exists (Raised ex), []. Qed.

Lemma stateless_emit ev : stateless (emit ev).
Proof. by exists (Ok tt), [ev]. Qed.

Lemma stateless_bind {A B} (m : M A) (k : A -> M B) :
  stateless m -> (forall a, stateless (k a)) -> stateless (bind m k).
Proof.
  intros (o & l & Hm & Ho) Hk. unfold bind. destruct o as [a| |ex|].
  - destruct (Hk a) as (o2 & l2 & Hka & Ho2). exists o2, (l ++ l2).
    split; [|done]. intros s. by rewrite Hm, Hka.
  - by destruct Ho.
  - exists (Raised ex), l. split; [|done]. intros s. by rewrite Hm.
  - by destruct Ho.
Qed.

Lemma stateless_call (m : M unit) : stateless m -> stateless (call m).
Proof.
  intros (o & l & Hm & Ho). unfold call. destruct o as [a| |ex|].
  - exists (Ok a), l. split; [|done]. intros s. by rewrite Hm.
  - by destruct Ho.
  - exists (Raised ex), l. split; [|done]. intros s. by rewrite Hm.
  - by destruct Ho.
Qed.

Lemma stateless_try_except {A} (m : M A) (hd : exn -> M A) :
  stateless m -> (forall ex, stateless (hd ex)) -> stateless (try_except m hd).
Proof.
  intros (o & l & Hm & Ho) Hh. unfold try_except. destruct o as [a| |ex|].
  - exists (Ok a), l. split; [|done]. intros s. by rewrite Hm.
  - by destruct Ho.
  - destruct (Hh ex) as (o2 & l2 & Hx & Ho2). exists o2, (l ++ l2).
    split; [|done]. intros s. by rewrite Hm, Hx.
  - by destruct Ho.
Qed.

Lemma stateless_when b (m : M unit) : stateless m -> stateless (when b m).
Proof. destruct b; [done | intros _; apply stateless_ret]. Qed.

Lemma stateless_py_get v k d : stateless (py_get v k d).
Proof. destruct v; apply stateless_ret || apply stateless_raise. Qed.

Lemma stateless_py_item v k : stateless (py_item v k).
Proof.
  destruct v; simpl; try apply stateless_raise.
  destruct (assoc k fields); apply stateless_ret || apply stateless_raise.
Qed.

Lemma stateless_py_iter v : stateless (py_iter v).
Proof. destruct v; apply stateless_ret || apply stateless_raise. Qed.

Lemma stateless_response_json r : stateless (response_json r).
Proof.
  unfold response_json. destruct (json_body r) as [ex|v];
    [apply stateless_throw | apply stateless_ret].
Qed.

Lemma stateless_requests_get u t r : stateless (requests_get u t r).
Proof.
  apply stateless_bind; [apply stateless_emit|]. intros _.
  destruct r as [x|ex]; [apply stateless_ret | apply stateless_throw].
Qed.

Lemma stateless_py_listcomp {B} keep (f : json -> M B) l :
  (forall x, stateless (keep x)) -> (forall x, stateless (f x)) ->
  stateless (py_listcomp keep f l).
Proof.
  intros Hk Hf. induction l as [|x l IH]; simpl; [apply stateless_ret|].
  apply stateless_bind; [done|]. intros [|]; [|done].
  apply stateless_bind; [done|]. intros y.
  apply stateless_bind; [done|]. intros r. apply stateless_ret.
Qed.

Lemma stateless_py_next test l :
  (forall x, stateless (test x)) -> stateless (py_next test l).
Proof.
  intros Ht. induction l as [|x l IH]; simpl; [apply stateless_ret|].
  apply stateless_bind; [done|]. intros [|]; [apply stateless_ret | done].
Qed.

Lemma returns_ret {A} (a : A) : returns (ret a).
Proof. by exists a, []. Qed.

Lemma returns_emit ev : returns (emit ev).
Proof. by exists tt, [ev]. Qed.

Lemma returns_bind {A B} (m : M A) (k : A -> M B) :
  returns m -> (forall a, returns (k a)) -> returns (bind m k).
Proof.
  intros (a & l & Hm) Hk. destruct (Hk a) as (b & l2 & Hka).
  exists b, (l ++ l2). intros s. unfold bind. by rewrite Hm, Hka.
Qed.

Lemma returns_try_except {A} (m : M A) (hd : exn -> M A) :
  stateless m -> (forall ex, returns (hd ex)) -> returns (try_except m hd).
Proof.
  intros (o & l & Hm & Ho) Hh. unfold try_except. destruct o as [a| |ex|].
  - exists a, l. intros s. by rewrite Hm.
  - by destruct Ho.
  - destruct (Hh ex) as (b & l2 & Hx). exists b, (l ++ l2).
    intros s. by rewrite Hm, Hx.
  - by destruct Ho.
Qed.

End Stateless.

Ltac settle :=
  repeat match goal with
  | |- stateless (bind _ _) => apply stateless_bind; [|intros ?]
  | |- stateless (ret _) => apply stateless_ret
  | |- stateless (raise _ _) => apply stateless_raise
  | |- stateless (throw _) => apply stateless_throw
  | |- stateless (emit _) => apply stateless_emit
  | |- stateless (st_alert _ _) => apply stateless_emit
  | |- stateless (st_header _) => apply stateless_emit
  | |- stateless (st_subheader _) => apply stateless_emit
  | |- stateless (st_write _) => apply stateless_emit
  | |- stateless (try_except _ _) => apply stateless_try_except; [|intros ?]
  | |- stateless (call _) => apply stateless_call
  | |- stateless (when _ _) => apply stateless_when
  | |- stateless (py_get _ _ _) => apply stateless_py_get
  | |- stateless (py_item _ _) => apply stateless_py_item
  | |- stateless (py_iter _) => apply stateless_py_iter
  | |- stateless (response_json _) => apply stateless_response_json
  | |- stateless (requests_get _ _ _) => apply stateless_requests_get
  | |- stateless (py_listcomp _ _ _) => apply stateless_py_listcomp; intros ?
  | |- stateless (py_next _ _) => apply stateless_py_next; intros ?
  | |- stateless (if ?b then _ else _) => destruct b
  | |- stateless (match ?x with _ => _ end) => destruct x
  | |- stateless (let _ := _ in _) => cbv zeta
  end.

Section Blocks.

Context (h : host) (e : env).

Lemma stateless_format_2f v : stateless (format_2f h v).
Proof.
  destruct v as [| | n | | | |]; simpl; try destruct (fits_float n);
    apply stateless_ret || apply stateless_raise.
Qed.

Lemma stateless_st_metric label v : stateless (st_metric h label v).
Proof. destruct v; apply stateless_emit || apply stateless_throw. Qed.

Lemma stateless_show_analysis_summary results :
  stateless (show_analysis_summary h results).
Proof.
  unfold show_analysis_summary. settle;
    apply stateless_format_2f || apply stateless_st_metric.
Qed.

Lemma confined_format_2f K E v : confined K E (format_2f h v).
Proof.
  destruct v as [| | n | | | |]; simpl; try destruct (fits_float n);
    apply confined_ret || apply confined_raise.
Qed.

Lemma confined_st_metric K (E : event -> Prop) label v :
  (forall l x, E (Metric l x)) -> confined K E (st_metric h label v).
Proof. intros H. destruct v; (by apply confined_emit) || apply confined_throw. Qed.

End Blocks.

(** ** The result projection *)

Lemma summary_sends_nothing (h : host) (results : json) :
  confined [] (fun ev => is_request ev = false) (show_analysis_summary h results).
Proof.
  unfold show_analysis_summary. confine;
    try apply confined_format_2f; try apply confined_st_metric; done.
Qed.

(** C8: the quick summary is a pure function of the stored Stage 1
    response. Whatever the session, it shows the same things and ends the
    same way, it leaves the session as it was and sends no request; shown
    a second time on the session the first time left, it gives the same
    again. *)
Theorem summary_is_a_pure_projection (h : host) (results : json) :
  exists o l,
    (forall s, show_analysis_summary h results s = (o, s, l))
    /\ Forall (fun ev => is_request ev = false) l
    /\ forall s,
         show_analysis_summary h results
           (session_of (show_analysis_summary h results s))
         = show_analysis_summary h results s.
Proof.
  destruct (stateless_show_analysis_summary h results) as (o & l & Hrun & _).
  exists o, l. split; [done|]. split.
  - destruct (summary_sends_nothing h results ∅) as [_ Ht].
    by rewrite Hrun in Ht.
  - intros s. by rewrite !Hrun.
Qed.

Example summary_of_stage1_result (s : session) :
  show_analysis_summary host0 stage1_result s
  = (Ok tt, s,
     [ Subheader "📊 Quick Summary";
       Metric "Processing Time" (JStr "3.00s");
       Metric "Analysis Type" (JStr "comprehensive");
       Metric "Status" (JStr "✅ Complete");
       Alert Info "**Project ID:** PB-123" ]).
Proof. reflexivity. Qed.

(** ** The inline content form of the brand manager *)

(** The form of lines 447-462 taken by itself: with its submit button
    pressed and a text that is not blank it sends no request, shows a
    note and a success message and stores the text under
    [submitted_content]; the stage, the project brief id and the results
    of both stages stay as they were. *)
Lemma content_submission_form_stores_text (e : env) (s : session) :
  click_inline_submit e = true ->
  nonempty (strip (inline_content_text e)) = true ->
  let r := content_submission_form e s in
  outcome_of r = Ok tt
  /\ session_of r = <["submitted_content" := JStr (inline_content_text e)]> s
  /\ trace_of r =
       [ Alert Info "💡 **Note:** Designer selection will be handled by the content writer in their dashboard.";
         Alert Success "✅ Content submitted successfully! The content writer will now handle designer selection and report generation." ]
  /\ Forall (fun ev => is_request ev = false) (trace_of r)
  /\ stage_of (session_of r) = stage_of s
  /\ session_of r !! "project_brief_id" = s !! "project_brief_id"
  /\ session_of r !! "analysis_results" = s !! "analysis_results"
  /\ session_of r !! "designer_results" = s !! "designer_results".
Proof.
  intros Hclick Htext. unfold content_submission_form.
  rewrite Hclick, Htext. cbn.
  repeat split; try done.
  all: try (by repeat constructor).
  all: unfold stage_of; by rewrite !lookup_insert_ne.
Qed.

(** C9: the form is written to store the text and to report success, but
    it sits inside the branch of the Analyze button (line 387), and the
    run its submit button starts has that button unpressed.  After a
    successful Stage 1 the brand manager fills in the form and presses
    its submit button: the run shows the widgets of the Upload & Analyze
    tab and ends there; neither the note nor the success message is
    shown, the form is not even drawn again, and [submitted_content] is
    not stored. *)
Theorem inline_form_submission_is_lost :
  click_inline_submit inline_submit_pressed = true
  /\ nonempty (strip (inline_content_text inline_submit_pressed)) = true
  /\ script host0 inline_submit_pressed no_export session_after_stage1
     = (Ok tt,
        <["selected_project_id" := JInt 1]>
          (<["selected_project_name" := JStr "Acme Redesign"]>
             session_after_stage1),
        [ Header "📋 Navigation"; Header "⚙️ Settings";
          Header "🔗 Basecamp Integration";
          Alert Info "Configure Basecamp integration in your .env file to enable automatic report uploads and notifications.";
          Header "📤 Upload & Analyze Project Brief";
          Subheader "📁 Upload Document"; Subheader "📋 Select Project";
          Alert Info "Choose which project this ad campaign belongs to. The system will automatically retrieve the project's Basecamp message board and document vault.";
          Get "http://localhost:8000/projects" 30;
          Alert Info "📋 **Project Details:** Site relaunch";
          Subheader "👥 Select Content Writer";
          Alert Info "Select the content writer who will receive the Stage 1 report and notification.";
          Get "http://localhost:8000/users" 30;
          Alert Success "✅ Selected: Jane (Basecamp ID: 7)";
          Subheader "📋 Selected Team Member";
          Alert Info "**Content Writer:** Jane (jane@x.com)";
          Alert Success "✅ File uploaded: brief.pdf";
          Subheader "🔍 Analysis Options";
          Write (JStr "**Analysis Type:** comprehensive");
          Write (JStr "**Include Suggestions:** True") ])
  /\ session_of (script host0 inline_submit_pressed no_export session_after_stage1)
       !! "submitted_content" = None.
Proof.
  split; [reflexivity|]. split; [reflexivity|]. split.
  - vm_compute. reflexivity.
  - vm_compute. reflexivity.
Qed.

(** ** Stage 2: the submit tab of the content writer *)

Lemma content_data_content_writer (e : env) (pb did : json) :
  assoc "content_writer_id" (content_data e pb did) = Some JNull.
Proof.
  unfold content_data.
  destruct (nonempty (strip (content_text e))), (content_file e); reflexivity.
Qed.

Lemma submit_tab_requests (h : host) (e : env) :
  confined ["designer_results"] (stage2_request h) (content_writer_submit_tab h e).
Proof.
  unfold content_writer_submit_tab, content_writer_submission, submit_content,
    select_designer, resolve_recipient, eligible_users, success_and.
  confine; try done; try listed.
  split; [done | apply content_data_content_writer].
Qed.

(** C10: every request the submit tab posts goes to [/submit-content] and
    carries [content_writer_id] equal to [None], whatever the session
    holds, the content writer identifier stored by Stage 1 included. *)
Theorem stage2_request_names_no_content_writer
    (h : host) (e : env) (s : session)
    (u : string) (files : list (string * upload))
    (data : list (string * json)) (t : Z) :
  Post u files data t ∈ trace_of (content_writer_submit_tab h e s) ->
  u = url h "/submit-content" /\ assoc "content_writer_id" data = Some JNull.
Proof.
  intros Hin. destruct (submit_tab_requests h e s) as [_ Ht].
  rewrite Forall_forall in Ht. exact (Ht _ Hin).
Qed.

Lemma stage2_request_names_no_content_writer_witness :
  session_after_stage1 !! "content_writer_id" = Some (JInt 7)
  /\ Post "http://localhost:8000/submit-content" [("content_file", draft_docx)]
       [ ("project_brief_id", JStr "PB-123"); ("designer_id", JInt 9);
         ("content_writer_id", JNull); ("content_text", JStr "draft");
         ("has_file", JBool true) ] 300
     ∈ trace_of
         (content_writer_submit_tab host0
            (submit_pressed 3 (Some draft_docx) "draft" (ok_json stage2_partial_result))
            session_after_stage1)
  /\ assoc "content_writer_id"
       [ ("project_brief_id", JStr "PB-123"); ("designer_id", JInt 9);
         ("content_writer_id", JNull); ("content_text", JStr "draft");
         ("has_file", JBool true) ] = Some JNull.
Proof.
  assert (Hin :
    Post "http://localhost:8000/submit-content" [("content_file", draft_docx)]
       [ ("project_brief_id", JStr "PB-123"); ("designer_id", JInt 9);
         ("content_writer_id", JNull); ("content_text", JStr "draft");
         ("has_file", JBool true) ] 300
     ∈ trace_of
         (content_writer_submit_tab host0
            (submit_pressed 3 (Some draft_docx) "draft" (ok_json stage2_partial_result))
            session_after_stage1)).
  { vm_compute. repeat constructor. }
  split; [reflexivity|]. split; [exact Hin|].
  exact (proj2 (stage2_request_names_no_content_writer _ _ _ _ _ _ _ Hin)).
Defined.

(** ** Changing the role *)

(** C3, as the code has it: the Change Role button of either dashboard
    sets the role to [None] and restarts the script; it shows nothing,
    sends nothing and leaves every other key of the session as it was, so
    the results of the workflow stay for the next role. *)
Theorem change_role_keeps_the_workflow (h : host) (e : env)
    (results_tab projects_tab sample_tab my_projects_tab : M unit)
    (s : session) :
  click_change_role e = true ->
  let bm := show_brand_manager_page h e results_tab projects_tab sample_tab s in
  let cw := show_content_writer_page h e my_projects_tab s in
  bm = (Rerun, <["user_role" := JNull]> s, [])
  /\ cw = (Rerun, <["user_role" := JNull]> s, [])
  /\ (forall k, k <> "user_role" -> session_of bm !! k = s !! k)
  /\ (forall k, k <> "user_role" -> session_of cw !! k = s !! k)
  /\ stage_of (session_of bm) = stage_of s
  /\ stage_of (session_of cw) = stage_of s.
Proof.
  intros Hclick. unfold show_brand_manager_page, show_content_writer_page.
  rewrite Hclick. cbn. repeat split.
  1,2: intros k Hk; unfold session_of; simpl; by rewrite lookup_insert_ne.
  all: unfold stage_of, session_of; simpl; by rewrite !lookup_insert_ne.
Qed.

Lemma change_role_keeps_the_workflow_witness :
  click_change_role change_role_pressed = true
  /\ show_brand_manager_page host0 change_role_pressed
       blank_tab blank_tab blank_tab session_after_stage1
     = (Rerun, <["user_role" := JNull]> session_after_stage1, []).
Proof.
  split; [reflexivity|].
  apply (change_role_keeps_the_workflow host0 change_role_pressed
           blank_tab blank_tab blank_tab blank_tab session_after_stage1).
  reflexivity.
Defined.

(** C3 as stated fails: after Change Role on a session that completed
    Stage 1 the session is not the empty one; the analysis results, the
    project brief id and the content writer id are all still there and the
    stage is still Stage 1 complete. *)
Lemma change_role_discards_nothing :
  let after :=
    session_of
      (show_brand_manager_page host0 change_role_pressed
         blank_tab blank_tab blank_tab session_after_stage1) in
  after !! "user_role" = Some JNull
  /\ after !! "analysis_results" = Some stage1_result
  /\ after !! "project_brief_id" = Some (JStr "PB-123")
  /\ after !! "content_writer_id" = Some (JInt 7)
  /\ stage_of after = Stage1Complete
  /\ after <> <["user_role" := JNull]> ∅.
Proof.
  repeat split; try reflexivity.
  intros H. discriminate H.
Qed.

Lemma stateless_select_designer (h : host) (e : env) : stateless (select_designer h e).
Proof.
  unfold select_designer, resolve_recipient, eligible_users, success_and. settle.
Qed.

Lemma select_designer_run (h : host) (e : env) (s : session) :
  select_designer h e s
  = (chosen_designer h e, s, trace_of (select_designer h e ∅)).
Proof.
  destruct (stateless_select_designer h e) as (o & l & H & _).
  unfold chosen_designer. by rewrite !H.
Qed.

Lemma brief_id_gate (h : host) (e : env) (s : session) (pb : json) :
  session_brief_id s = Some pb ->
  content_writer_submit_tab h e s
  = finish (prepend [ Header "📤 Submit Completed Content";
                      Alert Info ("**Project ID:** " +:+ py_str h pb) ]
              (content_writer_submission h e pb s)).
Proof.
  unfold session_brief_id, content_writer_submit_tab. intros H.
  destruct (s !! "analysis_results") as [[| | | | | |fields]|] eqn:Hres; try done.
  rewrite call_run.
  destruct (assoc "report_data" fields) as [[| | | | | |rd]|] eqn:Hrd;
    try done; simpl in H.
  destruct (assoc "project_brief_id" rd) as [v|] eqn:Hpb; [|done].
  destruct (truthy v) eqn:Hv; [|done]. injection H as ->.
  run. reflexivity.
Qed.

Lemma no_brief_id_run (h : host) (e : env) (s : session) :
  session_brief_id s = None ->
  (s !! "analysis_results" = None
   /\ content_writer_submit_tab h e s
      = (Ok tt, s,
         [ Header "📤 Submit Completed Content";
           Alert Info "📤 No projects available. Please wait for a brand manager to assign you a project." ]))
  \/ (is_Some (s !! "analysis_results")
      /\ content_writer_submit_tab h e s
         = (Ok tt, s,
            [ Header "📤 Submit Completed Content";
              Alert Error "❌ No project ID found. Please contact the brand manager." ]))
  \/ (is_Some (s !! "analysis_results")
      /\ exists msg,
           content_writer_submit_tab h e s
           = (Raised (Exn AttributeError msg), s,
              [ Header "📤 Submit Completed Content" ])).
Proof.
  unfold session_brief_id, content_writer_submit_tab. intros H.
  rewrite call_run.
  destruct (s !! "analysis_results") as [results|] eqn:Hres.
  - right.
    destruct results as [| | | | | |fields];
      try (right; split; [done|]; eexists; run; reflexivity).
    destruct (assoc "report_data" fields) as [rd|] eqn:Hrd; simpl in H.
    + destruct rd as [| | | | | |rd];
        try (right; split; [done|]; eexists; run; reflexivity).
      left. split; [done|].
      destruct (assoc "project_brief_id" rd) as [v|] eqn:Hpb.
      * destruct (truthy v) eqn:Hv; [done|]. run. reflexivity.
      * run. reflexivity.
    + left. split; [done|]. run. reflexivity.
  - left. split; [done|]. run. reflexivity.
Qed.




Lemma history_shows_errors (h : host) (e : env) (s : session)
    (fields bi : list (string * json)) (errs : json) :
  s !! "designer_results" = Some (JObj fields) ->
  assoc "basecamp_integration" fields = Some (JObj bi) ->
  assoc "errors" bi = Some errs -> truthy errs = true ->
  is_number (default (JInt 0) (assoc "processing_time" fields)) = true ->
  (exists rd, default (JObj []) (assoc "report_data" fields) = JObj rd) ->
  exists l,
    content_writer_history_tab h e s = (Ok tt, s, l)
    /\ Alert Error ("⚠️ Some errors occurred: " +:+ py_str h errs) ∈ l.
Proof.
  intros Hres Hbi Herr Htruthy Hpt [rd Hrd].
  assert (Hfmt : format_2f h (default (JInt 0) (assoc "processing_time" fields)) s
                 = (Ok (fixed2 h (default (JInt 0) (assoc "processing_time" fields))), s, [])).
  { destruct (default (JInt 0) (assoc "processing_time" fields))
      as [| | n | | | |]; try done.
    unfold is_number in Hpt. unfold format_2f. by rewrite Hpt. }
  assert (Hbne : truthy (JObj bi) = true) by (by destruct bi).
  unfold content_writer_history_tab. rewrite call_run.
  destruct (assoc "report_data" fields) as [v|] eqn:Hrd0; simpl in Hrd; subst.
  - run. destruct (assoc "designer_report" rd) as [dr|] eqn:Hdr; simpl.
    + branch; run; repeat (branch; run); eexists; (split; [reflexivity|]);
        simpl; listed.
    + run; repeat (branch; run); eexists; (split; [reflexivity|]);
        simpl; listed.
  - injection Hrd as <-. run. repeat (branch; run);
      eexists; (split; [reflexivity|]); simpl; listed.
Qed.

Lemma submission_goes_out (h : host) (e : env) (pb did : json) (s : session) :
  chosen_designer h e = Ok did -> truthy did = true ->
  click_submit_content e = true ->
  is_Some (content_file e) \/ nonempty (strip (content_text e)) = true ->
  content_writer_submission h e pb s
  = prepend ([ Subheader "✍️ Submit Your Content";
               Alert Info "📁 Upload your completed content document (PDF, DOCX, or TXT)" ]
             ++ trace_of (select_designer h e ∅))
      (submit_content h e pb did s).
Proof.
  intros Hch Hdid Hclick Hcontent.
  pose proof (select_designer_run h e s) as Hd. rewrite Hch in Hd.
  assert (Hc : negb (bool_decide (is_Some (content_file e)))
               && negb (nonempty (strip (content_text e))) = false).
  { destruct Hcontent as [Hf| ->].
    - by rewrite bool_decide_true.
    - by rewrite andb_false_r. }
  unfold content_writer_submission. rewrite Hclick, Hc. run.
  tidy. reflexivity.
Qed.

Lemma select_designer_returns (h : host) (e : env) :
  exists did, chosen_designer h e = Ok did.
Proof.
  assert (H : returns (select_designer h e)).
  { unfold select_designer.
    apply returns_bind; [apply returns_emit|]. intros _.
    apply returns_bind; [apply returns_emit|]. intros _.
    apply returns_try_except.
    - unfold resolve_recipient, eligible_users, success_and. settle.
    - intros ex. apply returns_bind; [apply returns_emit|]. intros _.
      apply returns_ret. }
  destruct H as (did & l & H). exists did. unfold chosen_designer. by rewrite H.
Qed.

Lemma select_designer_quiet (h : host) (e : env) :
  confined [] (fun ev => is_post ev = false /\ is_refusal ev = false)
    (select_designer h e).
Proof.
  unfold select_designer, resolve_recipient, eligible_users, success_and.
  confine; done.
Qed.

Lemma submit_content_no_refusal (h : host) (e : env) (pb did : json) :
  confined ["designer_results"] (fun ev => is_refusal ev = false)
    (submit_content h e pb did).
Proof.
  unfold submit_content. confine; try done; listed.
Qed.

Lemma submission_refused (h : host) (e : env) (pb : json) (s : session) :
  click_submit_content e = true ->
  content_file e = None -> nonempty (strip (content_text e)) = false ->
  exists before,
    content_writer_submission h e pb s
    = (Returned, s, before ++ [Alert Error no_content_message])
    /\ Forall (fun ev => is_post ev = false) before.
Proof.
  intros Hclick Hfile Htext.
  pose proof (select_designer_run h e s) as Hd.
  destruct (select_designer_returns h e) as [did Hch]. rewrite Hch in Hd.
  unfold content_writer_submission. rewrite Hclick, Hfile, Htext.
  run. tidy.
  exists ([ Subheader "✍️ Submit Your Content";
            Alert Info "📁 Upload your completed content document (PDF, DOCX, or TXT)" ]
          ++ trace_of (select_designer h e ∅)).
  split; [reflexivity|].
  apply Forall_app. split; [by repeat constructor|].
  destruct (select_designer_quiet h e ∅) as [_ Ht].
  eapply Forall_impl; [exact Ht|]. by intros ev [? ?].
Qed.

Lemma submit_content_stored (h : host) (e : env) (pb did : json) (s : session)
    (resp : response) (fields bi : list (string * json)) (errs : json) :
  submit_reply e = Replied resp -> status_code resp = 200 ->
  json_body resp = inr (JObj fields) ->
  assoc "basecamp_integration" fields = Some (JObj bi) ->
  assoc "errors" bi = Some errs ->
  submit_content h e pb did s
  = (Ok tt, <["designer_results" := JObj fields]> s,
     Post (url h "/submit-content") (content_files e) (content_data e pb did) 300
     :: Alert Success "🎉 Content submitted successfully! Designer report generated and uploaded to Basecamp."
     :: stage2_flags bi).
Proof.
  intros Hreply Hst Hbody Hbi Herr.
  assert (Hbne : truthy (JObj bi) = true) by (by destruct bi).
  unfold submit_content, stage2_flags.
  destruct (truthy (default JNull (assoc "designer_uploaded" bi))) eqn:Hup,
    (truthy (default JNull (assoc "designer_notified" bi))) eqn:Hnt.
  all: erewrite try_except_ok; [reflexivity|].
  all: unfold requests_post, response_json; rewrite Hreply.
  all: run; rewrite Hst; simpl; rewrite Hbody; run; tidy; reflexivity.
Qed.

Lemma finish_prepend l (r : outcome unit * session * list event) :
  session_of (finish (prepend l r)) = session_of r
  /\ trace_of (finish (prepend l r)) = l ++ trace_of r.
Proof. destruct r as [[[]?]?]; done. Qed.

Lemma submit_content_posts (h : host) (e : env) (pb did : json) (s : session) :
  exists rest,
    trace_of (submit_content h e pb did s)
    = Post (url h "/submit-content") (content_files e) (content_data e pb did) 300
      :: rest.
Proof.
  unfold submit_content, try_except, requests_post.
  rewrite bind_assoc_at. erewrite bind_run by reflexivity.
  match goal with
  | |- context [prepend _ ?r] => destruct r as [[[a| |ex|] s1] l1]
  end; unfold prepend; simpl; eauto.
Qed.

(** C5: once the session holds a project brief id and the submit button
    is pressed, a text together with a file is accepted: the request goes
    out with both, to the designer the select box resolved to, and neither
    refusal is shown. Without a text (blank after [strip]) and without a
    file the tab shows its refusal last, posts nothing and leaves the
    session as it is. *)
Theorem stage2_accepts_both_refuses_neither
    (h : host) (e : env) (s : session) (pb : json) :
  session_brief_id s = Some pb ->
  click_submit_content e = true ->
  let r := content_writer_submit_tab h e s in
  (forall f did,
     content_file e = Some f -> nonempty (strip (content_text e)) = true ->
     chosen_designer h e = Ok did -> truthy did = true ->
     Post (url h "/submit-content") [("content_file", f)]
       [ ("project_brief_id", pb); ("designer_id", did);
         ("content_writer_id", JNull);
         ("content_text", JStr (content_text e)); ("has_file", JBool true) ]
       300 ∈ trace_of r
     /\ Forall (fun ev => is_refusal ev = false) (trace_of r))
  /\ (content_file e = None -> nonempty (strip (content_text e)) = false ->
      outcome_of r = Ok tt
      /\ session_of r = s
      /\ Forall (fun ev => is_post ev = false) (trace_of r)
      /\ last (trace_of r) = Some (Alert Error no_content_message)).
Proof.
  intros Hpb Hclick r. subst r. rewrite (brief_id_gate h e s pb Hpb). split.
  - intros f did Hfile Htext Hch Hdid.
    rewrite (submission_goes_out h e pb did s Hch Hdid Hclick) by (by right).
    rewrite prepend_prepend.
    match goal with
    | |- context [finish (prepend ?l ?r)] =>
        destruct (finish_prepend l r) as [_ ->]
    end.
    split.
    + destruct (submit_content_posts h e pb did s) as [rest ->].
      unfold content_files, content_data. rewrite Hfile, Htext.
      apply elem_of_app. right. apply list_elem_of_here.
    + rewrite !Forall_app. repeat split.
      * by repeat constructor.
      * by repeat constructor.
      * destruct (select_designer_quiet h e ∅) as [_ Ht].
        eapply Forall_impl; [exact Ht|]. by intros ev [? ?].
      * by destruct (submit_content_no_refusal h e pb did s) as [_ Ht].
  - intros Hfile Htext.
    destruct (submission_refused h e pb s Hclick Hfile Htext)
      as (before & -> & Hbefore).
    simpl. repeat split.
    + repeat constructor. apply Forall_app_2; [done | by repeat constructor].
    + rewrite !app_comm_cons. apply last_snoc.
Qed.

Lemma stage2_accepts_both_refuses_neither_witness :
  session_brief_id session_after_stage1 = Some (JStr "PB-123")
  /\ Post "http://localhost:8000/submit-content" [("content_file", draft_docx)]
       [ ("project_brief_id", JStr "PB-123"); ("designer_id", JInt 9);
         ("content_writer_id", JNull); ("content_text", JStr "draft");
         ("has_file", JBool true) ] 300
     ∈ trace_of
         (content_writer_submit_tab host0
            (submit_pressed 3 (Some draft_docx) "draft" (ok_json stage2_partial_result))
            session_after_stage1).
Proof.
  split; [reflexivity|].
  apply (proj1 (stage2_accepts_both_refuses_neither host0
                  (submit_pressed 3 (Some draft_docx) "draft" (ok_json stage2_partial_result))
                  session_after_stage1 (JStr "PB-123") eq_refl eq_refl)
           draft_docx (JInt 9) eq_refl eq_refl eq_refl eq_refl).
Defined.

Example stage2_refuses_blank_text :
  content_writer_submit_tab host0
    (submit_pressed 3 None "   " (ok_json stage2_partial_result))
    session_after_stage1
  = (Ok tt, session_after_stage1,
     [ Header "📤 Submit Completed Content";
       Alert Info "**Project ID:** PB-123";
       Subheader "✍️ Submit Your Content";
       Alert Info "📁 Upload your completed content document (PDF, DOCX, or TXT)";
       Subheader "🎨 Select Designer for Report";
       Alert Info "Choose a designer who will receive the report based on your content.";
       Get "http://localhost:8000/users" 30;
       Alert Success "✅ Selected: Omar";
       Alert Error no_content_message ]).
Proof. reflexivity. Qed.

(** ** Partial integration failures at Stage 2 *)

(** When [/submit-content] answers 200 with a result whose
    [basecamp_integration.errors] is non-empty, the submit tab stores the
    result under [designer_results], so the stage is Stage 2 complete,
    and after the request it shows successes only; the errors are shown
    by the Content History tab when it displays the stored result (there
    the processing time has to be a number and the report data a
    dict). *)
Lemma partial_integration_is_stored_then_shown_in_history
    (h : host) (e e' : env) (s : session) (pb did : json) (resp : response)
    (fields bi : list (string * json)) (errs : json) :
  session_brief_id s = Some pb ->
  click_submit_content e = true ->
  is_Some (content_file e) \/ nonempty (strip (content_text e)) = true ->
  chosen_designer h e = Ok did -> truthy did = true ->
  submit_reply e = Replied resp -> status_code resp = 200 ->
  json_body resp = inr (JObj fields) ->
  assoc "basecamp_integration" fields = Some (JObj bi) ->
  assoc "errors" bi = Some errs -> truthy errs = true ->
  let r := content_writer_submit_tab h e s in
  outcome_of r = Ok tt
  /\ session_of r = <["designer_results" := JObj fields]> s
  /\ stage_of (session_of r) = Stage2Complete
  /\ (exists before,
        trace_of r
        = before ++
          Post (url h "/submit-content") (content_files e)
            (content_data e pb did) 300
          :: Alert Success "🎉 Content submitted successfully! Designer report generated and uploaded to Basecamp."
          :: stage2_flags bi)
  /\ Forall (fun ev => is_complaint ev = false) (stage2_flags bi)
  /\ (is_number (default (JInt 0) (assoc "processing_time" fields)) = true ->
      (exists rd, default (JObj []) (assoc "report_data" fields) = JObj rd) ->
      Alert Error ("⚠️ Some errors occurred: " +:+ py_str h errs)
      ∈ trace_of (content_writer_history_tab h e' (session_of r))).
Proof.
  intros Hpb Hclick Hcontent Hch Hdid Hreply Hst Hbody Hbi Herr Htruthy r.
  subst r. rewrite (brief_id_gate h e s pb Hpb).
  rewrite (submission_goes_out h e pb did s Hch Hdid Hclick Hcontent).
  rewrite (submit_content_stored h e pb did s resp fields bi errs
             Hreply Hst Hbody Hbi Herr).
  rewrite prepend_prepend. unfold finish, prepend, outcome_of, session_of,
    trace_of; simpl.
  split; [done|]. split; [done|]. split.
  { unfold stage_of. by rewrite lookup_insert_eq. }
  split.
  { exists ([ Header "📤 Submit Completed Content";
              Alert Info ("**Project ID:** " +:+ py_str h pb);
              Subheader "✍️ Submit Your Content";
              Alert Info "📁 Upload your completed content document (PDF, DOCX, or TXT)" ]
            ++ trace_of (select_designer h e ∅)).
    reflexivity. }
  split.
  { unfold stage2_flags. apply Forall_app_2.
    - destruct (truthy (default JNull (assoc "designer_uploaded" bi)));
        by repeat constructor.
    - destruct (truthy (default JNull (assoc "designer_notified" bi)));
        by repeat constructor. }
  intros Hpt Hrd.
  destruct (history_shows_errors h e' (<["designer_results" := JObj fields]> s)
              fields bi errs (lookup_insert_eq _ _ _) Hbi Herr Htruthy Hpt Hrd)
    as (l & -> & Hin).
  exact Hin.
Qed.

Lemma partial_integration_is_stored_then_shown_in_history_witness :
  session_brief_id session_after_stage1 = Some (JStr "PB-123")
  /\ session_of
       (content_writer_submit_tab host0
          (submit_pressed 3 None "draft" (ok_json stage2_partial_result))
          session_after_stage1)
     = <["designer_results" := stage2_partial_result]> session_after_stage1
  /\ Alert Error "⚠️ Some errors occurred: ['notify failed']"
     ∈ trace_of
         (content_writer_history_tab host0 nothing_pressed
            (session_of
               (content_writer_submit_tab host0
                  (submit_pressed 3 None "draft" (ok_json stage2_partial_result))
                  session_after_stage1))).
Proof.
  pose proof
    (partial_integration_is_stored_then_shown_in_history host0
       (submit_pressed 3 None "draft" (ok_json stage2_partial_result))
       nothing_pressed
       session_after_stage1 (JStr "PB-123") (JInt 9)
       (Response 200 "" (inr stage2_partial_result))
       _ _ (JList [JStr "notify failed"])
       eq_refl eq_refl (or_intror eq_refl) eq_refl eq_refl eq_refl eq_refl
       eq_refl eq_refl eq_refl eq_refl) as H.
  split; [reflexivity|]. split; [exact (proj1 (proj2 H))|].
  apply (proj2 (proj2 (proj2 (proj2 (proj2 H))))).
  - reflexivity.
  - by eexists.
Defined.

(** C4: the handler of Stage 1 (lines 431-432) and the Content History
    tab (lines 829-830) show the errors of the Basecamp integration; the
    handler of Stage 2 (lines 776-781) has the two flags and no branch
    for the errors.  When [/submit-content] answers 200 with the errors
    ['notify failed'], the submit tab stores the result, so the stage
    is Stage 2 complete, and shows the success message and the upload
    flag: no warning and no error goes with the transition.  The
    display of Stage 1 on the same body, and the Content History tab on
    the session the run leaves, both show the errors. *)
Theorem partial_integration_warning_is_missing :
  let e := submit_pressed 3 None "draft" (ok_json stage2_partial_result) in
  let r := content_writer_submit_tab host0 e session_after_stage1 in
  field "errors" (field "basecamp_integration" stage2_partial_result)
  = JList [JStr "notify failed"]
  /\ r = (Ok tt, <["designer_results" := stage2_partial_result]> session_after_stage1,
          [ Header "📤 Submit Completed Content";
            Alert Info "**Project ID:** PB-123";
            Subheader "✍️ Submit Your Content";
            Alert Info "📁 Upload your completed content document (PDF, DOCX, or TXT)";
            Subheader "🎨 Select Designer for Report";
            Alert Info "Choose a designer who will receive the report based on your content.";
            Get "http://localhost:8000/users" 30;
            Alert Success "✅ Selected: Omar";
            Post "http://localhost:8000/submit-content" []
              [ ("project_brief_id", JStr "PB-123"); ("designer_id", JInt 9);
                ("content_writer_id", JNull); ("content_text", JStr "draft") ] 300;
            Alert Success "🎉 Content submitted successfully! Designer report generated and uploaded to Basecamp.";
            Alert Success "✅ Designer Report uploaded to Basecamp" ])
  /\ stage_of (session_of r) = Stage2Complete
  /\ forallb (fun ev => negb (is_complaint ev)) (trace_of r) = true
  /\ show_stage1_integration host0 stage2_partial_result (session_of r)
     = (Ok tt, session_of r,
        [ Subheader "📤 Basecamp Integration Status";
          Alert Error "⚠️ Some errors occurred: ['notify failed']" ])
  /\ Alert Error "⚠️ Some errors occurred: ['notify failed']"
     ∈ trace_of (content_writer_history_tab host0 nothing_pressed (session_of r)).
Proof.
  intros e r.
  split; [reflexivity|]. split; [reflexivity|]. split; [reflexivity|].
  split; [reflexivity|]. split; [reflexivity|].
  vm_compute. listed.
Qed.

(** ** Stage 1: the Upload & Analyze tab *)

Ltac absent :=
  rewrite ?not_elem_of_cons; repeat split; try done; apply not_elem_of_nil.

Lemma select_project_frame (h : host) (e : env) :
  confined ["selected_project_id"; "selected_project_name"]
    (fun ev => is_post ev = false) (select_project h e).
Proof.
  unfold select_project, clear_project, success_and.
  confine; try done; listed.
Qed.

Lemma select_content_writer_quiet (h : host) (e : env) :
  confined [] (fun ev => is_post ev = false) (select_content_writer h e).
Proof.
  unfold select_content_writer, resolve_recipient, eligible_users, success_and.
  confine; done.
Qed.

Lemma select_content_writer_returns (h : host) (e : env) :
  returns (select_content_writer h e).
Proof.
  unfold select_content_writer.
  apply returns_bind; [apply returns_emit|]. intros _.
  apply returns_bind; [apply returns_emit|]. intros _.
  apply returns_try_except.
  - unfold resolve_recipient, eligible_users, success_and. settle.
  - intros ex. apply returns_bind; [apply returns_emit|]. intros _.
    apply returns_bind; [apply returns_emit|]. intros _.
    apply returns_ret.
Qed.

Lemma select_content_writer_run (h : host) (e : env) (s : session) :
  exists cw,
    chosen_content_writer h e = Ok cw
    /\ select_content_writer h e s
       = (Ok cw, s, trace_of (select_content_writer h e ∅)).
Proof.
  destruct (select_content_writer_returns h e) as (cw & l & H).
  exists cw. unfold chosen_content_writer. by rewrite !H.
Qed.

(** The tab, cut at its three parts. *)
Lemma upload_tab_run (h : host) (e : env) (ty : string) (sg : bool)
    (s : session) (cw : json) :
  chosen_content_writer h e = Ok cw ->
  upload_and_analyze_tab h e ty sg s
  = finish
      (prepend [ Header "📤 Upload & Analyze Project Brief";
                 Subheader "📁 Upload Document" ]
         (match select_project h e s with
          | (Ok _, s1, l1) =>
              prepend (l1 ++ trace_of (select_content_writer h e ∅))
                (upload_section h e ty sg cw s1)
          | (Returned, s1, l1) => (Returned, s1, l1)
          | (Raised ex, s1, l1) => (Raised ex, s1, l1)
          | (Rerun, s1, l1) => (Rerun, s1, l1)
          end)).
Proof.
  intros Hcw. unfold upload_and_analyze_tab. rewrite call_run.
  erewrite bind_run by reflexivity. erewrite bind_run by reflexivity.
  rewrite prepend_prepend. simpl app.
  destruct (select_project h e s) as [[[[]| |ex|] s1] l1] eqn:Hp.
  - erewrite bind_run by exact Hp.
    destruct (select_content_writer_run h e s1) as (cw' & Hcw' & Hrun).
    assert (cw' = cw) as -> by congruence.
    erewrite bind_run by exact Hrun. by rewrite !prepend_prepend, !app_assoc.
  - by erewrite bind_returned by exact Hp.
  - by erewrite bind_raised by exact Hp.
  - by erewrite bind_rerun by exact Hp.
Qed.

Lemma upload_section_no_writer (h : host) (e : env) (ty : string) (sg : bool)
    (cw : json) (s : session) :
  truthy cw = false ->
  upload_section h e ty sg cw s
  = match uploaded_file e with
    | Some f =>
        if click_analyze e
        then (Returned, s, upload_widgets ty sg f ++ [Alert Error no_writer_message])
        else (Ok tt, s, upload_widgets ty sg f)
    | None => (Ok tt, s, [])
    end.
Proof.
  intros Hcw. unfold upload_section.
  destruct (uploaded_file e) as [f|]; [|done].
  destruct (click_analyze e); rewrite ?Hcw; run; by destruct sg.
Qed.

Lemma upload_section_writer (h : host) (e : env) (ty : string) (sg : bool)
    (cw : json) (s : session) :
  truthy cw = true ->
  upload_section h e ty sg cw s
  = match uploaded_file e with
    | Some f =>
        if click_analyze e
        then prepend (upload_widgets ty sg f) (analyze_document h e ty sg f cw s)
        else (Ok tt, s, upload_widgets ty sg f)
    | None => (Ok tt, s, [])
    end.
Proof.
  intros Hcw. unfold upload_section.
  destruct (uploaded_file e) as [f|]; [|done].
  destruct (click_analyze e); rewrite ?Hcw; run; by destruct sg.
Qed.

Lemma upload_succeeded_dec (e : env) : upload_succeeded e \/ ~ upload_succeeded e.
Proof.
  unfold upload_succeeded. destruct (upload_reply e) as [r|ex].
  - destruct (Z.eq_dec (status_code r) 200) as [Hst|Hst].
    + destruct (json_body r) as [ex|v] eqn:Hb.
      * right. intros (r' & v & [= <-] & _ & Hv). congruence.
      * left. by exists r, v.
    + right. intros (r' & v & [= <-] & Hs & _). done.
  - right. intros (r' & v & Hr & _). done.
Qed.

(** A reply that is no success ends the upload with one error box. *)
Lemma analyze_document_failed (h : host) (e : env) (ty : string) (sg : bool)
    (f : upload) (cw : json) (s : session) :
  ~ upload_succeeded e ->
  exists msg,
    analyze_document h e ty sg f cw s
    = (Ok tt, s,
       [ Post (url h "/upload") [("file", f)]
           (upload_data ty sg cw (default JNull (s !! "selected_project_id"))
              (default JNull (s !! "selected_project_name"))) 300;
         Alert Error msg ])
    /\ (forall resp, upload_reply e = Replied resp -> status_code resp <> 200 ->
        msg = "❌ Analysis failed: " +:+ text resp)
    /\ (forall resp ex, upload_reply e = Replied resp -> status_code resp = 200 ->
        json_body resp = inl ex -> msg = upload_error_text ex)
    /\ (forall ex, upload_reply e = Failed ex -> msg = upload_error_text ex).
Proof.
  intros Hfail. unfold analyze_document, upload_succeeded in *.
  destruct (upload_reply e) as [r|ex] eqn:Hr.
  - destruct (status_code r =? 200) eqn:Hst.
    + apply Z.eqb_eq in Hst. destruct (json_body r) as [ex|v] eqn:Hb.
      * exists (upload_error_text ex). split.
        { erewrite try_except_raised.
          2:{ unfold requests_post, response_json. run. rewrite Hst. simpl.
              rewrite Hb. run. reflexivity. }
          reflexivity. }
        repeat split; congruence.
      * exfalso. apply Hfail. by exists r, v.
    + exists ("❌ Analysis failed: " +:+ text r). split.
      { erewrite try_except_ok; [reflexivity|].
        unfold requests_post. run. rewrite Hst. run. reflexivity. }
      apply Z.eqb_neq in Hst. repeat split; congruence.
  - exists (upload_error_text ex). split.
    { erewrite try_except_raised.
      2:{ unfold requests_post. run. reflexivity. }
      reflexivity. }
    repeat split; congruence.
Qed.

Lemma finish_outcome (r : outcome unit * session * list event) :
  outcome_of (finish r)
  = match outcome_of r with
    | Returned => Ok tt
    | o => o
    end.
Proof. by destruct r as [[[]?]?]. Qed.

Lemma finish_session (r : outcome unit * session * list event) :
  session_of (finish r) = session_of r.
Proof. by destruct r as [[[]?]?]. Qed.

Lemma finish_trace (r : outcome unit * session * list event) :
  trace_of (finish r) = trace_of r.
Proof. by destruct r as [[[]?]?]. Qed.

Lemma last_after {A} (l1 l2 : list A) (x : A) : last (l1 ++ l2 ++ [x]) = Some x.
Proof. by rewrite app_assoc, last_snoc. Qed.

Ltac quiet_list :=
  repeat first
    [ apply Forall_nil_2
    | apply Forall_cons_2; [reflexivity|]
    | apply Forall_app_2
    | assumption ].

(** C6: when the content-writer select box of the run resolves to no
    external identifier, the Upload & Analyze tab posts nothing, and the
    session is as the project selection left it; when the Analyze button
    is pressed on an uploaded file, the tab ends with its own error
    message as the last thing shown. *)
Theorem stage1_needs_a_content_writer
    (h : host) (e : env) (ty : string) (sg : bool) (s : session) (cw : json) :
  chosen_content_writer h e = Ok cw -> truthy cw = false ->
  let r := upload_and_analyze_tab h e ty sg s in
  Forall (fun ev => is_post ev = false) (trace_of r)
  /\ session_of r = session_of (select_project h e s)
  /\ (forall k, k <> "selected_project_id" -> k <> "selected_project_name" ->
      session_of r !! k = s !! k)
  /\ (forall f,
        outcome_of (select_project h e s) = Ok tt ->
        uploaded_file e = Some f -> click_analyze e = true ->
        outcome_of r = Ok tt
        /\ last (trace_of r) = Some (Alert Error no_writer_message)).
Proof.
  intros Hch Hcw r. subst r. rewrite (upload_tab_run h e ty sg s cw Hch).
  destruct (select_project_frame h e s) as [Hkeys Hquiet].
  destruct (select_content_writer_quiet h e ∅) as [_ Hquiet'].
  rewrite finish_session, finish_trace, finish_outcome.
  assert (Hframe : forall k, k <> "selected_project_id" ->
                     k <> "selected_project_name" ->
                     session_of (select_project h e s) !! k = s !! k).
  { intros k H1 H2. apply Hkeys. absent. }
  destruct (select_project h e s) as [[o s1] l1].
  unfold session_of, trace_of, outcome_of in *; simpl in *.
  destruct o as [[]| |ex|]; simpl.
  - rewrite (upload_section_no_writer h e ty sg cw s1 Hcw).
    destruct (uploaded_file e) as [f|] eqn:Hf;
      [destruct (click_analyze e) eqn:Hclick|]; simpl.
    + split; [quiet_list|]. split; [done|]. split; [done|].
      intros f' _ [= <-] _. split; [done|].
      apply (last_after
               (Header "📤 Upload & Analyze Project Brief"
                :: Subheader "📁 Upload Document"
                :: l1 ++ trace_of (select_content_writer h e ∅))
               (upload_widgets ty sg f)).
    + split; [quiet_list|]. repeat split; done.
    + split; [quiet_list|]. repeat split; done.
  - split; [quiet_list|]. repeat split; done.
  - split; [quiet_list|]. repeat split; done.
  - split; [quiet_list|]. repeat split; done.
Qed.

Lemma no_post_in (l : list event) u f d t :
  Forall (fun ev => is_post ev = false) l -> Post u f d t ∈ l -> False.
Proof. rewrite Forall_forall. intros H Hin. by specialize (H _ Hin). Qed.

Lemma stage_of_frame (s s' : session) :
  s' !! "analysis_results" = s !! "analysis_results" ->
  s' !! "designer_results" = s !! "designer_results" ->
  stage_of s' = stage_of s.
Proof. intros H1 H2. unfold stage_of. by rewrite H1, H2. Qed.

(** A visit of the tab whose upload does not succeed. *)
Lemma failed_attempt (h : host) (e : env) (ty : string) (sg : bool) (s : session) :
  ~ upload_succeeded e ->
  let r := upload_and_analyze_tab h e ty sg s in
  session_of r = session_of (select_project h e s)
  /\ (forall u files data t,
        Post u files data t ∈ trace_of r ->
        outcome_of r = Ok tt
        /\ exists msg,
             last (trace_of r) = Some (Alert Error msg)
             /\ (forall resp, upload_reply e = Replied resp ->
                 status_code resp <> 200 ->
                 msg = "❌ Analysis failed: " +:+ text resp)
             /\ (forall resp ex, upload_reply e = Replied resp ->
                 status_code resp = 200 -> json_body resp = inl ex ->
                 msg = upload_error_text ex)
             /\ (forall ex, upload_reply e = Failed ex ->
                 msg = upload_error_text ex)).
Proof.
  intros Hfail r. subst r.
  destruct (select_content_writer_run h e s) as (cw & Hch & _).
  rewrite (upload_tab_run h e ty sg s cw Hch).
  destruct (select_project_frame h e s) as [_ Hquiet].
  destruct (select_content_writer_quiet h e ∅) as [_ Hquiet'].
  rewrite finish_session, finish_trace, finish_outcome.
  destruct (select_project h e s) as [[o s1] l1].
  unfold session_of, trace_of, outcome_of in *; simpl in *.
  destruct o as [[]| |ex|]; simpl.
  2-4: (split; [done|]; intros u files data t Hin; exfalso;
        eapply no_post_in; [|exact Hin]; quiet_list).
  destruct (truthy cw) eqn:Hcw.
  - rewrite (upload_section_writer h e ty sg cw s1 Hcw).
    destruct (uploaded_file e) as [f|] eqn:Hf;
      [destruct (click_analyze e) eqn:Hclick|]; simpl.
    2-3: (split; [done|]; intros u files data t Hin; exfalso;
          eapply no_post_in; [|exact Hin]; quiet_list).
    destruct (analyze_document_failed h e ty sg f cw s1 Hfail)
      as (msg & -> & Hmsg). simpl. split; [done|].
    intros _ _ _ _ _. split; [done|]. exists msg. split; [|exact Hmsg].
    apply (last_after
             (Header "📤 Upload & Analyze Project Brief"
              :: Subheader "📁 Upload Document"
              :: l1 ++ trace_of (select_content_writer h e ∅))
             (upload_widgets ty sg f ++ [_])).
  - rewrite (upload_section_no_writer h e ty sg cw s1 Hcw).
    destruct (uploaded_file e) as [f|] eqn:Hf;
      [destruct (click_analyze e) eqn:Hclick|]; simpl.
    all: (split; [done|]; intros u files data t Hin; exfalso;
          eapply no_post_in; [|exact Hin]; quiet_list).
Qed.

Lemma failed_attempt_keeps_stage (h : host) (a : attempt) (s : session) :
  ~ upload_succeeded (attempt_env a) ->
  stage_of
    (session_of (upload_and_analyze_tab h (attempt_env a) (attempt_type a)
                   (attempt_suggestions a) s))
  = stage_of s.
Proof.
  intros Hfail.
  destruct (failed_attempt h (attempt_env a) (attempt_type a)
              (attempt_suggestions a) s Hfail) as [-> _].
  destruct (select_project_frame h (attempt_env a) s) as [Hkeys _].
  apply stage_of_frame; apply Hkeys; absent.
Qed.

(** C1, as the code has it: over any sequence of visits of the Upload &
    Analyze tab the stage leaves NotStarted only if some visit got status
    200 with a JSON body from [/upload]. A visit that gets anything else
    changes no key of the session but the project selection of the form,
    keeps the stage, and, when it sent the request, ends with an error box
    as the last thing shown: the response body after "Analysis failed:"
    for a status other than 200 (the status itself is not shown), the
    text of the matching [except] clause for an exception. *)
Theorem stage1_completes_only_on_success (h : host) :
  (forall (l : list attempt) (s : session),
     stage_of s = NotStarted ->
     stage_of (after_attempts h l s) <> NotStarted ->
     Exists (fun a => upload_succeeded (attempt_env a)) l)
  /\ (forall (e : env) (ty : string) (sg : bool) (s : session),
        ~ upload_succeeded e ->
        let r := upload_and_analyze_tab h e ty sg s in
        (forall k, k <> "selected_project_id" -> k <> "selected_project_name" ->
         session_of r !! k = s !! k)
        /\ stage_of (session_of r) = stage_of s
        /\ (forall u files data t,
              Post u files data t ∈ trace_of r ->
              outcome_of r = Ok tt
              /\ exists msg,
                   last (trace_of r) = Some (Alert Error msg)
                   /\ (forall resp, upload_reply e = Replied resp ->
                       status_code resp <> 200 ->
                       msg = "❌ Analysis failed: " +:+ text resp)
                   /\ (forall resp ex, upload_reply e = Replied resp ->
                       status_code resp = 200 -> json_body resp = inl ex ->
                       msg = upload_error_text ex)
                   /\ (forall ex, upload_reply e = Failed ex ->
                       msg = upload_error_text ex))).
Proof.
  split.
  - intros l. induction l as [|a l IH]; intros s Hs Hafter; [done|].
    destruct (upload_succeeded_dec (attempt_env a)) as [Hok|Hfail].
    + by apply Exists_cons_hd.
    + apply Exists_cons_tl. apply (IH _ (eq_trans
        (failed_attempt_keeps_stage h a s Hfail) Hs) Hafter).
  - intros e ty sg s Hfail r.
    destruct (failed_attempt h e ty sg s Hfail) as [Hs Hpost].
    destruct (select_project_frame h e s) as [Hkeys _].
    split; [|split].
    + intros k H1 H2. subst r. rewrite Hs. apply Hkeys. absent.
    + exact (failed_attempt_keeps_stage h (Attempt e ty sg) s Hfail).
    + exact Hpost.
Qed.

Lemma stage1_needs_a_content_writer_witness :
  chosen_content_writer host0
    (analyze_pressed 0 (ok_json stage1_result)) = Ok JNull
  /\ Forall (fun ev => is_post ev = false)
       (trace_of
          (upload_and_analyze_tab host0
             (analyze_pressed 0 (ok_json stage1_result))
             "comprehensive" true ∅))
  /\ last
       (trace_of
          (upload_and_analyze_tab host0
             (analyze_pressed 0 (ok_json stage1_result))
             "comprehensive" true ∅))
     = Some (Alert Error no_writer_message).
Proof.
  pose proof
    (stage1_needs_a_content_writer host0
       (analyze_pressed 0 (ok_json stage1_result))
       "comprehensive" true ∅ JNull eq_refl eq_refl) as (H1 & _ & _ & H4).
  split; [reflexivity|]. split; [exact H1|].
  exact (proj2 (H4 brief_pdf eq_refl eq_refl eq_refl)).
Defined.

Example stage1_without_writer_trace :
  upload_and_analyze_tab host0
    (analyze_pressed 0 (ok_json stage1_result))
    "comprehensive" true ∅
  = (Ok tt,
     <["selected_project_name" := JStr "Acme Redesign"]>
       (<["selected_project_id" := JInt 1]> ∅),
     [ Header "📤 Upload & Analyze Project Brief";
       Subheader "📁 Upload Document";
       Subheader "📋 Select Project";
       Alert Info "Choose which project this ad campaign belongs to. The system will automatically retrieve the project's Basecamp message board and document vault.";
       Get "http://localhost:8000/projects" 30;
       Alert Info "📋 **Project Details:** Site relaunch";
       Subheader "👥 Select Content Writer";
       Alert Info "Select the content writer who will receive the Stage 1 report and notification.";
       Get "http://localhost:8000/users" 30;
       Alert Warning "⚠️ Please select a content writer to receive the Stage 1 report";
       Alert Success "✅ File uploaded: brief.pdf";
       Subheader "🔍 Analysis Options";
       Write (JStr "**Analysis Type:** comprehensive");
       Write (JStr "**Include Suggestions:** True");
       Alert Error no_writer_message ]).
Proof. reflexivity. Qed.

Lemma stage1_completes_only_on_success_witness :
  ~ upload_succeeded
      (analyze_pressed 1 server_error)
  /\ stage_of
       (session_of
          (upload_and_analyze_tab host0
             (analyze_pressed 1 server_error)
             "comprehensive" true ∅))
     = stage_of ∅.
Proof.
  assert (Hfail : ~ upload_succeeded
                      (analyze_pressed 1 server_error)).
  { intros (r & v & Hr & Hst & _). injection Hr as <-. discriminate Hst. }
  split; [exact Hfail|].
  exact (proj1 (proj2 (proj2 (stage1_completes_only_on_success host0)
                         (analyze_pressed 1 server_error)
                         "comprehensive" true ∅ Hfail))).
Defined.

(** C1 as stated fails in its last part: in Scenario C the error box
    carries the response body and not the status. With the same body the
    visit is the same for status 500 and for status 404, and no message
    of the visit contains "500". *)
Lemma stage1_error_omits_the_status :
  let visit (status : Z) :=
    upload_and_analyze_tab host0
      (analyze_pressed 1
         (Replied (Response status "Internal Server Error"
                     (inl (Exn JSONDecodeError "Expecting value")))))
      "comprehensive" true ∅ in
  visit 500
  = (Ok tt,
     <["selected_project_name" := JStr "Acme Redesign"]>
       (<["selected_project_id" := JInt 1]> ∅),
     [ Header "📤 Upload & Analyze Project Brief";
       Subheader "📁 Upload Document";
       Subheader "📋 Select Project";
       Alert Info "Choose which project this ad campaign belongs to. The system will automatically retrieve the project's Basecamp message board and document vault.";
       Get "http://localhost:8000/projects" 30;
       Alert Info "📋 **Project Details:** Site relaunch";
       Subheader "👥 Select Content Writer";
       Alert Info "Select the content writer who will receive the Stage 1 report and notification.";
       Get "http://localhost:8000/users" 30;
       Alert Success "✅ Selected: Jane (Basecamp ID: 7)";
       Subheader "📋 Selected Team Member";
       Alert Info "**Content Writer:** Jane (jane@x.com)";
       Alert Success "✅ File uploaded: brief.pdf";
       Subheader "🔍 Analysis Options";
       Write (JStr "**Analysis Type:** comprehensive");
       Write (JStr "**Include Suggestions:** True");
       Post "http://localhost:8000/upload" [("file", brief_pdf)]
         [ ("content_writer_id", JInt 7);
           ("analysis_type", JStr "comprehensive");
           ("include_suggestions", JBool true); ("project_id", JInt 1);
           ("project_name", JStr "Acme Redesign") ] 300;
       Alert Error "❌ Analysis failed: Internal Server Error" ])
  /\ visit 404 = visit 500
  /\ forallb (fun ev => match ev with
                        | Alert _ msg => negb (occurs "500" msg)
                        | _ => true
                        end) (trace_of (visit 500)) = true.
Proof. repeat split; reflexivity. Qed.

(** ** Recipients that share a display name *)

Lemma py_listcomp_pure {B} (keep : json -> M bool) (f : json -> M B)
    (p : json -> bool) (g : json -> B) (l : list json) (s : session) :
  (forall x, x ∈ l -> keep x s = (Ok (p x), s, [])) ->
  (forall x, x ∈ l -> p x = true -> f x s = (Ok (g x), s, [])) ->
  py_listcomp keep f l s = (Ok (map g (List.filter p l)), s, []).
Proof.
  induction l as [|x l IH]; intros Hk Hf; [done|]. simpl.
  erewrite bind_run by (apply Hk; apply list_elem_of_here).
  rewrite prepend_nil.
  assert (IH' : py_listcomp keep f l s = (Ok (map g (List.filter p l)), s, [])).
  { apply IH; intros y Hy; [apply Hk | apply Hf]; by apply list_elem_of_further. }
  destruct (p x) eqn:Hp; [|done].
  erewrite bind_run by (apply Hf; [apply list_elem_of_here | done]).
  erewrite bind_run by exact IH'. reflexivity.
Qed.

Lemma py_next_pure (test : json -> M bool) (p : json -> bool)
    (l : list json) (s : session) :
  (forall x, x ∈ l -> test x s = (Ok (p x), s, [])) ->
  py_next test l s = (Ok (default JNull (List.find p l)), s, []).
Proof.
  induction l as [|x l IH]; intros Ht; [done|]. simpl.
  erewrite bind_run by (apply Ht; apply list_elem_of_here).
  rewrite prepend_nil. destruct (p x); [done|].
  apply IH. intros y Hy. apply Ht. by apply list_elem_of_further.
Qed.

Lemma filter_all {A} (l : list A) : List.filter (fun _ => true) l = l.
Proof. induction l; simpl; congruence. Qed.

Lemma drop_prefix_paren (c : ascii) (s : string) :
  drop_prefix " (" (String c s)
  = if Ascii.eqb " "%char c
    then match s with
         | String d s' => if Ascii.eqb "("%char d then Some s' else None
         | EmptyString => None
         end
    else None.
Proof. by destruct s. Qed.

(** The part of a label before [" ("] is the part of the name before
    [" ("]: all of the name when it has none. *)
Lemma split_head_label (name rest : string) :
  split_head " (" (name +:+ " (" +:+ rest) = split_head " (" name.
Proof.
  induction name as [|c name IH]; [done|].
  change ((String c name) +:+ " (" +:+ rest)
    with (String c (name +:+ " (" +:+ rest)).
  cbn [split_head]. rewrite !drop_prefix_paren, IH.
  destruct (Ascii.eqb " "%char c); [|done].
  destruct name as [|d name]; [done|].
  change (String d name +:+ " (" +:+ rest)
    with (String d (name +:+ " (" +:+ rest)).
  cbv beta iota. by destruct (Ascii.eqb "("%char d).
Qed.

Lemma label_is_not_none (name rest : string) :
  String.eqb (name +:+ " (" +:+ rest) "None" = false.
Proof.
  apply String.eqb_neq.
  destruct name as [|c1 [|c2 [|c3 [|c4 [|c5 name]]]]]; simpl; intros H;
    discriminate H.
Qed.

Lemma lookup_map {A B} (f : A -> B) (l : list A) (i : nat) :
  map f l !! i = f <$> l !! i.
Proof. revert i. induction l as [|x l IH]; intros [|i]; simpl; auto. Qed.

Lemma candidate_shape (x : json) :
  is_user x -> eligible x = true ->
  exists fields n m v,
    x = JObj fields /\ assoc "name" fields = Some n
    /\ assoc "email" fields = Some m
    /\ assoc "basecamp_user_id" fields = Some v /\ truthy v = true.
Proof.
  intros (fields & n & m & -> & Hn & Hm) He. simpl in He.
  destruct (assoc "basecamp_user_id" fields) as [v|] eqn:Hv; [|done].
  by exists fields, n, m, v.
Qed.

Lemma find_elem (p : json -> bool) (l : list json) (x : json) :
  List.find p l = Some x -> x ∈ l /\ p x = true.
Proof.
  intros H. apply List.find_some in H as [Hin Hp].
  split; [by apply list_elem_of_In | done].
Qed.

Lemma resolve_first_match (h : host) (candidates : list json) (i : nat)
    (chosen first : json) (announce : json -> M unit) (s : session)
    (shown : list event) :
  Forall is_user candidates ->
  Forall (fun u => eligible u = true) candidates ->
  candidates !! i = Some chosen ->
  List.find (named (split_head " (" (py_str h (field "name" chosen)))) candidates
  = Some first ->
  announce first s = (Ok tt, s, shown) ->
  resolve_recipient h candidates (S i) announce s
  = (Ok (field "basecamp_user_id" first), s, shown).
Proof.
  intros Husers Helig Hi Hfind Hann.
  rewrite Forall_forall in Husers, Helig.
  unfold resolve_recipient.
  match goal with
  | |- context [py_listcomp ?k ?f candidates] =>
      assert (Hlab : py_listcomp k f candidates s
                     = (Ok (map (label_of h) candidates), s, []))
  end.
  { rewrite <- (filter_all candidates) at 2.
    apply (py_listcomp_pure _ _ (fun _ => true) (label_of h)); [done|].
    intros x Hx _. destruct (Husers x Hx) as (fields & n & m & -> & Hn & Hm).
    unfold label_of. simpl. run. reflexivity. }
  erewrite bind_run by exact Hlab. rewrite prepend_nil.
  assert (Hsel : st_selectbox "None" (map (label_of h) candidates) (S i)
                 = label_of h chosen).
  { unfold st_selectbox. simpl. by rewrite lookup_map, Hi. }
  rewrite Hsel. unfold label_of at 1. rewrite label_is_not_none. cbn [negb].
  unfold label_of. rewrite split_head_label.
  match goal with
  | |- context [py_next ?t candidates] =>
      assert (Hnext : py_next t candidates s = (Ok first, s, []))
  end.
  { erewrite (py_next_pure _
                (named (split_head " (" (py_str h (field "name" chosen))))).
    - by rewrite Hfind.
    - intros x Hx. destruct (Husers x Hx) as (fields & n & m & -> & Hn & Hm).
      simpl. run. reflexivity. }
  erewrite bind_run by exact Hnext. rewrite prepend_nil.
  destruct (find_elem _ _ _ Hfind) as [Hin _].
  destruct (candidate_shape first (Husers _ Hin) (Helig _ Hin))
    as (fields & n & m & v & -> & Hn & Hm & Hv & Htv).
  assert (Hne : truthy (JObj fields) = true).
  { destruct fields; [done|reflexivity]. }
  rewrite Hne. run. unfold prepend, ret; simpl. by rewrite Hv, app_nil_r.
Qed.

Lemma listing_run (fields : list (string * json)) (users : list json)
    (s : session) :
  truthy (default JNull (assoc "success" fields)) = true ->
  assoc "users" fields = Some (JList users) ->
  Forall is_user users ->
  success_and (JObj fields) "users" s = (Ok (JList users), s, [])
  /\ eligible_users (JObj fields) s = (Ok (List.filter eligible users), s, []).
Proof.
  intros Hok Husers Hall. split.
  - unfold success_and. run. simpl. by rewrite Husers.
  - unfold eligible_users. run.
    rewrite <- (map_id (List.filter eligible users)).
    apply (py_listcomp_pure _ _ eligible (fun x => x)); [|done].
    rewrite Forall_forall in Hall. intros x Hx.
    by destruct (Hall x Hx) as (f & n & m & -> & _).
Qed.

Lemma filter_keeps {A} (p : A -> bool) (l : list A) (P : A -> Prop) :
  Forall P l -> Forall P (List.filter p l) /\ Forall (fun x => p x = true) (List.filter p l).
Proof.
  induction 1 as [|x l Hx Hl [IH1 IH2]]; simpl; [done|].
  destruct (p x) eqn:Hp; [|done]. split; by constructor.
Qed.

Lemma outcome_prepend {A} l (r : outcome A * session * list event) :
  outcome_of (prepend l r) = outcome_of r.
Proof. done. Qed.

Lemma try_except_outcome {A} (m : M A) (hd : exn -> M A) (s : session) (a : A) :
  outcome_of (m s) = Ok a -> outcome_of (try_except m hd s) = Ok a.
Proof.
  unfold try_except, outcome_of.
  destruct (m s) as [[[a0| |ex|] s1] l1]; simpl; congruence.
Qed.

(** C7: the select box shows one label per eligible user, [name (email)];
    what is looked up is the part of the chosen label before [" ("], so
    when several eligible users carry that name the recipient is the
    first of them in listing order, whichever label was chosen. This
    holds for the content writer of Stage 1 and for the designer of
    Stage 2. *)
Theorem shared_name_resolves_to_first_listed
    (h : host) (e : env) (resp : response)
    (fields : list (string * json)) (users : list json) :
  users_reply e = Replied resp -> status_code resp = 200 ->
  json_body resp = inr (JObj fields) ->
  truthy (default JNull (assoc "success" fields)) = true ->
  assoc "users" fields = Some (JList users) ->
  Forall is_user users ->
  let candidates := List.filter eligible users in
  (forall i chosen first,
     content_writer_choice e = S i -> candidates !! i = Some chosen ->
     List.find (named (split_head " (" (py_str h (field "name" chosen))))
       candidates = Some first ->
     chosen_content_writer h e = Ok (field "basecamp_user_id" first))
  /\ (forall i chosen first,
        designer_choice e = S i -> candidates !! i = Some chosen ->
        List.find (named (split_head " (" (py_str h (field "name" chosen))))
          candidates = Some first ->
        chosen_designer h e = Ok (field "basecamp_user_id" first)).
Proof.
  intros Hreply Hst Hbody Hok Husers Hall candidates. subst candidates.
  destruct (listing_run fields users ∅ Hok Husers Hall) as [Hfound Helig].
  destruct (filter_keeps eligible users is_user Hall) as [Hcu Hce].
  rewrite Forall_forall in Hcu, Hce.
  assert (Htu : forall i chosen, List.filter eligible users !! i = Some chosen ->
                truthy (JList users) = true).
  { intros i chosen Hi. destruct users; [by destruct i | done]. }
  split; intros i chosen first Hchoice Hi Hfind.
  - specialize (Htu i chosen Hi).
    destruct (find_elem _ _ _ Hfind) as [Hin _].
    destruct (candidate_shape first (Hcu _ Hin) (Hce _ Hin))
      as (ff & n & m & v & -> & Hn & Hm & Hv & Htv).
    unfold chosen_content_writer, select_content_writer.
    run. rewrite outcome_prepend. apply try_except_outcome.
    unfold requests_get, response_json. rewrite Hreply. run.
    rewrite Hst. cbn [Z.eqb Pos.eqb]. rewrite Hbody. run.
    rewrite ?Htu. run.
    destruct (List.filter eligible users) as [|c0 cs] eqn:Hc; [by destruct i|].
    rewrite Hchoice.
    erewrite bind_run.
    2:{ eapply (resolve_first_match h (c0 :: cs) i chosen (JObj ff)); eauto.
        - by apply Forall_forall.
        - by apply Forall_forall.
        - run. reflexivity. }
    assert (Hfield : field "basecamp_user_id" (JObj ff) = v)
      by (simpl; by rewrite Hv).
    rewrite !Hfield, Htv.
    match goal with
    | |- context [py_next ?t (c0 :: cs)] =>
        assert (Hnext : py_next t (c0 :: cs) ∅
                        = (Ok (default JNull
                                 (List.find
                                    (fun x => py_eqb (field "basecamp_user_id" x) v)
                                    (c0 :: cs))), ∅, []))
    end.
    { apply (py_next_pure _ (fun x => py_eqb (field "basecamp_user_id" x) v)).
      intros x Hx.
      destruct (candidate_shape x (Hcu _ Hx) (Hce _ Hx))
        as (fx & nx & mx & vx & -> & Hnx & Hmx & Hvx & _).
      run. simpl. by rewrite Hvx. }
    run. erewrite bind_run by exact Hnext. rewrite prepend_prepend.
    destruct (List.find (fun x => py_eqb (field "basecamp_user_id" x) v) (c0 :: cs))
      as [u|] eqn:Hu.
    + destruct (find_elem _ _ _ Hu) as [Huin _].
      destruct (candidate_shape u (Hcu _ Huin) (Hce _ Huin))
        as (fu & nu & mu & vu & -> & Hnu & Hmu & Hvu & _).
      assert (Hne : truthy (JObj fu) = true) by (destruct fu; done).
      simpl default. rewrite Hne. run. reflexivity.
    + simpl default. run. reflexivity.
  - specialize (Htu i chosen Hi).
    destruct (find_elem _ _ _ Hfind) as [Hin _].
    destruct (candidate_shape first (Hcu _ Hin) (Hce _ Hin))
      as (ff & n & m & v & -> & Hn & Hm & Hv & Htv).
    unfold chosen_designer, select_designer.
    run. rewrite outcome_prepend. apply try_except_outcome.
    unfold requests_get, response_json. rewrite Hreply. run.
    rewrite Hst. cbn [Z.eqb Pos.eqb]. rewrite Hbody. run.
    rewrite ?Htu. run.
    destruct (List.filter eligible users) as [|c0 cs] eqn:Hc; [by destruct i|].
    rewrite Hchoice.
    erewrite (resolve_first_match h (c0 :: cs) i chosen (JObj ff)); eauto.
    + by apply Forall_forall.
    + by apply Forall_forall.
    + run. reflexivity.
Qed.

(** A name without [" ("] is looked up as it is. *)
Lemma split_head_whole (name : string) :
  occurs " (" name = false -> split_head " (" name = name.
Proof.
  induction name as [|c name IH]; [done|].
  cbn [occurs split_head]. destruct (drop_prefix " (" (String c name)); [done|].
  intros H. by rewrite IH.
Qed.

Lemma shared_name_resolves_to_first_listed_witness :
  List.filter eligible [jane; jane_twin; omar] !! 1%nat = Some jane_twin
  /\ List.find (named "Jane") (List.filter eligible [jane; jane_twin; omar])
     = Some jane
  /\ chosen_content_writer host0 second_jane_chosen
     = Ok (JInt 7)
  /\ chosen_designer host0 second_jane_chosen
     = Ok (JInt 7).
Proof.
  assert (Hall : Forall is_user [jane; jane_twin; omar]).
  { repeat (apply Forall_cons_2 || apply Forall_nil_2);
      eexists _, _, _; repeat split; reflexivity. }
  pose proof
    (shared_name_resolves_to_first_listed host0 second_jane_chosen
       (Response 200 ""
          (inr (JObj [("success", JBool true);
                      ("users", JList [jane; jane_twin; omar])])))
       [("success", JBool true); ("users", JList [jane; jane_twin; omar])]
       [jane; jane_twin; omar]
       eq_refl eq_refl eq_refl eq_refl eq_refl Hall) as [Hw Hd].
  split; [reflexivity|]. split; [reflexivity|]. split.
  - exact (Hw 1%nat jane_twin jane eq_refl eq_refl eq_refl).
  - exact (Hd 1%nat jane_twin jane eq_refl eq_refl eq_refl).
Defined.

(** ** Further reasoning about runs *)

Lemma confined_nil_session (E : event -> Prop) {A} (m : M A) (s : session) :
  confined [] E m -> session_of (m s) = s.
Proof.
  intros H. destruct (H s) as [Hs _]. apply map_eq. intros k.
  apply Hs. apply not_elem_of_nil.
Qed.

Lemma confined_bind_stops (K : list string) (E : event -> Prop) {A B}
    (m : M A) (k : A -> M B) :
  stops m -> confined K E m -> confined K E (bind m k).
Proof.
  intros Hstop Hm s. unfold bind. specialize (Hstop s).
  destruct (Hm s) as [Hs Ht]. destruct (m s) as [[o s1] l1].
  destruct o as [a| |ex|]; try (split; assumption).
  by destruct (Hstop a).
Qed.

Lemma stops_then_return {A} (m : M unit) : stops (m;; @py_return A).
Proof.
  intros s a. unfold bind, outcome_of.
  destruct (m s) as [[[[]| |ex|] s1] l1]; simpl; congruence.
Qed.

Lemma confined_py_len K E v : confined K E (py_len v).
Proof. destruct v; apply confined_ret || apply confined_raise. Qed.

Lemma confined_local K E name v : confined K E (local name v).
Proof. destruct v; apply confined_ret || apply confined_raise. Qed.

Lemma confined_py_or K E a (b : M json) :
  confined K E b -> confined K E (py_or a b).
Proof. intros H. unfold py_or. destruct (truthy a); [apply confined_ret | done]. Qed.

Section Grows.

Lemma grows_quiet (E : event -> Prop) {A} (m : M A) : confined [] E m -> grows m.
Proof. intros H s k Hk. by rewrite (confined_nil_session E m s H). Qed.

Lemma grows_bind {A B} (m : M A) (k : A -> M B) :
  grows m -> (forall a, grows (k a)) -> grows (bind m k).
Proof.
  intros Hm Hk s k0 H0. specialize (Hm s k0 H0). unfold bind.
  destruct (m s) as [[[a| |ex|] s1] l1]; try done.
  specialize (Hk a s1 k0 Hm). by destruct (k a s1) as [[o2 s2] l2].
Qed.

Lemma grows_try_except {A} (m : M A) (hd : exn -> M A) :
  grows m -> (forall ex, grows (hd ex)) -> grows (try_except m hd).
Proof.
  intros Hm Hh s k0 H0. specialize (Hm s k0 H0). unfold try_except.
  destruct (m s) as [[[a| |ex|] s1] l1]; try done.
  specialize (Hh ex s1 k0 Hm). by destruct (hd ex s1) as [[o2 s2] l2].
Qed.

Lemma grows_call (m : M unit) : grows m -> grows (call m).
Proof.
  intros Hm s k0 H0. specialize (Hm s k0 H0). unfold call.
  by destruct (m s) as [[[a| |ex|] s1] l1].
Qed.

Lemma grows_when b (m : M unit) : grows m -> grows (when b m).
Proof. destruct b; [done | by intros _ s k Hk]. Qed.

Lemma grows_state_set k v : grows (state_set k v).
Proof.
  intros s k0 H0. unfold state_set, session_of; simpl.
  destruct (decide (k = k0)) as [->|Hne].
  - rewrite lookup_insert_eq. by eexists.
  - by rewrite lookup_insert_ne.
Qed.

End Grows.

Section Shows.

Context (s : session) (E : event -> Prop).

Lemma shows_quiet {A} (m : M A) : confined [] E m -> shows s E m.
Proof.
  intros H. split; [by apply (confined_nil_session E) | by destruct (H s)].
Qed.

Lemma shows_bind {A B} (m : M A) (k : A -> M B) :
  shows s E m -> (forall a, shows s E (k a)) -> shows s E (bind m k).
Proof.
  intros [Hs Ht] Hk. unfold shows, bind in *.
  destruct (m s) as [[[a| |ex|] s1] l1]; try done.
  unfold session_of, trace_of in *; simpl in *. subst s1.
  destruct (Hk a) as [Hs' Ht']. destruct (k a s) as [[o2 s2] l2]. simpl in *.
  split; [done | by apply Forall_app].
Qed.

Lemma shows_has_key {B} key (k : bool -> M B) :
  shows s E (k (bool_decide (is_Some (s !! key)))) -> shows s E (bind (has_key key) k).
Proof.
  intros H. unfold shows in *. by erewrite bind_run, prepend_nil by reflexivity.
Qed.

Lemma shows_state_attr {B} key v (k : json -> M B) :
  s !! key = Some v -> shows s E (k v) -> shows s E (bind (state_attr key) k).
Proof.
  intros Hv H. unfold shows in *.
  erewrite bind_run; [by rewrite prepend_nil|]. unfold state_attr. by rewrite Hv.
Qed.

Lemma shows_call (m : M unit) : shows s E m -> shows s E (call m).
Proof.
  unfold shows. rewrite call_run. by rewrite finish_session, finish_trace.
Qed.

End Shows.

Section Yields.

Context {A : Type} (P : A -> Prop).

Lemma yields_ret a : P a -> yields P (ret a).
Proof. intros H s a' [= <-]. done. Qed.

Lemma yields_stops (m : M A) : stops m -> yields P m.
Proof. intros H s a Ha. by destruct (H s a). Qed.

Lemma yields_bind {B} (m : M B) (k : B -> M A) :
  (forall b, yields P (k b)) -> yields P (bind m k).
Proof.
  intros Hk s a. unfold bind, outcome_of.
  destruct (m s) as [[[b| |ex|] s1] l1]; try done. simpl.
  specialize (Hk b s1 a). unfold outcome_of in Hk.
  by destruct (k b s1) as [[o2 s2] l2].
Qed.

Lemma yields_try_except (m : M A) (hd : exn -> M A) :
  yields P m -> (forall ex, yields P (hd ex)) -> yields P (try_except m hd).
Proof.
  intros Hm Hh s a. unfold try_except, outcome_of.
  specialize (Hm s a). unfold outcome_of in Hm.
  destruct (m s) as [[[b| |ex|] s1] l1]; try done. simpl.
  specialize (Hh ex s1 a). unfold outcome_of in Hh.
  by destruct (hd ex s1) as [[o2 s2] l2].
Qed.

End Yields.

(** ** The tabs that only display *)

Ltac confine_more :=
  repeat first
    [ progress confine
    | apply confined_format_2f
    | apply confined_st_metric
    | apply confined_py_len
    | apply confined_local
    | apply confined_py_or ].

Section Tabs.

Context (h : host) (e : env) (K : list string) (E : event -> Prop).
Hypothesis display : forall ev, is_request ev = false -> E ev.

Ltac displayed := try (intros; apply display; reflexivity).

Lemma confined_content_writer_projects_tab :
  confined K E (content_writer_projects_tab h).
Proof.
  unfold content_writer_projects_tab, report_field. confine_more; displayed.
Qed.

Lemma confined_content_writer_history_tab :
  confined K E (content_writer_history_tab h e).
Proof.
  unfold content_writer_history_tab. confine_more; displayed.
Qed.

Lemma confined_brand_manager_projects_tab :
  confined K E (brand_manager_projects_tab h).
Proof.
  unfold brand_manager_projects_tab, current_project_status, completed_projects,
    project_metrics, brief_field, integration_flag.
  confine_more; displayed.
Qed.

Lemma confined_sample_brief_tab : confined K E sample_brief_tab.
Proof. unfold sample_brief_tab. confine_more; displayed. Qed.

Lemma confined_analysis_results_tab (export_options : json -> M unit) :
  (forall results, confined K E (export_options results)) ->
  confined K E (analysis_results_tab h export_options).
Proof.
  intros Hx. unfold analysis_results_tab, display_content_writer_report,
    display_designer_report.
  confine_more; displayed; apply Hx.
Qed.

End Tabs.

(** ** The requests of each role *)

Lemma stage1_request_display (h : host) (e : env) (ev : event) :
  is_request ev = false -> stage1_request h e ev.
Proof. by destruct ev. Qed.

Lemma stage2_request_display (h : host) (ev : event) :
  is_request ev = false -> stage2_request h ev.
Proof. by destruct ev. Qed.

Lemma upload_tab_requests (h : host) (e : env) (ty : string) (sg : bool) :
  confined brand_manager_keys (stage1_request h e)
    (upload_and_analyze_tab h e ty sg).
Proof.
  unfold upload_and_analyze_tab.
  apply confined_call. apply confined_bind; [by apply confined_emit|]. intros _.
  apply confined_bind; [by apply confined_emit|]. intros _.
  apply confined_bind.
  { unfold select_project, clear_project, success_and.
    confine; try done; try listed. simpl. auto. }
  intros _. apply confined_bind.
  { unfold select_content_writer, resolve_recipient, eligible_users, success_and.
    confine; try done. simpl. auto. }
  intros cw. unfold upload_section.
  destruct (uploaded_file e) as [f|] eqn:Hf; [|apply confined_ret].
  do 4 (apply confined_bind; [by apply confined_emit|]; intros _).
  apply confined_when. destruct (truthy cw) eqn:Hcw; cbn [negb].
  - apply confined_bind; [apply confined_ret|]. intros _.
    unfold analyze_document, show_stage1_integration, content_submission_form.
    confine; try done; try listed.
    + simpl. rewrite Hcw. repeat split; eauto.
    + apply confined_weaken with (K := []) (E := fun ev => is_request ev = false);
        [by intros ? ?%not_elem_of_nil | apply stage1_request_display |].
      apply summary_sends_nothing.
  - apply confined_bind_stops; [apply stops_then_return|].
    confine. done.
Qed.

Lemma brand_manager_page_requests (h : host) (e : env)
    (export_options : json -> M unit) :
  (forall results, display_only (export_options results)) ->
  confined brand_manager_keys (stage1_request h e)
    (show_brand_manager_page h e (analysis_results_tab h export_options)
       (brand_manager_projects_tab h) sample_brief_tab).
Proof.
  intros Hx. unfold show_brand_manager_page. confine; try done; try listed.
  - apply upload_tab_requests.
  - apply confined_analysis_results_tab; [apply stage1_request_display|].
    intros results.
    apply confined_weaken with (K := []) (E := fun ev => is_request ev = false);
      [by intros ? ?%not_elem_of_nil | apply stage1_request_display | apply Hx].
  - apply confined_brand_manager_projects_tab, stage1_request_display.
  - apply confined_sample_brief_tab, stage1_request_display.
Qed.

Lemma content_writer_page_requests (h : host) (e : env) :
  confined ["user_role"; "designer_results"] (stage2_request h)
    (show_content_writer_page h e (content_writer_projects_tab h)).
Proof.
  unfold show_content_writer_page. confine; try done; try listed.
  - apply confined_content_writer_projects_tab, stage2_request_display.
  - apply confined_weaken with (K := ["designer_results"]) (E := stage2_request h);
      [|done|apply submit_tab_requests].
    intros k Hk. by apply list_elem_of_further.
  - apply confined_content_writer_history_tab, stage2_request_display.
Qed.

(** [main] with a role in the session. *)
Lemma main_dispatch (h : host) (e : env) (t1 t2 t3 t4 : M unit) (s : session)
    (role : string) :
  s !! "user_role" = Some (JStr role) ->
  main h e t1 t2 t3 t4 s
  = finish
      ((if String.eqb role "brand_manager" then show_brand_manager_page h e t1 t2 t3
        else if String.eqb role "content_writer" then show_content_writer_page h e t4
        else ret tt) s).
Proof.
  intros Hs. unfold main. rewrite call_run.
  assert (Hk : bool_decide (is_Some (s !! "user_role")) = true).
  { apply bool_decide_eq_true. rewrite Hs. by eexists. }
  unfold has_key. erewrite bind_run by reflexivity. rewrite Hk. run.
  reflexivity.
Qed.

(** ** Keys are never removed *)

Ltac grow :=
  repeat match goal with
  | |- grows (bind _ _) => apply grows_bind; [|intros ?]
  | |- grows (try_except _ _) => apply grows_try_except; [|intros ?]
  | |- grows (call _) => apply grows_call
  | |- grows (when _ _) => apply grows_when
  | |- grows (state_set _ _) => apply grows_state_set
  | |- grows (if ?b then _ else _) => destruct b
  | |- grows (match ?x with _ => _ end) => destruct x
  | |- grows (let _ := _ in _) => cbv zeta
  | |- grows _ => apply (grows_quiet (fun _ => True)); solve [confine_more; done]
  end.

Lemma grows_upload_and_analyze_tab (h : host) (e : env) (ty : string) (sg : bool) :
  grows (upload_and_analyze_tab h e ty sg).
Proof.
  unfold upload_and_analyze_tab, select_project, clear_project,
    select_content_writer, resolve_recipient, eligible_users, upload_section,
    analyze_document, show_stage1_integration, content_submission_form,
    success_and.
  grow.
  all: apply (grows_quiet (fun ev => is_request ev = false)), summary_sends_nothing.
Qed.

Lemma grows_content_writer_submit_tab (h : host) (e : env) :
  grows (content_writer_submit_tab h e).
Proof.
  unfold content_writer_submit_tab, content_writer_submission, select_designer,
    resolve_recipient, eligible_users, success_and, submit_content.
  grow.
Qed.

Lemma grows_script (h : host) (e : env) (export_options : json -> M unit) :
  (forall results, display_only (export_options results)) ->
  grows (script h e export_options).
Proof.
  intros Hx. unfold script, main, show_role_selection_page, show_brand_manager_page,
    show_content_writer_page.
  grow.
  all: match goal with
       | |- grows (upload_and_analyze_tab _ _ _ _) =>
           apply grows_upload_and_analyze_tab
       | |- grows (content_writer_submit_tab _ _) =>
           apply grows_content_writer_submit_tab
       | |- grows (analysis_results_tab _ _) =>
           apply (grows_quiet (fun _ => True)), confined_analysis_results_tab;
             [done|]; intros results;
             by eapply confined_weaken; [| |apply Hx]
       | |- grows (brand_manager_projects_tab _) =>
           by apply (grows_quiet (fun _ => True)), confined_brand_manager_projects_tab
       | |- grows sample_brief_tab =>
           by apply (grows_quiet (fun _ => True)), confined_sample_brief_tab
       | |- grows (content_writer_projects_tab _) =>
           by apply (grows_quiet (fun _ => True)), confined_content_writer_projects_tab
       | |- grows (content_writer_history_tab _ _) =>
           by apply (grows_quiet (fun _ => True)), confined_content_writer_history_tab
       end.
Qed.

Lemma stage_rank_grows (s s' : session) :
  (forall k, is_Some (s !! k) -> is_Some (s' !! k)) ->
  (stage_rank (stage_of s) <= stage_rank (stage_of s'))%nat.
Proof.
  intros H. unfold stage_of.
  destruct (bool_decide (is_Some (s !! "designer_results"))) eqn:Hd.
  - apply bool_decide_eq_true in Hd. by rewrite (bool_decide_true _ (H _ Hd)).
  - destruct (bool_decide (is_Some (s !! "analysis_results"))) eqn:Ha.
    + apply bool_decide_eq_true in Ha. rewrite (bool_decide_true _ (H _ Ha)).
      destruct (bool_decide (is_Some (s' !! "designer_results"))); simpl; lia.
    + simpl. lia.
Qed.

(** ** Choosing a role *)

(** X1: with no role in the session, a run of [main] shows nothing and
    runs none of the tabs: a pressed role button stores its role under
    [user_role] and reruns the script, the button of the brand manager
    being looked at first; with no button pressed the run ends with
    [user_role] at [None]. No other key of the session changes. *)
Theorem role_button_stores_the_role (h : host) (e : env)
    (t1 t2 t3 t4 : M unit) (s : session) :
  default JNull (s !! "user_role") = JNull ->
  let r := main h e t1 t2 t3 t4 s in
  trace_of r = []
  /\ (forall k, k <> "user_role" -> session_of r !! k = s !! k)
  /\ (click_brand_manager e = true ->
      outcome_of r = Rerun
      /\ session_of r !! "user_role" = Some (JStr "brand_manager"))
  /\ (click_brand_manager e = false -> click_content_writer e = true ->
      outcome_of r = Rerun
      /\ session_of r !! "user_role" = Some (JStr "content_writer"))
  /\ (click_brand_manager e = false -> click_content_writer e = false ->
      outcome_of r = Ok tt
      /\ session_of r !! "user_role" = Some JNull).
Proof.
  intros Hrole r. subst r. unfold main, show_role_selection_page.
  rewrite !call_run.
  destruct (s !! "user_role") as [v|] eqn:Hs; simpl in Hrole; subst.
  - assert (Hk : bool_decide (is_Some (s !! "user_role")) = true).
    { apply bool_decide_eq_true. rewrite Hs. by eexists. }
    unfold has_key. erewrite bind_run by reflexivity. rewrite Hk. run.
    rewrite call_run.
    destruct (click_brand_manager e), (click_content_writer e); run;
      repeat (erewrite bind_rerun by reflexivity); unfold st_rerun; cbn.
    all: repeat split; try done; try (intros; by rewrite !lookup_insert_ne by done).
    all: by rewrite ?lookup_insert_eq.
  - assert (Hk : bool_decide (is_Some (s !! "user_role")) = false).
    { apply bool_decide_eq_false. rewrite Hs. by intros [? ?]. }
    unfold has_key. erewrite bind_run by reflexivity. rewrite Hk. run.
    erewrite bind_run.
    2:{ unfold state_attr. rewrite lookup_insert_eq. reflexivity. }
    run. rewrite call_run.
    destruct (click_brand_manager e), (click_content_writer e); run;
      repeat (erewrite bind_rerun by reflexivity); unfold st_rerun; cbn.
    all: repeat split; try done; try (intros; by rewrite !lookup_insert_ne by done).
    all: by rewrite ?lookup_insert_eq.
Qed.

Lemma role_button_stores_the_role_witness :
  let r := main host0 (press (Some BrandManagerButton) nothing_pressed)
             blank_tab blank_tab blank_tab blank_tab ∅ in
  outcome_of r = Rerun
  /\ session_of r !! "user_role" = Some (JStr "brand_manager").
Proof.
  intros r.
  assert (H0 : default JNull ((∅ : session) !! "user_role") = JNull)
    by reflexivity.
  destruct (role_button_stores_the_role host0 (press (Some BrandManagerButton) nothing_pressed)
              blank_tab blank_tab blank_tab blank_tab ∅ H0)
    as (_ & _ & H & _).
  exact (H eq_refl).
Defined.

Lemma display_only_no_export (results : json) : display_only (no_export results).
Proof. apply confined_ret. Qed.

(** X4: a run of [main] in the role of the content writer changes no
    key but [user_role] and [designer_results]; every GET goes to /users
    and every POST to /submit-content, without a content writer. The tabs
    of the brand manager are not run, whatever they are. *)
Theorem content_writer_role_reaches_stage2_only (h : host) (e : env)
    (t1 t2 t3 : M unit) (s : session) :
  s !! "user_role" = Some (JStr "content_writer") ->
  let r := main h e t1 t2 t3 (content_writer_projects_tab h) s in
  (forall k, k <> "user_role" -> k <> "designer_results" ->
             session_of r !! k = s !! k)
  /\ Forall (stage2_request h) (trace_of r).
Proof.
  intros Hrole r. subst r. rewrite (main_dispatch h e t1 t2 t3 _ s _ Hrole).
  cbn [String.eqb Ascii.eqb Bool.eqb]. rewrite finish_session, finish_trace.
  destruct (content_writer_page_requests h e s) as [Hs Ht]. split; [|done].
  intros k H1 H2. apply Hs. absent.
Qed.

Lemma content_writer_role_reaches_stage2_only_witness :
  let e := submit_pressed 1 (Some draft_docx) "draft" (ok_json stage2_partial_result) in
  let s := <["user_role" := JStr "content_writer"]> session_after_stage1 in
  let r := main host0 e blank_tab blank_tab blank_tab
             (content_writer_projects_tab host0) s in
  s !! "user_role" = Some (JStr "content_writer")
  /\ session_of r !! "analysis_results" = Some stage1_result
  /\ Forall (stage2_request host0) (trace_of r).
Proof.
  intros e s r. subst r. split; [reflexivity|].
  destruct (content_writer_role_reaches_stage2_only host0 e blank_tab blank_tab
              blank_tab s eq_refl) as [Hs Ht].
  split; [|exact Ht].
  rewrite (Hs "analysis_results"); [reflexivity|discriminate|discriminate].
Defined.

(** X3: whatever is pressed and answered, a run of the script in the
    role of the brand manager writes no key but those of
    [brand_manager_keys], so never [designer_results]; every GET goes to
    /projects or /users with the configured timeout, and every POST goes
    to /upload with the file of the run, a truthy [content_writer_id] and
    a timeout of 300 seconds. The export buttons are taken to display
    only. *)
Theorem brand_manager_role_reaches_stage1_only (h : host) (e : env)
    (export_options : json -> M unit) (s : session) :
  (forall results, display_only (export_options results)) ->
  s !! "user_role" = Some (JStr "brand_manager") ->
  let r := script h e export_options s in
  (forall k, k ∉ brand_manager_keys -> session_of r !! k = s !! k)
  /\ session_of r !! "designer_results" = s !! "designer_results"
  /\ Forall (stage1_request h e) (trace_of r).
Proof.
  intros Hx Hrole r. subst r. unfold script.
  rewrite (main_dispatch h e _ _ _ _ s _ Hrole).
  cbn [String.eqb Ascii.eqb Bool.eqb]. rewrite finish_session, finish_trace.
  destruct (brand_manager_page_requests h e export_options Hx s) as [Hs Ht].
  split; [done|]. split; [|done].
  apply Hs. unfold brand_manager_keys. absent.
Qed.

Lemma brand_manager_role_reaches_stage1_only_witness :
  let e := analyze_pressed 1 (ok_json stage1_result) in
  let s := <["user_role" := JStr "brand_manager"]> ∅ in
  let r := script host0 e no_export s in
  s !! "user_role" = Some (JStr "brand_manager")
  /\ session_of r !! "designer_results" = None
  /\ Forall (stage1_request host0 e) (trace_of r).
Proof.
  intros e s r. subst r. split; [reflexivity|].
  destruct (brand_manager_role_reaches_stage1_only host0 e no_export s
              display_only_no_export eq_refl) as (_ & Hd & Ht).
  split; [|exact Ht]. rewrite Hd. reflexivity.
Defined.

(** X5: no run of the script removes a key from the session, in any
    role and whatever is pressed and answered; so the stage the session
    stands for never goes back. The export buttons are taken to display
    only. *)
Theorem stage_never_goes_back (h : host) (e : env)
    (export_options : json -> M unit) (s : session) :
  (forall results, display_only (export_options results)) ->
  let s' := session_of (script h e export_options s) in
  (forall k, is_Some (s !! k) -> is_Some (s' !! k))
  /\ (stage_rank (stage_of s) <= stage_rank (stage_of s'))%nat.
Proof.
  intros Hx s'. assert (H : forall k, is_Some (s !! k) -> is_Some (s' !! k)).
  { intros k. apply grows_script. done. }
  split; [done | by apply stage_rank_grows].
Qed.

Lemma stage_never_goes_back_witness :
  let e := analyze_pressed 1 server_error in
  (stage_rank (stage_of session_after_stage1)
   <= stage_rank (stage_of (session_of (script host0 e no_export
                                          session_after_stage1))))%nat.
Proof.
  intros e.
  exact (proj2 (stage_never_goes_back host0 e no_export session_after_stage1
                  display_only_no_export)).
Defined.

(** X6: the Analysis Results, Projects, Sample Brief, My Projects and
    Content History tabs leave the session as it is and send no request,
    whatever the session holds and however they end (the export buttons
    are taken to display only). *)
Theorem display_tabs_only_display (h : host) (e : env)
    (export_options : json -> M unit) :
  (forall results, display_only (export_options results)) ->
  Forall (fun tab : M unit =>
            forall s, session_of (tab s) = s
                      /\ Forall (fun ev => is_request ev = false) (trace_of (tab s)))
    [ analysis_results_tab h export_options;
      brand_manager_projects_tab h;
      sample_brief_tab;
      content_writer_projects_tab h;
      content_writer_history_tab h e ].
Proof.
  intros Hx.
  assert (H : forall tab : M unit,
            display_only tab ->
            forall s, session_of (tab s) = s
                      /\ Forall (fun ev => is_request ev = false) (trace_of (tab s))).
  { intros tab Ht s. split; [by eapply confined_nil_session | by destruct (Ht s)]. }
  repeat apply Forall_cons_2; try apply Forall_nil_2; apply H.
  - by apply confined_analysis_results_tab.
  - by apply confined_brand_manager_projects_tab.
  - by apply confined_sample_brief_tab.
  - by apply confined_content_writer_projects_tab.
  - by apply confined_content_writer_history_tab.
Qed.

Lemma display_tabs_only_display_witness :
  session_of (content_writer_projects_tab host0 session_after_stage1)
  = session_after_stage1.
Proof.
  pose proof (display_tabs_only_display host0 nothing_pressed no_export
                display_only_no_export) as H.
  rewrite !Forall_cons in H. destruct H as (_ & _ & _ & H & _).
  exact (proj1 (H session_after_stage1)).
Defined.

(** ** The project selection *)

Lemma is_obj_shape (v : json) : is_obj v = true -> exists fields, v = JObj fields.
Proof. destruct v; try done. by eexists. Qed.

Lemma try_except_pass {A} (m : M A) (hd : exn -> M A) (s : session)
    (r : outcome A * session * list event) :
  m s = r -> (forall ex, outcome_of r <> Raised ex) -> try_except m hd s = r.
Proof.
  intros <- H. unfold try_except.
  destruct (m s) as [[[a| |ex|] s1] l1]; try done. by destruct (H ex).
Qed.

Lemma select_project_run (h : host) (e : env) (s : session) (ps : list json) :
  projects_listed e ps ->
  select_project h e s
  = prepend (project_prefix h)
      (let n := selected_project e ps in
       if eq_str n "Select a project..." then
         (Returned, s, [Alert Warning "⚠️ Please select a project"])
       else if eq_str n "Other - Custom Project" then
         if nonempty (strip (custom_name e)) then
           (Ok tt, with_selection JNull (JStr (custom_name e)) s, [])
         else
           (Returned, s, [Alert Warning "⚠️ Please provide a custom project name"])
       else
         match project_named n ps with
         | Some p =>
             if truthy p then
               (Ok tt, with_selection (field "id" p) (field "name" p) s,
                [Alert Info ("📋 **Project Details:** "
                             +:+ py_str h (field_or "description"
                                             (JStr "No description available") p))])
             else (Ok tt, s, [])
         | None => (Ok tt, s, [])
         end).
Proof.
  intros (r & fields & Hreply & Hst & Hbody & Hok & Hps & Hne & Hall).
  rewrite Forall_forall in Hall.
  assert (Htp : truthy (JList ps) = true) by (by destruct ps).
  unfold select_project, project_prefix.
  erewrite bind_run by reflexivity. erewrite bind_run by reflexivity.
  rewrite prepend_prepend. simpl app.
  change [Subheader "📋 Select Project";
          Alert Info "Choose which project this ad campaign belongs to. The system will automatically retrieve the project's Basecamp message board and document vault.";
          Get (url h "/projects") (API_TIMEOUT h)]
    with ([Subheader "📋 Select Project";
           Alert Info "Choose which project this ad campaign belongs to. The system will automatically retrieve the project's Basecamp message board and document vault."]
          ++ [Get (url h "/projects") (API_TIMEOUT h)]).
  rewrite <- prepend_prepend. f_equal.
  unfold requests_get, response_json, success_and. rewrite Hreply.
  match goal with
  | |- context [py_listcomp ?k ?f] =>
      assert (Hnames : forall s0, py_listcomp k f ps s0
                = (Ok (map (field_or "name" (JStr "Unnamed Project"))
                         (List.filter (fun p => eq_str (field "status" p) "active") ps)),
                   s0, []))
  end.
  { intros s0. apply py_listcomp_pure.
    - intros x Hx. destruct (is_obj_shape x (Hall x Hx)) as [fx ->]. reflexivity.
    - intros x Hx _. destruct (is_obj_shape x (Hall x Hx)) as [fx ->]. reflexivity. }
  assert (Hnext : forall n s0,
            py_next (fun p => x <- py_get p "name" JNull;; ret (py_eqb x n)) ps s0
            = (Ok (default JNull (project_named n ps)), s0, [])).
  { intros n s0. apply py_next_pure.
    intros x Hx. destruct (is_obj_shape x (Hall x Hx)) as [fx ->]. reflexivity. }
  apply try_except_pass.
  - run. rewrite Hst. cbn [Z.eqb Pos.eqb]. rewrite Hbody. run.
    erewrite bind_run by apply Hnames. rewrite prepend_prepend. tidy.
    change (st_selectbox (JStr "Select a project...")
              (map (field_or "name" (JStr "Unnamed Project"))
                 (List.filter (fun p => eq_str (field "status" p) "active") ps)
               ++ [JStr "Other - Custom Project"]) (project_choice e))
      with (selected_project e ps).
    f_equal.
    destruct (eq_str (selected_project e ps) "Select a project...");
      [run; reflexivity|].
    erewrite bind_run by reflexivity. rewrite prepend_nil.
    destruct (eq_str (selected_project e ps) "Other - Custom Project").
    { destruct (nonempty (strip (custom_name e))); run; reflexivity. }
    erewrite bind_run by apply Hnext. rewrite prepend_nil.
    destruct (project_named (selected_project e ps) ps) as [p|] eqn:Hp;
      [|reflexivity].
    simpl default. destruct (truthy p) eqn:Htr; [|reflexivity].
    destruct (find_elem _ _ _ Hp) as [Hin _].
    destruct (is_obj_shape p (Hall p Hin)) as [fp ->].
    cbn [when]. run. reflexivity.
  - intros ex. rewrite outcome_prepend.
    destruct (eq_str (selected_project e ps) "Select a project..."); [done|].
    destruct (eq_str (selected_project e ps) "Other - Custom Project").
    { by destruct (nonempty (strip (custom_name e))). }
    destruct (project_named (selected_project e ps) ps) as [p|]; [|done].
    by destruct (truthy p).
Qed.

(** X8: when the projects are listed and the select box stands at its
    placeholder, the Upload & Analyze tab ends after the warning: the
    users are not fetched, nothing is uploaded even when Analyze is
    pressed, and the session stays as it was. *)
Theorem project_placeholder_ends_the_tab (h : host) (e : env) (ty : string)
    (sg : bool) (s : session) (ps : list json) :
  projects_listed e ps ->
  eq_str (selected_project e ps) "Select a project..." = true ->
  upload_and_analyze_tab h e ty sg s
  = (Ok tt, s,
     [ Header "📤 Upload & Analyze Project Brief";
       Subheader "📁 Upload Document" ]
     ++ project_prefix h ++ [Alert Warning "⚠️ Please select a project"]).
Proof.
  intros Hl Hsel. pose proof (select_project_run h e s ps Hl) as Hrun.
  cbv zeta in Hrun. rewrite Hsel in Hrun.
  unfold upload_and_analyze_tab. rewrite call_run.
  erewrite bind_run by reflexivity. erewrite bind_run by reflexivity.
  erewrite bind_returned by exact Hrun. reflexivity.
Qed.

Lemma project_placeholder_ends_the_tab_witness :
  upload_and_analyze_tab host0
    (with_project 0 "" projects_listing (analyze_pressed 1 (ok_json stage1_result)))
    "comprehensive" true ∅
  = (Ok tt, ∅,
     [ Header "📤 Upload & Analyze Project Brief";
       Subheader "📁 Upload Document" ]
     ++ project_prefix host0 ++ [Alert Warning "⚠️ Please select a project"]).
Proof.
  eapply project_placeholder_ends_the_tab; [|reflexivity].
  eexists _, _. repeat split; try reflexivity; [discriminate|].
  repeat constructor.
Defined.

(** X9: when "Other - Custom Project" is chosen, a name that is not
    blank is stored as it was typed, not stripped, with [None] as the
    project id; a blank name ends the tab with a warning and the session
    stays as it was. *)
Theorem custom_project_is_stored_without_id (h : host) (e : env) (s : session)
    (ps : list json) :
  projects_listed e ps ->
  eq_str (selected_project e ps) "Select a project..." = false ->
  eq_str (selected_project e ps) "Other - Custom Project" = true ->
  (nonempty (strip (custom_name e)) = true ->
   select_project h e s
   = (Ok tt, with_selection JNull (JStr (custom_name e)) s, project_prefix h))
  /\ (nonempty (strip (custom_name e)) = false ->
      select_project h e s
      = (Returned, s,
         project_prefix h
         ++ [Alert Warning "⚠️ Please provide a custom project name"])).
Proof.
  intros Hl Hsel Hother. pose proof (select_project_run h e s ps Hl) as Hrun.
  cbv zeta in Hrun. rewrite Hsel, Hother in Hrun.
  split; intros Hname; rewrite Hname in Hrun; exact Hrun.
Qed.

Lemma custom_project_is_stored_without_id_witness :
  let e := with_project 2 " Spring sale " projects_listing nothing_pressed in
  session_of (select_project host0 e ∅)
  = with_selection JNull (JStr " Spring sale ") ∅.
Proof.
  intros e.
  assert (Hl : projects_listed e
                 [JObj [("id", JInt 1); ("name", JStr "Acme Redesign");
                        ("description", JStr "Site relaunch");
                        ("status", JStr "active")]]).
  { eexists _, _. repeat split; try reflexivity; [discriminate|].
    repeat constructor. }
  destruct (custom_project_is_stored_without_id host0 e ∅ _ Hl eq_refl eq_refl)
    as [H _].
  rewrite (H eq_refl). reflexivity.
Defined.

(** X10: a listed project is chosen by its name: what is stored is the id
    and the name of the first project of the listing with that name,
    active or not, so an archived project listed before an active one of
    the same name is the one selected. When no project carries the chosen
    name (an active project without a name is offered as "Unnamed
    Project"), nothing is stored and the earlier selection stays. *)
Theorem project_is_looked_up_by_name (h : host) (e : env) (s : session)
    (ps : list json) :
  projects_listed e ps ->
  let n := selected_project e ps in
  eq_str n "Select a project..." = false ->
  eq_str n "Other - Custom Project" = false ->
  (forall p, project_named n ps = Some p -> truthy p = true ->
     outcome_of (select_project h e s) = Ok tt
     /\ session_of (select_project h e s)
        = with_selection (field "id" p) (field "name" p) s)
  /\ (project_named n ps = None -> select_project h e s = (Ok tt, s, project_prefix h)).
Proof.
  intros Hl n Hsel Hother. pose proof (select_project_run h e s ps Hl) as Hrun.
  cbv zeta in Hrun. subst n. rewrite Hsel, Hother in Hrun. split.
  - intros p Hp Htr. rewrite Hp, Htr in Hrun. by rewrite Hrun.
  - intros Hp. rewrite Hp in Hrun. by rewrite Hrun.
Qed.

Lemma project_is_looked_up_by_name_witness :
  let e := with_project 1 "" twin_projects nothing_pressed in
  session_of (select_project host0 e ∅)
  = with_selection (JInt 1) (JStr "Acme Redesign") ∅.
Proof.
  intros e.
  assert (Hl : projects_listed e
                 [JObj [("id", JInt 1); ("name", JStr "Acme Redesign");
                        ("status", JStr "archived")];
                  JObj [("id", JInt 2); ("name", JStr "Acme Redesign");
                        ("description", JStr "Site relaunch");
                        ("status", JStr "active")]]).
  { eexists _, _. repeat split; try reflexivity; [discriminate|].
    repeat constructor. }
  destruct (project_is_looked_up_by_name host0 e ∅ _ Hl eq_refl eq_refl)
    as [H _].
  exact (proj2 (H _ eq_refl eq_refl)).
Defined.

(** X11: unless the listing of the projects comes with status 200, a
    JSON object, a truthy [success] and a truthy [projects], the project
    selection shows one note or error, sets the selected project id and
    name to [None] and lets the tab go on. *)
Theorem failed_project_listing_clears_the_selection (h : host) (e : env)
    (s : session) :
  ~ projects_found e ->
  exists shown,
    select_project h e s
    = (Ok tt, with_selection JNull JNull s, project_prefix h ++ [shown])
    /\ (shown = Alert Info "📤 No projects found. Using fallback options."
        \/ exists msg, shown = Alert Error msg).
Proof.
  intros Hnot. unfold select_project, project_prefix, clear_project, with_selection.
  erewrite bind_run by reflexivity. erewrite bind_run by reflexivity.
  rewrite prepend_prepend. simpl app.
  unfold requests_get, response_json, success_and, projects_found in *.
  destruct (projects_reply e) as [r|ex] eqn:Hr.
  - destruct (status_code r =? 200) eqn:Hst.
    + apply Z.eqb_eq in Hst. destruct (json_body r) as [ex|v] eqn:Hb.
      * eexists. split; [|right; by eexists].
        erewrite try_except_raised.
        2:{ run. rewrite Hst. simpl. rewrite Hb. run. reflexivity. }
        run. reflexivity.
      * destruct v as [| | | | | |fields];
          try (eexists; split; [|right; by eexists];
               erewrite try_except_raised;
               [|run; rewrite Hst; simpl; rewrite Hb; run; reflexivity];
               run; reflexivity).
        destruct (truthy (default JNull (assoc "success" fields))) eqn:Hok.
        -- destruct (truthy (default JNull (assoc "projects" fields))) eqn:Hp.
           { exfalso. apply Hnot. by exists r, fields. }
           eexists. split; [|by left].
           erewrite try_except_ok; [reflexivity|].
           run. rewrite Hst. simpl. rewrite Hb. run. reflexivity.
        -- eexists. split; [|by left].
           erewrite try_except_ok; [reflexivity|].
           run. rewrite Hst. simpl. rewrite Hb. run. reflexivity.
    + eexists. split; [|right; by eexists].
      erewrite try_except_ok; [reflexivity|].
      run. rewrite Hst. run. reflexivity.
  - eexists. split; [|right; by eexists].
    erewrite try_except_raised.
    2:{ run. reflexivity. }
    run. reflexivity.
Qed.

Lemma failed_project_listing_clears_the_selection_witness :
  let e := with_project 1 "" server_error nothing_pressed in
  session_of (select_project host0 e (with_selection (JInt 1) (JStr "Acme Redesign") ∅))
  = with_selection JNull JNull (with_selection (JInt 1) (JStr "Acme Redesign") ∅).
Proof.
  intros e.
  assert (Hnot : ~ projects_found e).
  { intros (r & fields & [= <-] & Hst & _). discriminate Hst. }
  destruct (failed_project_listing_clears_the_selection host0 e
              (with_selection (JInt 1) (JStr "Acme Redesign") ∅) Hnot)
    as (shown & Hrun & _).
  rewrite Hrun. reflexivity.
Defined.

(** ** What the quick summary takes *)

Lemma format_2f_run (h : host) (v : json) (s : session) :
  is_number v = true -> format_2f h v s = (Ok (fixed2 h v), s, []).
Proof.
  destruct v as [| | n | | | |]; try done.
  unfold is_number, format_2f. by intros ->.
Qed.

Lemma format_2f_raises (h : host) (v : json) (s : session) :
  is_number v = false ->
  exists ex, format_2f h v s = (Raised ex, s, [])
             /\ exn_class_of ex ∈ [ValueError; TypeError; OverflowError].
Proof.
  destruct v as [| | n | | | |]; try done; unfold is_number, format_2f;
    intros H; rewrite ?H; eexists; (split; [reflexivity|]); listed.
Qed.

Lemma st_metric_run (h : host) (label : string) (v : json) (s : session) :
  is_scalar v = true -> st_metric h label v s = (Ok tt, s, [Metric label v]).
Proof. by destruct v. Qed.

Lemma st_metric_raises (h : host) (label : string) (v : json) (s : session) :
  is_scalar v = false ->
  st_metric h label v s = (Raised (metric_error h v), s, []).
Proof. by destruct v. Qed.

Lemma py_get_raises (v : json) (k : string) (d : json) (s : session) :
  is_obj v = false ->
  exists msg, py_get v k d s = (Raised (Exn AttributeError msg), s, []).
Proof. destruct v; try done; intros _; eexists; reflexivity. Qed.

Lemma summary_outcome (h : host) (results : json) (s : session) :
  (summary_fits results = true ->
   outcome_of (show_analysis_summary h results s) = Ok tt)
  /\ (summary_fits results = false ->
      exists ex,
        outcome_of (show_analysis_summary h results s) = Raised ex
        /\ (exn_class_of ex
            ∈ [AttributeError; ValueError; TypeError; OverflowError]
            \/ exists v, is_scalar v = false /\ ex = metric_error h v)).
Proof.
  unfold show_analysis_summary. rewrite call_run, finish_outcome.
  destruct results as [| | | | | |fields];
    try (split; [done|]; intros _; eexists; split; [reflexivity|left; listed]).
  unfold summary_fits.
  erewrite bind_run by reflexivity. erewrite bind_run by reflexivity.
  destruct (is_number (default (JInt 0) (assoc "processing_time" fields))) eqn:Hpt.
  2:{ split; [done|]. intros _.
      destruct (format_2f_raises h _ s Hpt) as (ex & Hf & Hc).
      erewrite bind_raised by exact Hf. exists ex. split; [done|].
      left. rewrite !elem_of_cons, elem_of_nil in Hc.
      destruct Hc as [-> | [-> | [-> | []]]]; listed. }
  erewrite bind_run by (by apply format_2f_run). erewrite bind_run by reflexivity.
  erewrite bind_run by reflexivity.
  destruct (is_scalar (default (JStr "Unknown") (assoc "analysis_type" fields)))
    eqn:Hty.
  2:{ split; [done|]. intros _.
      erewrite bind_raised by (by apply st_metric_raises).
      eexists. split; [done|]. right. by eexists. }
  erewrite bind_run by (by apply st_metric_run).
  erewrite bind_run by reflexivity.
  erewrite bind_run by reflexivity.
  erewrite bind_run by reflexivity.
  destruct (default (JObj []) (assoc "report_data" fields)) as [| | | | | |rd] eqn:Hrd;
    try (split; [done|]; intros _; eexists; split; [reflexivity|left; listed]).
  split; [intros _|done].
  erewrite bind_run by reflexivity. rewrite !outcome_prepend.
  destruct (truthy (default JNull (assoc "project_brief_id" rd))) eqn:Hpb; [|done].
  destruct (assoc "report_data" fields) as [rd0|] eqn:Hrd0; simpl in Hrd.
  - subst rd0. destruct (assoc "project_brief_id" rd) as [pb|] eqn:Hpb0; [|done].
    cbn [when]. run. reflexivity.
  - injection Hrd as <-. done.
Qed.

(** X16: the quick summary runs to its end exactly on a dict whose
    [processing_time] is a bool, a float or an int within the range of
    a float, whose [analysis_type] is neither a list nor a dict and
    whose [report_data] is a dict (each when present); on anything else
    it raises an [AttributeError], [ValueError], [TypeError] or
    [OverflowError], or the exception with which [st.metric] rejects a
    list or dict. *)
Theorem summary_fails_on_ill_typed_results (h : host) (results : json)
    (s : session) :
  (summary_fits results = true ->
   outcome_of (show_analysis_summary h results s) = Ok tt)
  /\ (summary_fits results = false ->
      exists ex,
        outcome_of (show_analysis_summary h results s) = Raised ex
        /\ (exn_class_of ex
            ∈ [AttributeError; ValueError; TypeError; OverflowError]
            \/ exists v, is_scalar v = false /\ ex = metric_error h v)).
Proof. apply summary_outcome. Qed.

Lemma summary_fails_on_ill_typed_results_witness :
  exists ex,
    outcome_of (show_analysis_summary host0
                  (JObj [("processing_time", JInt (10 ^ 309))]) ∅) = Raised ex
    /\ (exn_class_of ex
        ∈ [AttributeError; ValueError; TypeError; OverflowError]
        \/ exists v, is_scalar v = false /\ ex = metric_error host0 v).
Proof.
  exact (proj2 (summary_fails_on_ill_typed_results host0
                  (JObj [("processing_time", JInt (10 ^ 309))]) ∅) eq_refl).
Defined.

Example summary_overflows :
  show_analysis_summary host0 (JObj [("processing_time", JInt (10 ^ 309))]) ∅
  = (Raised (Exn OverflowError "int too large to convert to float"), ∅,
     [ Subheader "📊 Quick Summary" ]).
Proof. vm_compute. reflexivity. Qed.

(** ** A Stage 1 reply with status 200 *)

Lemma stateless_show_stage1_integration (h : host) (result : json) :
  stateless (show_stage1_integration h result).
Proof. unfold show_stage1_integration. settle. Qed.

Lemma session_brief_id_stored (s : session) (v : json) :
  s !! "analysis_results" = Some v -> session_brief_id s = brief_id_of v.
Proof.
  intros H. unfold brief_id_of, session_brief_id. by rewrite H, lookup_insert_eq.
Qed.

Lemma integration_outcome (h : host) (fields : list (string * json)) (s : session) :
  (integration_fits (JObj fields) = true ->
   outcome_of (show_stage1_integration h (JObj fields) s) = Ok tt)
  /\ (integration_fits (JObj fields) = false ->
      exists ex, outcome_of (show_stage1_integration h (JObj fields) s) = Raised ex).
Proof.
  unfold show_stage1_integration, integration_fits. simpl field.
  erewrite bind_run by reflexivity. rewrite outcome_prepend.
  destruct (assoc "basecamp_integration" fields) as [bi|] eqn:Hbi; simpl default.
  2:{ split; [done|]. intros H. discriminate H. }
  destruct (truthy bi) eqn:Htr.
  2:{ split; [done|]. intros H.
      destruct bi; try discriminate H; rewrite Htr in H; discriminate H. }
  cbn [when]. erewrite bind_run by (simpl; rewrite Hbi; reflexivity).
  erewrite bind_run by reflexivity. rewrite !outcome_prepend.
  destruct bi as [| | | | | |st];
    try (split; [intros H; rewrite Htr in H; discriminate H|];
         intros _; eexists; reflexivity).
  split; [intros _|done].
  run. rewrite ?outcome_prepend.
  destruct (truthy (default JNull (assoc "content_writer_uploaded" st)));
    cbn [when]; run; rewrite ?outcome_prepend;
    destruct (truthy (default JNull (assoc "content_writer_notified" st)));
    cbn [when]; run; rewrite ?outcome_prepend;
    destruct (assoc "errors" st) as [er|] eqn:Her; simpl default;
    try destruct (truthy er) eqn:Hter; cbn [when truthy]; run; reflexivity.
Qed.

Lemma upload_post_reply (h : host) (e : env) (u : string)
    (files : list (string * upload)) (data : list (string * json)) (t : Z)
    (r : response) (s : session) :
  upload_reply e = Replied r ->
  requests_post u files data t (upload_reply e) s = (Ok r, s, [Post u files data t]).
Proof. intros ->. reflexivity. Qed.

Ltac prefix_steps :=
  erewrite bind_run by reflexivity; erewrite bind_run by reflexivity;
  erewrite bind_run by (by apply upload_post_reply);
  match goal with
  | H : status_code _ = 200 |- _ => rewrite H
  end;
  cbn [Z.eqb Pos.eqb]; unfold response_json;
  match goal with
  | H : json_body _ = inr _ |- _ => rewrite H
  end;
  run.

Lemma analyze_document_succeeded (h : host) (e : env) (ty : string) (sg : bool)
    (f : upload) (cw : json) (s : session) (r : response) (v : json) :
  upload_reply e = Replied r -> status_code r = 200 -> json_body r = inr v ->
  let s2 := stored_result f v s in
  let post :=
    Post (url h "/upload") [("file", f)]
      (upload_data ty sg cw (default JNull (s !! "selected_project_id"))
         (default JNull (s !! "selected_project_name"))) 300 in
  let completed := Alert Success "🎉 Stage 1 Analysis completed successfully!" in
  (integration_fits v && summary_fits v = false
   /\ exists shown ex,
        analyze_document h e ty sg f cw s
        = (Ok tt, s2,
           post :: completed :: shown ++ [Alert Error (upload_error_text ex)]))
  \/ (integration_fits v && summary_fits v = true
      /\ exists shown,
           analyze_document h e ty sg f cw s
           = (Ok tt,
              session_of
                (content_submission_form e
                   (match brief_id_of v with
                    | Some pb => with_ids pb cw s2
                    | None => s2
                    end)),
              post :: completed :: shown ++ [switch_hint])).
Proof.
  intros Hr Hst Hb s2 post completed.
  destruct (stateless_show_stage1_integration h v) as (o1 & l1 & H1 & Hr1 & Hn1).
  destruct (stateless_show_analysis_summary h v) as (o2 & l2 & H2 & Hr2 & Hn2).
  unfold analyze_document.
  destruct (is_obj v) eqn:Hobj.
  2:{ left. split; [destruct v; try done; by rewrite andb_false_r|].
      destruct (py_get_raises v "basecamp_integration" JNull s2 Hobj) as (msg & Hg).
      eexists _, _. erewrite try_except_raised.
      2:{ prefix_steps. unfold show_stage1_integration.
          erewrite bind_raised by (erewrite bind_raised by exact Hg; reflexivity).
          reflexivity. }
      reflexivity. }
  destruct (is_obj_shape v Hobj) as [fields ->].
  destruct (integration_outcome h fields s2) as [Hi1 Hi0].
  destruct (integration_fits (JObj fields)) eqn:Hi.
  2:{ left. split; [done|]. destruct (Hi0 eq_refl) as [ex Hex].
      rewrite H1 in Hex. unfold outcome_of in Hex. simpl in Hex. subst o1.
      eexists _, _. erewrite try_except_raised.
      2:{ prefix_steps. erewrite bind_raised by apply H1. reflexivity. }
      reflexivity. }
  specialize (Hi1 eq_refl). rewrite H1 in Hi1. unfold outcome_of in Hi1. simpl in Hi1. subst o1.
  destruct (summary_outcome h (JObj fields) s2) as [Hs1 Hs0].
  destruct (summary_fits (JObj fields)) eqn:Hf.
  2:{ left. split; [done|]. destruct (Hs0 eq_refl) as (ex & Hex & _).
      rewrite H2 in Hex. unfold outcome_of in Hex. simpl in Hex. subst o2.
      eexists _, _. erewrite try_except_raised.
      2:{ prefix_steps. erewrite bind_run by apply H1.
          erewrite bind_raised by apply H2. rewrite prepend_prepend. reflexivity. }
      reflexivity. }
  specialize (Hs1 eq_refl). rewrite H2 in Hs1. unfold outcome_of in Hs1. simpl in Hs1. subst o2.
  right. split; [done|].
  unfold summary_fits in Hf. apply andb_prop in Hf as [_ Hrd].
  unfold brief_id_of, session_brief_id. rewrite lookup_insert_eq.
  destruct (default (JObj []) (assoc "report_data" fields))
    as [| | | | | |rd] eqn:Hrd0; try done.
  exists (l1 ++ l2
          ++ [ Subheader "🚀 Stage 2: Submit Content for Designer";
               Alert Info "After the content writer completes their work, submit the content here to generate a designer report." ]
          ++ trace_of (content_submission_form e ∅)).
  assert (Hreport : forall pb, assoc "project_brief_id" rd = Some pb ->
                      assoc "report_data" fields = Some (JObj rd)).
  { intros pb Hpb. destruct (assoc "report_data" fields) as [x|]; simpl in Hrd0.
    - by subst x.
    - injection Hrd0 as <-. done. }
  unfold content_submission_form.
  destruct (assoc "project_brief_id" rd) as [pb|] eqn:Hpb.
  - specialize (Hreport pb eq_refl).
    destruct (truthy pb) eqn:Htr;
      destruct (click_inline_submit e && nonempty (strip (inline_content_text e)));
      (erewrite try_except_ok;
       [|prefix_steps; erewrite bind_run by apply H1;
         erewrite bind_run by apply H2; rewrite prepend_prepend; run;
         reflexivity]);
      unfold post, completed, switch_hint; simpl; f_equal;
      rewrite ?app_nil_r, <- ?app_assoc; reflexivity.
  - destruct (click_inline_submit e && nonempty (strip (inline_content_text e)));
      (erewrite try_except_ok;
       [|prefix_steps; erewrite bind_run by apply H1;
         erewrite bind_run by apply H2; rewrite prepend_prepend; run;
         reflexivity]);
      unfold post, completed, switch_hint; simpl; f_equal;
      rewrite ?app_nil_r, <- ?app_assoc; reflexivity.
Qed.

Lemma inline_form_frame (e : env) (s : session) (k : string) :
  k <> "submitted_content" ->
  session_of (content_submission_form e s) !! k = s !! k.
Proof.
  intros Hk. unfold content_submission_form.
  destruct (click_inline_submit e && nonempty (strip (inline_content_text e)));
    [|done].
  cbn. by rewrite lookup_insert_ne.
Qed.

(** X13: a reply to the upload with status 200 and a JSON body is
    stored before it is shown: whatever the body is, the session holds it
    under [analysis_results] and the file name under [uploaded_file]
    afterwards, so Stage 1 counts as complete. When the body cannot be
    shown, nothing else is stored and the last thing on screen is the
    error box of the [except] clause. *)
Theorem stage1_result_is_stored_before_it_is_shown (h : host) (e : env)
    (ty : string) (sg : bool) (f : upload) (cw : json) (s : session)
    (r : response) (v : json) :
  upload_reply e = Replied r -> status_code r = 200 -> json_body r = inr v ->
  let res := analyze_document h e ty sg f cw s in
  outcome_of res = Ok tt
  /\ session_of res !! "analysis_results" = Some v
  /\ session_of res !! "uploaded_file" = Some (JStr (file_name f))
  /\ stage_of (session_of res) <> NotStarted
  /\ (integration_fits v && summary_fits v = false ->
      session_of res = stored_result f v s
      /\ exists ex, last (trace_of res) = Some (Alert Error (upload_error_text ex))).
Proof.
  intros Hr Hst Hb res. subst res.
  assert (Hstage : forall s', is_Some (s' !! "analysis_results") ->
                     stage_of s' <> NotStarted).
  { intros s' Hs'. unfold stage_of. rewrite (bool_decide_true _ Hs').
    by destruct (bool_decide _). }
  destruct (analyze_document_succeeded h e ty sg f cw s r v Hr Hst Hb)
    as [[Hfit (shown & ex & ->)]|[Hfit (shown & ->)]]; cbn [outcome_of session_of trace_of fst snd].
  - assert (Ha : stored_result f v s !! "analysis_results" = Some v).
    { unfold stored_result. by rewrite !lookup_insert_ne by done; rewrite lookup_insert_eq. }
    split; [done|]. split; [done|].
    split; [unfold stored_result; by rewrite lookup_insert_eq|].
    split; [apply Hstage; rewrite Ha; by eexists|].
    intros _. split; [done|]. exists ex. apply (last_after [_; _] shown).
  - assert (Ha : forall s0, s0 !! "analysis_results" = Some v ->
                   session_of (content_submission_form e s0) !! "analysis_results"
                   = Some v).
    { intros s0 H0. by rewrite inline_form_frame. }
    assert (Hu : forall s0, s0 !! "uploaded_file" = Some (JStr (file_name f)) ->
                   session_of (content_submission_form e s0) !! "uploaded_file"
                   = Some (JStr (file_name f))).
    { intros s0 H0. by rewrite inline_form_frame. }
    assert (H2a : stored_result f v s !! "analysis_results" = Some v).
    { unfold stored_result. by rewrite !lookup_insert_ne by done; rewrite lookup_insert_eq. }
    assert (H2u : stored_result f v s !! "uploaded_file" = Some (JStr (file_name f))).
    { unfold stored_result. by rewrite lookup_insert_eq. }
    assert (Hsa : session_of
                    (content_submission_form e
                       match brief_id_of v with
                       | Some pb => with_ids pb cw (stored_result f v s)
                       | None => stored_result f v s
                       end) !! "analysis_results" = Some v).
    { apply Ha. destruct (brief_id_of v); [|done].
      unfold with_ids. by rewrite !lookup_insert_ne. }
    split; [done|]. split; [done|]. split.
    { apply Hu. destruct (brief_id_of v); [|done].
      unfold with_ids. by rewrite !lookup_insert_ne. }
    split; [apply Hstage; rewrite Hsa; by eexists|].
    intros Hno. congruence.
Qed.

Lemma stage1_result_is_stored_before_it_is_shown_witness :
  let res := analyze_document host0 (analyze_pressed 1 (ok_json (JList [])))
               "comprehensive" true brief_pdf (JInt 7) ∅ in
  session_of res !! "analysis_results" = Some (JList [])
  /\ exists ex, last (trace_of res) = Some (Alert Error (upload_error_text ex)).
Proof.
  intros res.
  destruct (stage1_result_is_stored_before_it_is_shown host0
              (analyze_pressed 1 (ok_json (JList []))) "comprehensive" true
              brief_pdf (JInt 7) ∅ _ (JList []) eq_refl eq_refl eq_refl)
    as (_ & Ha & _ & _ & Hlast).
  split; [exact Ha|]. exact (proj2 (Hlast eq_refl)).
Defined.

(** X14: when the reply to the upload has status 200 and a body the
    integration status and the quick summary can show, the run ends with
    the hint to switch tabs; with a truthy project brief id in the body
    the session holds the result, the file name, that id and the id of
    the chosen content writer, and without one only the result and the
    file name (then what the inline form stores). *)
Theorem stage1_success_stores_the_ids (h : host) (e : env)
    (ty : string) (sg : bool) (f : upload) (cw : json) (s : session)
    (r : response) (v : json) :
  upload_reply e = Replied r -> status_code r = 200 -> json_body r = inr v ->
  integration_fits v && summary_fits v = true ->
  let res := analyze_document h e ty sg f cw s in
  outcome_of res = Ok tt
  /\ last (trace_of res) = Some switch_hint
  /\ (forall pb, brief_id_of v = Some pb ->
        session_of res
        = session_of (content_submission_form e
                        (with_ids pb cw (stored_result f v s))))
  /\ (brief_id_of v = None ->
      session_of res
      = session_of (content_submission_form e (stored_result f v s))).
Proof.
  intros Hr Hst Hb Hfit res. subst res.
  destruct (analyze_document_succeeded h e ty sg f cw s r v Hr Hst Hb)
    as [[Hno _]|[_ (shown & ->)]]; [congruence|].
  cbn [outcome_of session_of trace_of fst snd].
  split; [done|]. split; [apply (last_after [_; _] shown)|].
  split.
  - intros pb Hpb. by rewrite Hpb.
  - intros Hpb. by rewrite Hpb.
Qed.

Lemma stage1_success_stores_the_ids_witness :
  session_of (analyze_document host0 (analyze_pressed 1 (ok_json stage1_result))
                "comprehensive" true brief_pdf (JInt 7) ∅)
  = with_ids (JStr "PB-123") (JInt 7) (stored_result brief_pdf stage1_result ∅).
Proof.
  destruct (stage1_success_stores_the_ids host0
              (analyze_pressed 1 (ok_json stage1_result)) "comprehensive" true
              brief_pdf (JInt 7) ∅ _ stage1_result eq_refl eq_refl eq_refl eq_refl)
    as (_ & _ & Hid & _).
  exact (Hid (JStr "PB-123") eq_refl).
Defined.

(** X15: whatever the backend answers, pressing Analyze either leaves
    [project_brief_id] and [content_writer_id] as they were, or sets both:
    [content_writer_id] to the chosen writer and [project_brief_id] to the
    very id Stage 2 will read from the stored analysis results. *)
Theorem stage1_writes_both_ids_or_neither (h : host) (e : env)
    (ty : string) (sg : bool) (f : upload) (cw : json) (s : session) :
  let res := analyze_document h e ty sg f cw s in
  (session_of res !! "project_brief_id" = s !! "project_brief_id"
   /\ session_of res !! "content_writer_id" = s !! "content_writer_id")
  \/ (exists pb,
        session_brief_id (session_of res) = Some pb
        /\ session_of res !! "project_brief_id" = Some pb
        /\ session_of res !! "content_writer_id" = Some cw).
Proof.
  intros res. subst res.
  destruct (upload_succeeded_dec e) as [(r & v & Hr & Hst & Hb)|Hfail].
  - destruct (analyze_document_succeeded h e ty sg f cw s r v Hr Hst Hb)
      as [[_ (shown & ex & ->)]|[_ (shown & ->)]];
      cbn [outcome_of session_of trace_of fst snd].
    + left. unfold stored_result. by rewrite !lookup_insert_ne.
    + destruct (brief_id_of v) as [pb|] eqn:Hpb.
      * right. exists pb. split; [|split].
        -- rewrite (session_brief_id_stored _ v); [done|].
           rewrite inline_form_frame by done. unfold with_ids, stored_result.
           by rewrite !lookup_insert_ne by done; rewrite lookup_insert_eq.
        -- rewrite inline_form_frame by done. unfold with_ids.
           by rewrite !lookup_insert_ne by done; rewrite lookup_insert_eq.
        -- rewrite inline_form_frame by done. unfold with_ids.
           by rewrite lookup_insert_eq.
      * left. rewrite !inline_form_frame by done. unfold stored_result.
        by rewrite !lookup_insert_ne.
  - destruct (analyze_document_failed h e ty sg f cw s Hfail) as (msg & -> & _).
    by left.
Qed.

(** ** What a Stage 2 submission stores and sends *)

Lemma submit_post_reply (e : env) (u : string)
    (files : list (string * upload)) (data : list (string * json)) (t : Z)
    (r : response) (s : session) :
  submit_reply e = Replied r ->
  requests_post u files data t (submit_reply e) s = (Ok r, s, [Post u files data t]).
Proof. intros ->. reflexivity. Qed.

(** What a submission does, reply by reply. *)
Lemma submit_content_run (h : host) (e : env) (pb did : json) (s : session) :
  let post := Post (url h "/submit-content") (content_files e)
                (content_data e pb did) 300 in
  (exists shown msg,
     submit_content h e pb did s = (Ok tt, s, post :: shown ++ [Alert Error msg])
     /\ Forall (fun ev => is_request ev = false) shown)
  \/ (exists r fields shown,
        submit_reply e = Replied r /\ status_code r = 200
        /\ json_body r = inr (JObj fields)
        /\ submit_content h e pb did s
           = (Ok tt, <["designer_results" := JObj fields]> s, post :: shown)
        /\ Forall (fun ev => is_request ev = false /\ is_complaint ev = false) shown).
Proof.
  intros post. unfold submit_content.
  destruct (submit_reply e) as [r|ex] eqn:Hr.
  2:{ left. exists [], ("❌ Error submitting content: " +:+ exn_msg ex).
      split; [|constructor].
      erewrite try_except_raised
        by (unfold requests_post; run; reflexivity).
      reflexivity. }
  destruct (status_code r =? 200) eqn:Hst.
  2:{ left. exists [], ("❌ Content submission failed: " +:+ text r).
      split; [|constructor].
      erewrite try_except_ok
        by (unfold requests_post; run; rewrite Hst; run; reflexivity).
      reflexivity. }
  destruct (json_body r) as [ex|v] eqn:Hb.
  { left. exists [], ("❌ Error submitting content: " +:+ exn_msg ex).
    split; [|constructor].
    erewrite try_except_raised
      by (unfold requests_post; run; rewrite Hst;
          unfold response_json; rewrite Hb; run; reflexivity).
    reflexivity. }
  destruct v as [| | | | | |fields];
    try (left; eexists [_], _;
         split;
         [ erewrite try_except_raised
             by (unfold requests_post; run; rewrite Hst;
                 unfold response_json; rewrite Hb; run; reflexivity);
           reflexivity
         | by repeat constructor ]).
  assert (H200 : status_code r = 200) by (by apply Z.eqb_eq).
  destruct (assoc "basecamp_integration" fields) as [bi|] eqn:Hbi.
  2:{ right. exists r, fields. eexists.
      split; [done|]. split; [done|]. split; [done|].
      split;
        [ erewrite try_except_ok
            by (unfold requests_post; run; rewrite Hst;
                unfold response_json; rewrite Hb; run; reflexivity);
          reflexivity
        | by repeat constructor ]. }
  destruct (truthy bi) eqn:Htr.
  2:{ right. exists r, fields. eexists.
      split; [done|]. split; [done|]. split; [done|].
      split;
        [ erewrite try_except_ok
            by (unfold requests_post; run; rewrite Hst;
                unfold response_json; rewrite Hb; run; reflexivity);
          reflexivity
        | by repeat constructor ]. }
  destruct bi as [| | | | | |st];
    try (left; eexists [_], _;
         split;
         [ erewrite try_except_raised
             by (unfold requests_post; run; rewrite Hst;
                 unfold response_json; rewrite Hb; run; reflexivity);
           reflexivity
         | by repeat constructor ]).
  right. exists r, fields.
  destruct (truthy (default JNull (assoc "designer_uploaded" st))) eqn:Hup,
    (truthy (default JNull (assoc "designer_notified" st))) eqn:Hnt.
  all: eexists; split; [done|]; split; [done|]; split; [done|].
  all: split;
         [ erewrite try_except_ok
             by (unfold requests_post; run; rewrite Hst;
                 unfold response_json; rewrite Hb; run; tidy; reflexivity);
           reflexivity
         | by repeat constructor ].
Qed.

(** X19: a submission never raises, and it stores its result only after
    it has shown it: either the session stays as it was and the last thing
    shown is an error box, or the reply had status 200 and a JSON object
    as its body, that object is stored under [designer_results] and no
    error or warning was shown. *)
Theorem stage2_result_is_stored_only_when_shown (h : host) (e : env)
    (pb did : json) (s : session) :
  let res := submit_content h e pb did s in
  outcome_of res = Ok tt
  /\ ((session_of res = s
       /\ exists msg, last (trace_of res) = Some (Alert Error msg))
      \/ (exists r fields,
            submit_reply e = Replied r /\ status_code r = 200
            /\ json_body r = inr (JObj fields)
            /\ session_of res = <["designer_results" := JObj fields]> s
            /\ Forall (fun ev => is_complaint ev = false) (trace_of res))).
Proof.
  intros res. subst res.
  destruct (submit_content_run h e pb did s)
    as [(shown & msg & -> & Hq)|(r & fields & shown & Hr & Hst & Hb & -> & Hq)].
  - split; [done|]. left. split; [done|]. exists msg.
    apply (last_after [_] shown).
  - split; [done|]. right. exists r, fields. repeat split; try done.
    apply Forall_cons_2; [done|].
    eapply Forall_impl; [exact Hq|]. by intros ev [_ ?].
Qed.

Lemma not_post_of_quiet (l : list event) :
  Forall (fun ev => is_request ev = false) l ->
  Forall (fun ev => is_post ev = false) l.
Proof. intros H. eapply Forall_impl; [exact H|]. by intros []. Qed.

(** X20: the Submit Content tab posts only when the submit button is
    pressed, a file or a text that is not blank is there and the designer
    select box resolved to a truthy id; the request goes to
    /submit-content with the project brief id read from the stored
    analysis results, that designer, the file and a timeout of 300
    seconds. *)
Theorem stage2_request_carries_the_stored_brief_id (h : host) (e : env)
    (s : session) (u : string) (files : list (string * upload))
    (data : list (string * json)) (t : Z) :
  Post u files data t ∈ trace_of (content_writer_submit_tab h e s) ->
  exists pb did,
    session_brief_id s = Some pb
    /\ chosen_designer h e = Ok did /\ truthy did = true
    /\ click_submit_content e = true
    /\ (is_Some (content_file e) \/ nonempty (strip (content_text e)) = true)
    /\ u = url h "/submit-content" /\ files = content_files e
    /\ data = content_data e pb did /\ t = 300.
Proof.
  intros Hin.
  destruct (session_brief_id s) as [pb|] eqn:Hpb.
  2:{ exfalso.
      destruct (no_brief_id_run h e s Hpb) as [[_ Hrun]|[[_ Hrun]|[_ [msg Hrun]]]];
        rewrite Hrun in Hin; simpl in Hin;
        repeat (apply elem_of_cons in Hin as [Hin|Hin]; [discriminate Hin|]);
        by apply elem_of_nil in Hin. }
  rewrite (brief_id_gate h e s pb Hpb) in Hin.
  destruct (finish_prepend [ Header "📤 Submit Completed Content";
                             Alert Info ("**Project ID:** " +:+ py_str h pb) ]
              (content_writer_submission h e pb s)) as [_ Ht].
  rewrite Ht in Hin. clear Ht.
  apply elem_of_app in Hin as [Hin|Hin].
  { exfalso. repeat (apply elem_of_cons in Hin as [Hin|Hin]; [discriminate Hin|]).
    by apply elem_of_nil in Hin. }
  destruct (select_designer_returns h e) as [did Hdid].
  pose proof (select_designer_run h e s) as Hd. rewrite Hdid in Hd.
  assert (Hquiet : Forall (fun ev => is_post ev = false)
                     (trace_of (select_designer h e ∅))).
  { destruct (select_designer_quiet h e ∅) as [_ Hq].
    eapply Forall_impl; [exact Hq|]. by intros ev [? _]. }
  exists pb, did. split; [done|]. split; [done|].
  unfold content_writer_submission in Hin.
  destruct (click_submit_content e) eqn:Hclick.
  2:{ exfalso. revert Hin. run. simpl. rewrite app_nil_r. intros Hin.
      repeat (apply elem_of_cons in Hin as [Hin|Hin]; [discriminate Hin|]).
      exact (no_post_in _ _ _ _ _ Hquiet Hin). }
  destruct (negb (bool_decide (is_Some (content_file e)))
            && negb (nonempty (strip (content_text e)))) eqn:Hc.
  { exfalso. revert Hin. run. simpl. rewrite ?app_nil_r. intros Hin.
    repeat (apply elem_of_cons in Hin as [Hin|Hin]; [discriminate Hin|]).
    rewrite elem_of_app in Hin; destruct Hin as [Hin|Hin]; [exact (no_post_in _ _ _ _ _ Hquiet Hin)|].
    repeat (apply elem_of_cons in Hin as [Hin|Hin]; [discriminate Hin|]).
    by apply elem_of_nil in Hin. }
  destruct (truthy did) eqn:Htr.
  2:{ exfalso. revert Hin. run. simpl. rewrite ?app_nil_r. intros Hin.
      repeat (apply elem_of_cons in Hin as [Hin|Hin]; [discriminate Hin|]).
      rewrite elem_of_app in Hin; destruct Hin as [Hin|Hin]; [exact (no_post_in _ _ _ _ _ Hquiet Hin)|].
      repeat (apply elem_of_cons in Hin as [Hin|Hin]; [discriminate Hin|]).
      by apply elem_of_nil in Hin. }
  split; [done|]. split; [done|]. split.
  { apply andb_false_iff in Hc as [Hc|Hc].
    - left. apply negb_false_iff, bool_decide_eq_true in Hc. done.
    - right. by apply negb_false_iff in Hc. }
  revert Hin. run. simpl. rewrite ?app_nil_r. intros Hin.
  repeat (apply elem_of_cons in Hin as [Hin|Hin]; [discriminate Hin|]).
  rewrite elem_of_app in Hin; destruct Hin as [Hin|Hin]; [exfalso; exact (no_post_in _ _ _ _ _ Hquiet Hin)|].
  assert (Hown : Post u files data t ∈ trace_of (submit_content h e pb did s)).
  { revert Hin. rewrite ?app_nil_r. done. }
  clear Hin.
  destruct (submit_content_run h e pb did s)
    as [(shown & msg & Hrun & Hq)|(r & fields & shown & _ & _ & _ & Hrun & Hq)];
    rewrite Hrun in Hown; simpl in Hown.
  - apply elem_of_cons in Hown as [Hown|Hown]; [by injection Hown as -> -> -> ->|].
    exfalso. rewrite elem_of_app in Hown; destruct Hown as [Hown|Hown].
    + eapply no_post_in; [|exact Hown]. by apply not_post_of_quiet.
    + apply elem_of_cons in Hown as [Hown|Hown]; [discriminate Hown|].
      by apply elem_of_nil in Hown.
  - apply elem_of_cons in Hown as [Hown|Hown]; [by injection Hown as -> -> -> ->|].
    exfalso. eapply no_post_in; [|exact Hown].
    eapply Forall_impl; [exact Hq|]. intros ev [? _]. by destruct ev.
Qed.

Lemma stage2_request_carries_the_stored_brief_id_witness :
  let e := submit_pressed 3 (Some draft_docx) "draft" (ok_json stage2_partial_result) in
  let s := <["user_role" := JStr "content_writer"]> session_after_stage1 in
  exists pb did,
    session_brief_id s = Some pb
    /\ chosen_designer host0 e = Ok did /\ truthy did = true
    /\ click_submit_content e = true
    /\ (is_Some (content_file e) \/ nonempty (strip (content_text e)) = true)
    /\ url host0 "/submit-content" = url host0 "/submit-content"
    /\ content_files e = content_files e
    /\ content_data e (JStr "PB-123") (JInt 9) = content_data e pb did
    /\ 300 = 300.
Proof.
  intros e s.
  apply (stage2_request_carries_the_stored_brief_id host0 e s).
  vm_compute. listed.
Defined.

(** ** Select boxes that resolve to nobody *)

Lemma yields_bind_after {A B} (Q : B -> Prop) (P : A -> Prop)
    (m : M B) (k : B -> M A) :
  yields Q m -> (forall b, Q b -> yields P (k b)) -> yields P (bind m k).
Proof.
  intros Hm Hk s a. unfold bind, outcome_of.
  specialize (Hm s). unfold outcome_of in Hm.
  destruct (m s) as [[[b| |ex|] s1] l1]; try done. simpl.
  specialize (Hk b (Hm b eq_refl) s1 a). unfold outcome_of in Hk.
  by destruct (k b s1) as [[o2 s2] l2].
Qed.

Lemma resolve_none_option (h : host) (candidates : list json)
    (announce : json -> M unit) :
  yields (fun v => v = JNull) (resolve_recipient h candidates 0 announce).
Proof.
  unfold resolve_recipient. apply yields_bind. intros labels.
  by apply yields_ret.
Qed.

Ltac yield :=
  repeat match goal with
  | |- yields _ (resolve_recipient _ _ 0 _) => apply resolve_none_option
  | |- yields _ (bind (match ?l with _ => _ end) _) =>
      apply (yields_bind_after (fun v => v = JNull)); [destruct l|intros ? ->]
  | |- yields _ (match ?l with [] => _ | _ :: _ => _ end) => destruct l
  | |- yields _ (bind _ _) => apply yields_bind; intros ?
  | |- yields _ (ret _) => by apply yields_ret
  | |- yields _ (try_except _ _) => apply yields_try_except; [|intros ?]
  | |- yields _ (if ?b then _ else _) => destruct b
  end.

Lemma none_option_content_writer (h : host) (e : env) :
  content_writer_choice e = 0%nat ->
  yields (fun v => v = JNull) (select_content_writer h e).
Proof.
  intros Hc. unfold select_content_writer. rewrite Hc. yield.
Qed.

Lemma none_option_designer (h : host) (e : env) :
  designer_choice e = 0%nat ->
  yields (fun v => v = JNull) (select_designer h e).
Proof.
  intros Hc. unfold select_designer. rewrite Hc. yield.
Qed.

(** X17: with the select box of the content writers at its first option,
    "None", no content writer is chosen, whatever the listing of the users
    says or however it fails; the same holds for the select box of the
    designers. *)
Theorem none_option_names_no_recipient (h : host) (e : env) :
  (content_writer_choice e = 0%nat -> chosen_content_writer h e = Ok JNull)
  /\ (designer_choice e = 0%nat -> chosen_designer h e = Ok JNull).
Proof.
  split; intros Hc.
  - destruct (select_content_writer_run h e ∅) as (cw & Hcw & _).
    rewrite Hcw. f_equal.
    apply (none_option_content_writer h e Hc ∅ cw). exact Hcw.
  - destruct (select_designer_returns h e) as (did & Hd).
    rewrite Hd. f_equal.
    apply (none_option_designer h e Hc ∅ did). exact Hd.
Qed.

Lemma none_option_names_no_recipient_witness :
  chosen_content_writer host0 nothing_pressed = Ok JNull
  /\ chosen_designer host0 nothing_pressed = Ok JNull.
Proof.
  split.
  - exact (proj1 (none_option_names_no_recipient host0 nothing_pressed) eq_refl).
  - exact (proj2 (none_option_names_no_recipient host0 nothing_pressed) eq_refl).
Defined.

Lemma split_head_shorter (name : string) :
  occurs " (" name = true ->
  (String.length (split_head " (" name) < String.length name)%nat.
Proof.
  induction name as [|c name IH]; [done|].
  cbn [occurs split_head]. destruct (drop_prefix " (" (String c name)).
  - intros _. simpl. lia.
  - intros H. specialize (IH H). simpl. lia.
Qed.

Lemma truncated_name_differs (name : string) :
  occurs " (" name = true -> String.eqb name (split_head " (" name) = false.
Proof.
  intros H. apply String.eqb_neq. intros Heq.
  pose proof (split_head_shorter name H) as Hlt. rewrite <- Heq in Hlt. lia.
Qed.

Lemma resolve_no_match (h : host) (candidates : list json) (i : nat)
    (chosen : json) (announce : json -> M unit) (s : session) :
  Forall is_user candidates ->
  candidates !! i = Some chosen ->
  List.find (named (split_head " (" (py_str h (field "name" chosen)))) candidates
  = None ->
  resolve_recipient h candidates (S i) announce s = (Ok JNull, s, []).
Proof.
  intros Husers Hi Hfind. rewrite Forall_forall in Husers.
  unfold resolve_recipient.
  match goal with
  | |- context [py_listcomp ?k ?f candidates] =>
      assert (Hlab : py_listcomp k f candidates s
                     = (Ok (map (label_of h) candidates), s, []))
  end.
  { rewrite <- (filter_all candidates) at 2.
    apply (py_listcomp_pure _ _ (fun _ => true) (label_of h)); [done|].
    intros x Hx _. destruct (Husers x Hx) as (fields & n & m & -> & Hn & Hm).
    unfold label_of. simpl. run. reflexivity. }
  erewrite bind_run by exact Hlab. rewrite prepend_nil.
  assert (Hsel : st_selectbox "None" (map (label_of h) candidates) (S i)
                 = label_of h chosen).
  { unfold st_selectbox. simpl. by rewrite lookup_map, Hi. }
  rewrite Hsel. unfold label_of at 1. rewrite label_is_not_none. cbn [negb].
  unfold label_of. rewrite split_head_label.
  match goal with
  | |- context [py_next ?t candidates] =>
      assert (Hnext : py_next t candidates s = (Ok JNull, s, []))
  end.
  { erewrite (py_next_pure _
                (named (split_head " (" (py_str h (field "name" chosen))))).
    - by rewrite Hfind.
    - intros x Hx. destruct (Husers x Hx) as (fields & n & m & -> & Hn & Hm).
      simpl. run. reflexivity. }
  erewrite bind_run by exact Hnext. reflexivity.
Qed.

(** X18: a user whose name contains [" ("] is not the one looked up when
    their label is chosen, since the name is cut at the first [" ("];
    when no eligible user carries the part before it, the select box
    resolves to nobody, for the content writer and for the designer. *)
Theorem truncated_name_finds_no_recipient
    (h : host) (e : env) (resp : response)
    (fields : list (string * json)) (users : list json) :
  users_reply e = Replied resp -> status_code resp = 200 ->
  json_body resp = inr (JObj fields) ->
  truthy (default JNull (assoc "success" fields)) = true ->
  assoc "users" fields = Some (JList users) ->
  Forall is_user users ->
  let candidates := List.filter eligible users in
  (forall n rest, occurs " (" n = true ->
     named (split_head " (" n) (JObj (("name", JStr n) :: rest)) = false)
  /\ (forall i chosen,
        content_writer_choice e = S i -> candidates !! i = Some chosen ->
        List.find (named (split_head " (" (py_str h (field "name" chosen))))
          candidates = None ->
        chosen_content_writer h e = Ok JNull)
  /\ (forall i chosen,
        designer_choice e = S i -> candidates !! i = Some chosen ->
        List.find (named (split_head " (" (py_str h (field "name" chosen))))
          candidates = None ->
        chosen_designer h e = Ok JNull).
Proof.
  intros Hreply Hst Hbody Hok Husers Hall candidates. subst candidates.
  destruct (listing_run fields users ∅ Hok Husers Hall) as [Hfound Helig].
  destruct (filter_keeps eligible users is_user Hall) as [Hcu Hce].
  assert (Htu : forall i chosen, List.filter eligible users !! i = Some chosen ->
                truthy (JList users) = true).
  { intros i chosen Hi. destruct users; [by destruct i | done]. }
  split; [|split].
  - intros n rest Hocc. simpl. unfold eq_str. simpl.
    by apply truncated_name_differs.
  - intros i chosen Hchoice Hi Hfind. specialize (Htu i chosen Hi).
    unfold chosen_content_writer, select_content_writer.
    run. rewrite outcome_prepend. apply try_except_outcome.
    unfold requests_get, response_json. rewrite Hreply. run.
    rewrite Hst. cbn [Z.eqb Pos.eqb]. rewrite Hbody. run.
    rewrite ?Htu. run.
    destruct (List.filter eligible users) as [|c0 cs] eqn:Hc; [by destruct i|].
    rewrite Hchoice.
    erewrite bind_run
      by (by apply (resolve_no_match h (c0 :: cs) i chosen)).
    run. reflexivity.
  - intros i chosen Hchoice Hi Hfind. specialize (Htu i chosen Hi).
    unfold chosen_designer, select_designer.
    run. rewrite outcome_prepend. apply try_except_outcome.
    unfold requests_get, response_json. rewrite Hreply. run.
    rewrite Hst. cbn [Z.eqb Pos.eqb]. rewrite Hbody. run.
    rewrite ?Htu. run.
    destruct (List.filter eligible users) as [|c0 cs] eqn:Hc; [by destruct i|].
    rewrite Hchoice.
    by erewrite (resolve_no_match h (c0 :: cs) i chosen).
Qed.

(** ** The Projects tab *)

Lemma truncated_name_finds_no_recipient_witness :
  let e := with_users ann_listing (analyze_pressed 1 (ok_json stage1_result)) in
  List.find (named "Ann") (List.filter eligible [ann]) = None
  /\ chosen_content_writer host0 e = Ok JNull.
Proof.
  intros e. split; [reflexivity|].
  assert (Hall : Forall is_user [ann]).
  { repeat (apply Forall_cons_2 || apply Forall_nil_2);
      eexists _, _, _; repeat split; reflexivity. }
  pose proof
    (truncated_name_finds_no_recipient host0 e
       (Response 200 "" (inr (JObj [("success", JBool true); ("users", JList [ann])])))
       [("success", JBool true); ("users", JList [ann])] [ann]
       eq_refl eq_refl eq_refl eq_refl eq_refl Hall) as (_ & Hw & _).
  exact (Hw 0%nat ann eq_refl eq_refl eq_refl).
Defined.

Lemma has_key_false (s : session) (k : string) :
  s !! k = None -> bool_decide (is_Some (s !! k)) = false.
Proof. intros ->. apply bool_decide_eq_false. by intros [? ?]. Qed.

Lemma has_key_true (s : session) (k : string) (v : json) :
  s !! k = Some v -> bool_decide (is_Some (s !! k)) = true.
Proof. intros ->. apply bool_decide_eq_true. by eexists. Qed.

Lemma projects_tab_without_results (h : host) (s : session) :
  s !! "analysis_results" = None -> s !! "designer_results" = None ->
  brand_manager_projects_tab h s
  = (Raised unbound_results, s,
     [ Header "📋 Project Management";
       Subheader "📊 Project Overview";
       Metric "Active Projects" (JStr "0");
       Metric "Completed Projects" (JStr "0");
       Metric "Total Projects" (JInt 0);
       Alert Info "📤 No projects available yet. Start by uploading a project brief in the 'Upload & Analyze' tab." ]).
Proof.
  intros Ha Hd. unfold brand_manager_projects_tab. rewrite call_run.
  pose proof (has_key_false s _ Ha) as Hka.
  pose proof (has_key_false s _ Hd) as Hkd.
  unfold has_key.
  repeat (first [ erewrite bind_run by reflexivity
                | rewrite Hka | rewrite Hkd
                | rewrite prepend_prepend
                | progress cbn [negb andb when Z.add] ]).
  erewrite bind_raised by reflexivity. reflexivity.
Qed.

(** X21: before the first analysis the Projects tab of the brand manager
    ends with an exception: with neither analysis results nor designer
    results in the session it shows three metrics and the note "No
    projects available yet", and then reads the local variable [results]
    that no branch has assigned. The session stays as it was. *)
Theorem projects_tab_fails_before_the_first_analysis (h : host) (e : env)
    (export_options : json -> M unit) (s : session) :
  s !! "user_role" = Some (JStr "brand_manager") ->
  click_change_role e = false -> bm_tab e = 2%nat ->
  s !! "analysis_results" = None -> s !! "designer_results" = None ->
  let r := script h e export_options s in
  outcome_of r = Raised unbound_results
  /\ session_of r = s
  /\ last (trace_of r)
     = Some (Alert Info "📤 No projects available yet. Start by uploading a project brief in the 'Upload & Analyze' tab.").
Proof.
  intros Hrole Hclick Htab Ha Hd r. subst r. unfold script.
  rewrite (main_dispatch h e _ _ _ _ s _ Hrole).
  cbn [String.eqb Ascii.eqb Bool.eqb].
  unfold show_brand_manager_page. rewrite call_run, Hclick, Htab.
  run.
  change (st_selectbox "Upload & Analyze"
            ["Analysis Results"; "Projects"; "Sample Brief"] 2) with "Projects".
  cbn [String.eqb Ascii.eqb Bool.eqb].
  rewrite (projects_tab_without_results h s Ha Hd). done.
Qed.

Lemma projects_tab_fails_before_the_first_analysis_witness :
  outcome_of (script host0 (at_tabs 2 0 nothing_pressed) no_export
                (<["user_role" := JStr "brand_manager"]> ∅))
  = Raised unbound_results.
Proof.
  exact (proj1 (projects_tab_fails_before_the_first_analysis host0
                  (at_tabs 2 0 nothing_pressed) no_export
                  (<["user_role" := JStr "brand_manager"]> ∅)
                  eq_refl eq_refl eq_refl eq_refl eq_refl)).
Defined.

Lemma shows_emit (s : session) (E : event -> Prop) (ev : event) :
  E ev -> shows s E (emit ev).
Proof. intros H. split; [done | by repeat constructor]. Qed.

Lemma shows_st_metric (h : host) (s : session) (E : event -> Prop)
    (label : string) (v : json) :
  E (Metric label v) -> shows s E (st_metric h label v).
Proof.
  intros H. destruct v; try (by apply shows_emit); split; done || constructor.
Qed.

Lemma shows_ret (s : session) (E : event -> Prop) {A} (a : A) : shows s E (ret a).
Proof. split; [done | constructor]. Qed.

Lemma shows_when (s : session) (E : event -> Prop) (b : bool) (m : M unit) :
  shows s E m -> shows s E (when b m).
Proof. destruct b; [done | intros _; apply shows_ret]. Qed.

Ltac showing :=
  repeat match goal with
  | |- shows _ _ (bind (has_key _) _) => apply shows_has_key
  | |- shows _ _ (bind _ _) => apply shows_bind; [|intros ?]
  | |- shows _ _ (call _) => apply shows_call
  | |- shows _ _ (when _ _) => apply shows_when
  | |- shows _ _ (ret _) => apply shows_ret
  | |- shows _ _ (emit _) => apply shows_emit
  | |- shows _ _ (st_alert _ _) => apply shows_emit
  | |- shows _ _ (st_header _) => apply shows_emit
  | |- shows _ _ (st_subheader _) => apply shows_emit
  | |- shows _ _ (st_write _) => apply shows_emit
  | |- shows _ _ (st_metric _ _ _) => apply shows_st_metric
  | |- shows _ _ (if ?b then _ else _) => destruct b eqn:?
  | |- shows _ _ _ => apply shows_quiet; solve [confine_more]
  end.

Ltac other_event :=
  unfold tells, stage2_complete_note, stage2_pending_note;
  split; [|split]; intros Heq; congruence.

Lemma absent_key (s : session) (k : string) :
  bool_decide (is_Some (s !! k)) = false -> s !! k = None.
Proof.
  intros H. apply bool_decide_eq_false in H.
  destruct (s !! k); [|done]. exfalso. apply H. by eexists.
Qed.

Ltac from_key :=
  match goal with
  | H : bool_decide (is_Some (?s !! ?k)) = true |- is_Some (?s !! ?k) =>
      by apply bool_decide_eq_true in H
  | H : bool_decide (is_Some (?s !! ?k)) = false |- ?s !! ?k = None =>
      by apply absent_key
  end.

Lemma projects_tab_tells (h : host) (s : session) :
  shows s (tells s) (brand_manager_projects_tab h).
Proof.
  unfold brand_manager_projects_tab, current_project_status, completed_projects,
    project_metrics, brief_field, integration_flag.
  showing; try (solve [other_event]).
  all: unfold tells, stage2_complete_note, stage2_pending_note.
  - split; [|split]; intros Heq; try congruence.
    destruct (bool_decide (is_Some (s !! "designer_results"))) eqn:Hb;
      [by apply bool_decide_eq_true in Hb | congruence].
  - split; [|split]; intros Heq; try congruence. split; from_key.
  - split; [|split]; intros Heq; try congruence. split; from_key.
Qed.

Lemma projects_tab_overview (h : host) (s : session) :
  exists rest,
    trace_of (brand_manager_projects_tab h s)
    = Header "📋 Project Management"
      :: Subheader "📊 Project Overview"
      :: Metric "Active Projects"
           (JStr (if bool_decide (is_Some (s !! "analysis_results"))
                  then "1" else "0"))
      :: Metric "Completed Projects"
           (JStr (if bool_decide (is_Some (s !! "designer_results"))
                  then "1" else "0"))
      :: rest.
Proof.
  unfold brand_manager_projects_tab. rewrite call_run, finish_trace.
  do 6 (erewrite bind_run by reflexivity). rewrite !prepend_prepend.
  eexists. reflexivity.
Qed.

Lemma projects_tab_pending (h : host) (s : session)
    (fields : list (string * json)) :
  s !! "analysis_results" = Some (JObj fields) ->
  is_obj (default (JObj []) (assoc "report_data" fields)) = true ->
  s !! "submitted_content" = None ->
  stage2_pending_note ∈ trace_of (brand_manager_projects_tab h s).
Proof.
  intros Ha Hrd Hsc.
  pose proof (has_key_true s _ _ Ha) as Hka.
  pose proof (has_key_false s _ Hsc) as Hks.
  destruct (is_obj_shape _ Hrd) as [rd Hrd'].
  unfold brand_manager_projects_tab, current_project_status.
  rewrite call_run, finish_trace. run.
  unfold prepend, trace_of. cbn [snd].
  rewrite elem_of_app. left. unfold stage2_pending_note. listed.
Qed.

(** X22: the Projects tab leaves the session as it is, and it tells the
    state of Stage 2 from [submitted_content], the text of the inline
    form, not from [designer_results]: "Stage 2 Complete" is shown only
    with that text in the session and "Stage 2 Pending" only without it,
    while the metric of completed projects is 1 exactly when designer
    results are stored. So after a submission of the content writer the
    tab counts a completed project and still shows Stage 2 as pending. *)
Theorem projects_tab_tells_stage2_by_the_inline_text (h : host) (s : session) :
  let r := brand_manager_projects_tab h s in
  session_of r = s
  /\ (stage2_complete_note ∈ trace_of r ->
      is_Some (s !! "analysis_results") /\ is_Some (s !! "submitted_content"))
  /\ (stage2_pending_note ∈ trace_of r ->
      is_Some (s !! "analysis_results") /\ s !! "submitted_content" = None)
  /\ (Metric "Completed Projects" (JStr "1") ∈ trace_of r
      <-> is_Some (s !! "designer_results"))
  /\ (forall fields,
        s !! "analysis_results" = Some (JObj fields) ->
        is_obj (default (JObj []) (assoc "report_data" fields)) = true ->
        s !! "submitted_content" = None ->
        stage2_pending_note ∈ trace_of r).
Proof.
  intros r. subst r.
  destruct (projects_tab_tells h s) as [Hs Ht]. rewrite Forall_forall in Ht.
  split; [done|]. split; [|split; [|split]].
  - intros Hin. by apply (Ht _ Hin).
  - intros Hin. by apply (Ht _ Hin).
  - split.
    + intros Hin. by apply (Ht _ Hin).
    + intros Hd. destruct (projects_tab_overview h s) as [rest ->].
      rewrite (bool_decide_true _ Hd). listed.
  - intros fields. apply projects_tab_pending.
Qed.

Lemma projects_tab_tells_stage2_by_the_inline_text_witness :
  let r := brand_manager_projects_tab host0 session_after_stage2 in
  Metric "Completed Projects" (JStr "1") ∈ trace_of r
  /\ stage2_pending_note ∈ trace_of r.
Proof.
  intros r.
  destruct (projects_tab_tells_stage2_by_the_inline_text host0 session_after_stage2)
    as (_ & _ & _ & Hc & Hp).
  split.
  - apply Hc. by eexists.
  - apply (Hp _ eq_refl eq_refl eq_refl).
Defined.

(** ** What an upload sends *)

Lemma analyze_document_posts_once (h : host) (e : env) (ty : string) (sg : bool)
    (f : upload) (cw : json) (s : session) :
  Forall (fun ev => is_post ev = true -> ev = upload_request h ty sg f cw s)
    (trace_of (analyze_document h e ty sg f cw s)).
Proof.
  set (E := fun ev => is_post ev = true -> ev = upload_request h ty sg f cw s).
  unfold analyze_document, try_except.
  erewrite bind_run by reflexivity. erewrite bind_run by reflexivity.
  rewrite !prepend_nil.
  match goal with
  | |- context [bind (requests_post ?u ?fl ?d ?t ?r) ?k] =>
      assert (Hbody : confined
                        ["analysis_results"; "uploaded_file"; "project_brief_id";
                         "content_writer_id"; "submitted_content"] E
                        (bind (requests_post u fl d t r) k))
  end.
  { unfold show_stage1_integration, content_submission_form.
    confine; try (intros Hp; discriminate Hp); try listed.
    - intros _. reflexivity.
    - eapply confined_weaken; [| |apply summary_sends_nothing].
      + by intros ? ?%not_elem_of_nil.
      + intros ev Hq Hp. by destruct ev. }
  match goal with
  | |- context [bind (requests_post ?u ?fl ?d ?t ?r) ?k s] =>
      destruct (Hbody s) as [_ Ht];
      destruct (bind (requests_post u fl d t r) k s) as [[[[]| |ex|] s1] l1]
  end; try exact Ht.
  unfold trace_of in *; simpl in *.
  apply Forall_app. split; [done|]. repeat constructor. intros Hp. discriminate Hp.
Qed.

Ltac not_here H :=
  repeat (apply elem_of_cons in H as [H|H]; [discriminate H|]).

(** X12: the Upload & Analyze tab posts only when a file is there,
    Analyze is pressed and the content-writer select box resolved to a
    truthy id; the request goes to /upload with that file, that id, the
    two settings of the sidebar and the project id and name the project
    selection of this very run left in the session. *)
Theorem upload_carries_the_selection_of_the_run (h : host) (e : env)
    (ty : string) (sg : bool) (s : session) (u : string)
    (files : list (string * upload)) (data : list (string * json)) (t : Z) :
  Post u files data t ∈ trace_of (upload_and_analyze_tab h e ty sg s) ->
  exists f cw,
    uploaded_file e = Some f /\ click_analyze e = true
    /\ chosen_content_writer h e = Ok cw /\ truthy cw = true
    /\ Post u files data t
       = upload_request h ty sg f cw (session_of (select_project h e s)).
Proof.
  intros Hin.
  destruct (select_content_writer_run h e ∅) as (cw & Hcw & _).
  rewrite (upload_tab_run h e ty sg s cw Hcw), finish_trace in Hin.
  assert (Hproj : Forall (fun ev => is_post ev = false)
                    (trace_of (select_project h e s))).
  { by destruct (select_project_frame h e s). }
  assert (Hsel : Forall (fun ev => is_post ev = false)
                   (trace_of (select_content_writer h e ∅))).
  { by destruct (select_content_writer_quiet h e ∅). }
  destruct (select_project h e s) as [[o s1] l1] eqn:Hp.
  unfold trace_of in Hproj; simpl in Hproj.
  destruct o as [[]| |ex|];
    try (exfalso; simpl in Hin; not_here Hin;
         exact (no_post_in _ _ _ _ _ Hproj Hin)).
  unfold prepend, trace_of in Hin; simpl in Hin. not_here Hin.
  rewrite !elem_of_app in Hin. destruct Hin as [[Hin|Hin]|Hin].
  { exfalso. exact (no_post_in _ _ _ _ _ Hproj Hin). }
  { exfalso. exact (no_post_in _ _ _ _ _ Hsel Hin). }
  destruct (truthy cw) eqn:Htr.
  2:{ exfalso. rewrite (upload_section_no_writer h e ty sg cw s1 Htr) in Hin.
      destruct (uploaded_file e) as [f|]; [|by apply elem_of_nil in Hin].
      destruct (click_analyze e); simpl in Hin; not_here Hin;
        by apply elem_of_nil in Hin. }
  rewrite (upload_section_writer h e ty sg cw s1 Htr) in Hin.
  destruct (uploaded_file e) as [f|] eqn:Hf; [|by apply elem_of_nil in Hin].
  destruct (click_analyze e) eqn:Hclick.
  2:{ exfalso. simpl in Hin. not_here Hin. by apply elem_of_nil in Hin. }
  exists f, cw. repeat split; try done.
  simpl in Hin. not_here Hin.
  pose proof (analyze_document_posts_once h e ty sg f cw s1) as Honce.
  rewrite Forall_forall in Honce. by apply (Honce _ Hin).
Qed.

Lemma upload_carries_the_selection_of_the_run_witness :
  let e := with_project 2 " Spring sale " projects_listing
             (analyze_pressed 1 (ok_json stage1_result)) in
  exists f cw,
    uploaded_file e = Some f /\ click_analyze e = true
    /\ chosen_content_writer host0 e = Ok cw /\ truthy cw = true
    /\ Post (url host0 "/upload") [("file", brief_pdf)]
         (upload_data "comprehensive" true (JInt 7) JNull (JStr " Spring sale ")) 300
       = upload_request host0 "comprehensive" true f cw
           (session_of (select_project host0 e ∅)).
Proof.
  intros e.
  apply (upload_carries_the_selection_of_the_run host0 e "comprehensive" true ∅).
  vm_compute. listed.
Defined.

(** ** Handing the workflow over *)

Lemma brand_manager_changes_role (h : host) (e : env) (t1 t2 t3 : M unit)
    (s : session) :
  click_change_role e = true ->
  show_brand_manager_page h e t1 t2 t3 s = (Rerun, <["user_role" := JNull]> s, []).
Proof.
  intros Hc. unfold show_brand_manager_page. rewrite call_run, Hc. cbn [when].
  rewrite bind_assoc_at. erewrite bind_run by reflexivity.
  erewrite bind_rerun by reflexivity. reflexivity.
Qed.

Lemma role_selection_run (e : env) (s : session) :
  show_role_selection_page e s
  = if click_brand_manager e
    then (Rerun, <["user_role" := JStr "brand_manager"]> s, [])
    else if click_content_writer e
         then (Rerun, <["user_role" := JStr "content_writer"]> s, [])
         else (Ok tt, s, []).
Proof.
  unfold show_role_selection_page. rewrite call_run.
  destruct (click_brand_manager e), (click_content_writer e); cbn [when]; run;
    repeat (erewrite bind_rerun by reflexivity); reflexivity.
Qed.

(** X2: Change Role on the page of the brand manager, followed by
    Continue as Content Writer, hands the workflow over: both runs end in
    a rerun and show nothing, and the session after them is the session
    before with [user_role] set to content_writer. The project brief id
    Stage 2 reads and the stage are those the brand manager left. *)
Theorem role_handoff_keeps_the_workflow (h : host) (e1 e2 : env)
    (export_options : json -> M unit) (s : session) :
  s !! "user_role" = Some (JStr "brand_manager") ->
  click_change_role e1 = true ->
  click_brand_manager e2 = false -> click_content_writer e2 = true ->
  let r1 := script h e1 export_options s in
  let r2 := script h e2 export_options (session_of r1) in
  outcome_of r1 = Rerun /\ trace_of r1 = []
  /\ outcome_of r2 = Rerun /\ trace_of r2 = []
  /\ session_of r2 = <["user_role" := JStr "content_writer"]> s
  /\ session_brief_id (session_of r2) = session_brief_id s
  /\ stage_of (session_of r2) = stage_of s.
Proof.
  intros Hrole Hc Hbm Hcw r1 r2.
  assert (H1 : r1 = (Rerun, <["user_role" := JNull]> s, [])).
  { subst r1. unfold script. rewrite (main_dispatch h e1 _ _ _ _ s _ Hrole).
    cbn [String.eqb Ascii.eqb Bool.eqb].
    by rewrite (brand_manager_changes_role h e1 _ _ _ s Hc). }
  assert (H2 : r2 = (Rerun, <["user_role" := JStr "content_writer"]> s, [])).
  { subst r2. rewrite H1. cbn [session_of fst snd]. unfold script, main.
    rewrite call_run. unfold has_key. erewrite bind_run by reflexivity.
    rewrite (has_key_true _ "user_role" JNull) by apply lookup_insert_eq.
    run. erewrite bind_run
      by (unfold state_attr; rewrite lookup_insert_eq; reflexivity).
    run. rewrite role_selection_run, Hbm, Hcw. cbn.
    by rewrite insert_insert_eq. }
  rewrite H2, H1. cbn [outcome_of session_of trace_of fst snd].
  repeat split; try done.
  - unfold session_brief_id. by rewrite lookup_insert_ne.
  - apply stage_of_frame; by rewrite lookup_insert_ne.
Qed.

Lemma role_handoff_keeps_the_workflow_witness :
  session_brief_id
    (session_of
       (script host0 (press (Some ContentWriterButton) nothing_pressed) no_export
          (session_of (script host0 change_role_pressed no_export
                         session_after_stage1))))
  = Some (JStr "PB-123").
Proof.
  destruct (role_handoff_keeps_the_workflow host0 change_role_pressed
              (press (Some ContentWriterButton) nothing_pressed) no_export
              session_after_stage1 eq_refl eq_refl eq_refl eq_refl)
    as (_ & _ & _ & _ & _ & Hid & _).
  rewrite Hid. reflexivity.
Defined.

(** X7: without analysis results in the session the Analysis Results
    tab and the My Projects tab show their header and one note and end
    there, before anything is read and before the export buttons; the
    Content History tab does the same without designer results. *)
Theorem tabs_without_results_show_a_note (h : host) (e : env)
    (export_options : json -> M unit) (s : session) :
  (s !! "analysis_results" = None ->
   analysis_results_tab h export_options s
   = (Ok tt, s,
      [ Header "📊 Analysis Results";
        Alert Info "📤 No analysis results available. Please upload and analyze a document first." ])
   /\ content_writer_projects_tab h s
      = (Ok tt, s,
         [ Header "📋 My Assigned Projects";
           Alert Info "📤 No projects assigned yet. Brand managers will upload project briefs and assign them to you." ]))
  /\ (s !! "designer_results" = None ->
      content_writer_history_tab h e s
      = (Ok tt, s,
         [ Header "📚 Content History";
           Alert Info "📤 No completed content submissions yet. Submit your content to see history here." ])).
Proof.
  split.
  - intros Ha. pose proof (has_key_false s _ Ha) as Hk. split.
    + unfold analysis_results_tab. rewrite call_run. unfold has_key.
      erewrite bind_run by reflexivity. erewrite bind_run by reflexivity.
      rewrite Hk. run. reflexivity.
    + unfold content_writer_projects_tab. rewrite call_run. unfold has_key.
      erewrite bind_run by reflexivity. erewrite bind_run by reflexivity.
      rewrite Hk. run. reflexivity.
  - intros Hd. pose proof (has_key_false s _ Hd) as Hk.
    unfold content_writer_history_tab. rewrite call_run. unfold has_key.
    erewrite bind_run by reflexivity. erewrite bind_run by reflexivity.
    rewrite Hk. run. reflexivity.
Qed.

Lemma tabs_without_results_show_a_note_witness :
  content_writer_history_tab host0 nothing_pressed session_after_stage1
  = (Ok tt, session_after_stage1,
     [ Header "📚 Content History";
       Alert Info "📤 No completed content submissions yet. Submit your content to see history here." ]).
Proof.
  exact (proj2 (tabs_without_results_show_a_note host0 nothing_pressed no_export
                  session_after_stage1) eq_refl).
Defined.

(** X23: the Projects tab reads the content writer from the stored
    Stage 1 result, not from [content_writer_id] of the session: with a
    result that carries no such key it shows "Not assigned", whoever was
    chosen. *)
Theorem projects_tab_names_the_writer_of_the_result (h : host) (s : session)
    (fields : list (string * json)) :
  s !! "analysis_results" = Some (JObj fields) ->
  is_obj (default (JObj []) (assoc "report_data" fields)) = true ->
  Alert Info ("**Content Writer:** "
              +:+ py_str h (default (JStr "Not assigned")
                              (assoc "content_writer_id" fields)))
  ∈ trace_of (brand_manager_projects_tab h s).
Proof.
  intros Ha Hrd.
  pose proof (has_key_true s _ _ Ha) as Hka.
  destruct (is_obj_shape _ Hrd) as [rd Hrd'].
  unfold brand_manager_projects_tab, current_project_status.
  rewrite call_run, finish_trace. run.
  unfold prepend, trace_of. cbn [snd].
  rewrite elem_of_app. left. listed.
Qed.

Lemma projects_tab_names_the_writer_of_the_result_witness :
  session_after_stage1 !! "content_writer_id" = Some (JInt 7)
  /\ Alert Info "**Content Writer:** Not assigned"
     ∈ trace_of (brand_manager_projects_tab host0 session_after_stage1).
Proof.
  split; [reflexivity|].
  exact (projects_tab_names_the_writer_of_the_result host0 session_after_stage1
           _ eq_refl eq_refl).
Defined.

(** ** The inline form and the Analyze button *)

Lemma upload_tab_without_analyze (h : host) (e : env) (ty : string) (sg : bool) :
  click_analyze e = false ->
  confined ["selected_project_id"; "selected_project_name"] (fun _ => True)
    (upload_and_analyze_tab h e ty sg).
Proof.
  intros Hc. unfold upload_and_analyze_tab, upload_section. rewrite Hc.
  cbn [when].
  unfold select_project, clear_project, select_content_writer, resolve_recipient,
    eligible_users, success_and.
  confine; try done; listed.
Qed.

Lemma upload_tab_without_inline_form (h : host) (e : env) (ty : string) (sg : bool) :
  click_inline_submit e && nonempty (strip (inline_content_text e)) = false ->
  confined ["selected_project_id"; "selected_project_name"; "analysis_results";
            "uploaded_file"; "project_brief_id"; "content_writer_id"]
    (fun _ => True) (upload_and_analyze_tab h e ty sg).
Proof.
  intros Hc. unfold upload_and_analyze_tab, upload_section, analyze_document,
    content_submission_form. rewrite Hc. cbn [when].
  unfold select_project, clear_project, select_content_writer, resolve_recipient,
    eligible_users, show_stage1_integration, success_and.
  confine; try done; try listed.
  eapply confined_weaken; [| |apply summary_sends_nothing]; [|done].
  by intros ? ?%not_elem_of_nil.
Qed.

(** At most one button reads [True] in a run. *)
Lemma one_button_per_run (b b' : button) (e : env) :
  clicked b e = true -> clicked b' e = true -> b = b'.
Proof.
  unfold clicked. destruct (pressed e) as [p|]; [|done].
  by destruct b, b', p.
Qed.

(** So no run of the Upload & Analyze tab stores a submitted text. *)
Lemma upload_tab_keeps_the_submitted_content (h : host) (e : env)
    (ty : string) (sg : bool) (s : session) :
  session_of (upload_and_analyze_tab h e ty sg s) !! "submitted_content"
  = s !! "submitted_content".
Proof.
  destruct (click_analyze e) eqn:Ha.
  - assert (Hi : click_inline_submit e = false).
    { destruct (click_inline_submit e) eqn:Hi; [|done].
      by pose proof (one_button_per_run _ _ _ Ha Hi). }
    assert (Hc : click_inline_submit e
                 && nonempty (strip (inline_content_text e)) = false)
      by (by rewrite Hi).
    destruct (upload_tab_without_inline_form h e ty sg Hc s) as [Hs _].
    apply Hs. absent.
  - destruct (upload_tab_without_analyze h e ty sg Ha s) as [Hs _].
    apply Hs. absent.
Qed.

(** X24: the inline content form of the Upload & Analyze tab takes effect
    only in a run in which the Analyze button is pressed as well: unless
    Analyze and the submit button of the form are both pressed and the
    text is not blank, [submitted_content] stays as it was. *)
Theorem inline_form_needs_the_analyze_button (h : host) (e : env)
    (ty : string) (sg : bool) (s : session) :
  click_analyze e = false
  \/ click_inline_submit e && nonempty (strip (inline_content_text e)) = false ->
  session_of (upload_and_analyze_tab h e ty sg s) !! "submitted_content"
  = s !! "submitted_content".
Proof.
  intros [Hc|Hc].
  - destruct (upload_tab_without_analyze h e ty sg Hc s) as [Hs _].
    apply Hs. absent.
  - destruct (upload_tab_without_inline_form h e ty sg Hc s) as [Hs _].
    apply Hs. absent.
Qed.

Lemma inline_form_needs_the_analyze_button_witness :
  let e := inline_submit_pressed in
  click_inline_submit e = true
  /\ session_of (upload_and_analyze_tab host0 e "comprehensive" true
                   session_after_stage1) !! "submitted_content" = None.
Proof.
  intros e. split; [reflexivity|].
  rewrite (inline_form_needs_the_analyze_button host0 e "comprehensive" true
             session_after_stage1 (or_introl eq_refl)).
  reflexivity.
Defined.

(** ** Who can be a recipient *)

Lemma users_not_found_cases (e : env) :
  ~ users_found e ->
  (exists ex, users_reply e = Failed ex)
  \/ (exists r, users_reply e = Replied r /\ (status_code r =? 200) = false)
  \/ (exists r ex, users_reply e = Replied r /\ (status_code r =? 200) = true
                   /\ json_body r = inl ex)
  \/ (exists r v, users_reply e = Replied r /\ (status_code r =? 200) = true
                  /\ json_body r = inr v /\ is_obj v = false)
  \/ (exists r fields, users_reply e = Replied r /\ (status_code r =? 200) = true
                       /\ json_body r = inr (JObj fields)
                       /\ (truthy (default JNull (assoc "success" fields)) = false
                           \/ (truthy (default JNull (assoc "success" fields)) = true
                               /\ truthy (default JNull (assoc "users" fields))
                                  = false))).
Proof.
  intros Hnot. destruct (users_reply e) as [r|ex] eqn:Hr; [|left; by eexists].
  right. destruct (status_code r =? 200) eqn:Hst; [|left; by eexists].
  right. destruct (json_body r) as [ex|v] eqn:Hb; [left; by eexists _, _|].
  right. destruct (is_obj v) eqn:Hobj; [|left; by eexists _, _].
  right. destruct (is_obj_shape v Hobj) as [fields ->]. exists r, fields.
  repeat split; try done.
  destruct (truthy (default JNull (assoc "success" fields))) eqn:Hok; [|by left].
  right. split; [done|].
  destruct (truthy (default JNull (assoc "users" fields))) eqn:Hu; [|done].
  exfalso. apply Hnot. exists r, fields. apply Z.eqb_eq in Hst. by rewrite Hr.
Qed.

(** X25: unless the listing of the users comes with status 200, a JSON
    object, a truthy [success] and a truthy [users], both select boxes
    resolve to nobody, whatever is chosen. *)
Theorem failed_users_listing_names_no_recipient (h : host) (e : env) :
  ~ users_found e ->
  chosen_content_writer h e = Ok JNull /\ chosen_designer h e = Ok JNull.
Proof.
  intros Hnot. unfold chosen_content_writer, chosen_designer,
    select_content_writer, select_designer, requests_get, response_json, success_and.
  destruct (users_not_found_cases e Hnot)
    as [[ex Hr]|[(r & Hr & Hst)|[(r & ex & Hr & Hst & Hb)|[(r & v & Hr & Hst & Hb & Hobj)
       |(r & fields & Hr & Hst & Hb & Hf)]]]]; rewrite Hr.
  - split; run; rewrite outcome_prepend;
      (erewrite try_except_raised by (run; reflexivity)); reflexivity.
  - split; run; rewrite outcome_prepend;
      (erewrite try_except_ok by (run; rewrite ?Hst; run; reflexivity)); reflexivity.
  - split; run; rewrite outcome_prepend;
      (erewrite try_except_raised
         by (run; rewrite ?Hst; simpl; rewrite ?Hb; run; reflexivity)); reflexivity.
  - destruct (py_get_raises v "success" JNull ∅ Hobj) as (msg & Hg).
    split; run; rewrite outcome_prepend;
      (erewrite try_except_raised
         by (run; rewrite ?Hst; simpl; rewrite ?Hb; run;
             reflexivity)); reflexivity.
  - destruct Hf as [Hok|[Hok Hu]].
    + split; run; rewrite outcome_prepend;
        (erewrite try_except_ok
           by (run; rewrite ?Hst; simpl; rewrite ?Hb; run; reflexivity)); reflexivity.
    + split; run; rewrite outcome_prepend;
        (erewrite try_except_ok
           by (run; rewrite ?Hst; simpl; rewrite ?Hb; run; reflexivity)); reflexivity.
Qed.

Lemma failed_users_listing_names_no_recipient_witness :
  let e := with_users server_error second_jane_chosen in
  chosen_content_writer host0 e = Ok JNull /\ chosen_designer host0 e = Ok JNull.
Proof.
  intros e. apply failed_users_listing_names_no_recipient.
  intros (r & fields & [= <-] & Hst & _). discriminate Hst.
Defined.

Lemma yields_weaken {A} (P Q : A -> Prop) (m : M A) :
  (forall a, P a -> Q a) -> yields P m -> yields Q m.
Proof. intros H Hm s a Ha. apply H. by apply (Hm s). Qed.

Lemma yields_py_next (test : json -> M bool) (l : list json) :
  yields (fun v => v = JNull \/ v ∈ l) (py_next test l).
Proof.
  induction l as [|x l IH]; simpl.
  - apply yields_ret. by left.
  - apply yields_bind. intros [|].
    + apply yields_ret. right. apply list_elem_of_here.
    + eapply yields_weaken; [|exact IH].
      intros v [->|Hv]; [by left | right; by apply list_elem_of_further].
Qed.

Lemma stops_raise {A} (c : exn_class) (msg : string) : stops (@raise A c msg).
Proof. intros s a H. discriminate H. Qed.

Lemma yields_py_item (fields : list (string * json)) (k : string) :
  yields (fun x => assoc k fields = Some x) (py_item (JObj fields) k).
Proof.
  simpl. destruct (assoc k fields) as [x|]; [by apply yields_ret|].
  apply yields_stops, stops_raise.
Qed.

Lemma yields_field (v : json) (k : string) :
  yields (fun x => x = field k v) (py_item v k).
Proof.
  destruct v; try (apply yields_stops, stops_raise).
  eapply yields_weaken; [|apply yields_py_item].
  intros x Hx. simpl. by rewrite Hx.
Qed.

Lemma yields_eligible (user : json) :
  yields (fun b => b = true -> eligible user = true)
    (i <- py_get user "basecamp_user_id" JNull;; ret (truthy i)).
Proof.
  destruct user; try (apply yields_stops, stops_raise).
  intros s a [= <-]. done.
Qed.

Lemma yields_eligible_users (all l : list json) :
  (forall u, u ∈ l -> u ∈ all) ->
  yields (Forall (fun u => u ∈ all /\ eligible u = true))
    (py_listcomp
       (fun user => i <- py_get user "basecamp_user_id" JNull;; ret (truthy i))
       ret l).
Proof.
  induction l as [|x l IH]; intros Hsub; simpl.
  - by apply yields_ret.
  - assert (IH' := IH (fun u Hu => Hsub u (list_elem_of_further _ _ _ Hu))).
    eapply yields_bind_after; [apply yields_eligible|].
    intros [|] Hb; [|exact IH'].
    eapply (yields_bind_after (fun y => y = x)); [by apply yields_ret|].
    intros y ->.
    eapply yields_bind_after; [exact IH'|]. intros r Hr.
    apply yields_ret. apply Forall_cons_2; [|done].
    split; [apply Hsub, list_elem_of_here | by apply Hb].
Qed.

Lemma yields_resolve_recipient (h : host) (candidates : list json) (choice : nat)
    (announce : json -> M unit) :
  yields (fun v => v = JNull
                   \/ exists u, u ∈ candidates /\ v = field "basecamp_user_id" u)
    (resolve_recipient h candidates choice announce).
Proof.
  unfold resolve_recipient. apply yields_bind. intros labels. cbv zeta.
  match goal with
  | |- yields _ (if ?b then _ else _) => destruct b
  end; [|apply yields_ret; by left].
  eapply yields_bind_after; [apply yields_py_next|].
  intros u Hu. destruct (truthy u) eqn:Htr; [|apply yields_ret; by left].
  destruct Hu as [->|Hin]; [done|].
  eapply yields_bind_after; [apply yields_field|]. intros id ->.
  apply yields_bind. intros _. apply yields_ret. right. by exists u.
Qed.

Lemma yields_users_reply {B} (P : B -> Prop) (u : string) (t : Z) (r : response)
    (k : response -> M B) :
  yields P (k r) -> yields P (bind (requests_get u t (Replied r)) k).
Proof.
  intros H. eapply (yields_bind_after (fun x => x = r)); [|by intros ? ->].
  intros s a [= <-]. done.
Qed.

Lemma yields_listed_users (fields : list (string * json)) (users : list json) :
  assoc "users" fields = Some (JList users) ->
  yields (Forall (fun u => u ∈ users /\ eligible u = true))
    (eligible_users (JObj fields)).
Proof.
  intros Hu. unfold eligible_users. simpl. rewrite Hu.
  eapply (yields_bind_after (fun x => x = JList users));
    [by apply yields_ret|]. intros ? ->.
  eapply (yields_bind_after (fun x => x = users));
    [by apply yields_ret|]. intros ? ->.
  by apply yields_eligible_users.
Qed.

Lemma listed_recipient_of (users candidates : list json) (v : json) :
  Forall (fun u => u ∈ users /\ eligible u = true) candidates ->
  v = JNull \/ (exists u, u ∈ candidates /\ v = field "basecamp_user_id" u) ->
  listed_recipient users v.
Proof.
  rewrite Forall_forall. intros Hc [->|(u & Hin & ->)]; [by left|].
  destruct (Hc u Hin) as [Hu He]. right. by exists u.
Qed.

Lemma content_writer_is_listed (h : host) (e : env) (r : response)
    (fields : list (string * json)) (users : list json) :
  users_reply e = Replied r -> json_body r = inr (JObj fields) ->
  assoc "users" fields = Some (JList users) ->
  yields (listed_recipient users) (select_content_writer h e).
Proof.
  intros Hr Hb Hu. unfold select_content_writer. rewrite Hr.
  apply yields_bind. intros _. apply yields_bind. intros _.
  apply yields_try_except.
  2:{ intros ex. apply yields_bind. intros _. apply yields_bind. intros _.
      apply yields_ret. by left. }
  apply yields_users_reply.
  destruct (status_code r =? 200);
    [|apply yields_bind; intros _; apply yields_ret; by left].
  unfold response_json. rewrite Hb.
  eapply (yields_bind_after (fun x => x = JObj fields)); [by apply yields_ret|].
  intros ? ->. apply yields_bind. intros found.
  destruct (truthy found);
    [|apply yields_bind; intros _; apply yields_ret; by left].
  eapply yields_bind_after; [by apply yields_listed_users|].
  intros candidates Hc.
  eapply (yields_bind_after (fun v => listed_recipient users v)).
  - destruct candidates as [|c cs].
    + apply yields_bind. intros _. apply yields_ret. by left.
    + eapply yields_weaken; [|apply yields_resolve_recipient].
      intros v. by apply listed_recipient_of.
  - intros v Hv. apply yields_bind. intros _. by apply yields_ret.
Qed.

Lemma designer_is_listed (h : host) (e : env) (r : response)
    (fields : list (string * json)) (users : list json) :
  users_reply e = Replied r -> json_body r = inr (JObj fields) ->
  assoc "users" fields = Some (JList users) ->
  yields (listed_recipient users) (select_designer h e).
Proof.
  intros Hr Hb Hu. unfold select_designer. rewrite Hr.
  apply yields_bind. intros _. apply yields_bind. intros _.
  apply yields_try_except.
  2:{ intros ex. apply yields_bind. intros _. apply yields_ret. by left. }
  apply yields_users_reply.
  destruct (status_code r =? 200);
    [|apply yields_bind; intros _; apply yields_ret; by left].
  unfold response_json. rewrite Hb.
  eapply (yields_bind_after (fun x => x = JObj fields)); [by apply yields_ret|].
  intros ? ->. apply yields_bind. intros found.
  destruct (truthy found);
    [|apply yields_bind; intros _; apply yields_ret; by left].
  eapply yields_bind_after; [by apply yields_listed_users|].
  intros candidates Hc.
  destruct candidates as [|c cs].
  - apply yields_bind. intros _. apply yields_ret. by left.
  - eapply yields_weaken; [|apply yields_resolve_recipient].
    intros v. by apply listed_recipient_of.
Qed.

(** X26: whatever is chosen, what a select box of users resolves to is
    nobody or the external identifier of a user of the listing whose
    [basecamp_user_id] is truthy: a user without one is never the content
    writer of Stage 1 nor the designer of Stage 2. *)
Theorem recipients_are_eligible_listed_users (h : host) (e : env) (r : response)
    (fields : list (string * json)) (users : list json) :
  users_reply e = Replied r -> json_body r = inr (JObj fields) ->
  assoc "users" fields = Some (JList users) ->
  (forall v, chosen_content_writer h e = Ok v -> listed_recipient users v)
  /\ (forall v, chosen_designer h e = Ok v -> listed_recipient users v).
Proof.
  intros Hr Hb Hu. split; intros v Hv.
  - exact (content_writer_is_listed h e r fields users Hr Hb Hu ∅ v Hv).
  - exact (designer_is_listed h e r fields users Hr Hb Hu ∅ v Hv).
Qed.

Lemma recipients_are_eligible_listed_users_witness :
  listed_recipient [jane; jane_twin; omar] (JInt 7).
Proof.
  destruct (recipients_are_eligible_listed_users host0 second_jane_chosen _ _ _
              eq_refl eq_refl eq_refl) as [Hw _].
  apply Hw. reflexivity.
Defined.

(** ** The gate of Stage 2 after an upload *)

Lemma analyze_document_stores (h : host) (e : env) (ty : string) (sg : bool)
    (f : upload) (cw : json) (s : session) (r : response) (v : json) :
  upload_reply e = Replied r -> status_code r = 200 -> json_body r = inr v ->
  session_of (analyze_document h e ty sg f cw s) !! "analysis_results" = Some v.
Proof.
  intros Hr Hst Hb.
  assert (H2 : stored_result f v s !! "analysis_results" = Some v).
  { unfold stored_result. by rewrite lookup_insert_ne, lookup_insert_eq. }
  destruct (analyze_document_succeeded h e ty sg f cw s r v Hr Hst Hb)
    as [[_ (shown & ex & ->)]|[_ (shown & ->)]];
    cbn [session_of fst snd]; [done|].
  rewrite inline_form_frame by done.
  destruct (brief_id_of v); [|done].
  unfold with_ids. by rewrite !lookup_insert_ne.
Qed.

(** X27: after a reply to the upload with status 200 and a JSON body, the
    project brief id the Submit Content tab reads is the one of that
    body, whether the body could be shown or not; when it could not, the
    key [project_brief_id] of the session is left as it was, so Stage 2
    can be open without it. *)
Theorem stage2_gate_follows_the_stored_body (h : host) (e : env)
    (ty : string) (sg : bool) (f : upload) (cw : json) (s : session)
    (r : response) (v : json) :
  upload_reply e = Replied r -> status_code r = 200 -> json_body r = inr v ->
  let s' := session_of (analyze_document h e ty sg f cw s) in
  session_brief_id s' = brief_id_of v
  /\ (integration_fits v && summary_fits v = false ->
      s' !! "project_brief_id" = s !! "project_brief_id").
Proof.
  intros Hr Hst Hb s'. split.
  - apply session_brief_id_stored. by eapply analyze_document_stores.
  - intros Hfit. subst s'.
    destruct (analyze_document_succeeded h e ty sg f cw s r v Hr Hst Hb)
      as [[_ (shown & ex & ->)]|[Hyes _]]; [|congruence].
    cbn [session_of fst snd]. unfold stored_result.
    by rewrite !lookup_insert_ne.
Qed.

Lemma stage2_gate_follows_the_stored_body_witness :
  let s' := session_of (analyze_document host0 (analyze_pressed 1 (ok_json odd_result))
                          "comprehensive" true brief_pdf (JInt 7) ∅) in
  session_brief_id s' = Some (JStr "PB-9") /\ s' !! "project_brief_id" = None.
Proof.
  intros s'.
  destruct (stage2_gate_follows_the_stored_body host0
              (analyze_pressed 1 (ok_json odd_result)) "comprehensive" true
              brief_pdf (JInt 7) ∅ _ odd_result eq_refl eq_refl eq_refl)
    as [Hgate Hkey].
  split; [exact Hgate | exact (Hkey eq_refl)].
Defined.
